(** * RIW2: the escape protocol and the universe ledger

    A shallow embedding of [src/core/universe_state.py] and
    [src/core/escape_protocol.py].  Python objects that the code mutates in
    place are modelled by explicit state passing: every method takes the
    state of its receiver and answers its return value together with the
    receiver's next state.  Readings of the wall clock
    ([datetime.now().isoformat()]), fresh identifiers ([str(uuid4())]) and
    random numbers ([random.randint]) are inputs of the methods that ask for
    them. *)

From stdpp Require Import gmap strings list fin_maps.
From Stdlib Require Import ZArith DecimalString.

(** ** Python values

    The dictionaries built by [to_dict] and read by [from_dict] hold
    arbitrary Python objects.  A float is never computed with in this code,
    only carried, so it is kept as its IEEE-754 binary64 bit pattern. *)

Record pyfloat := PyFloat { float_bits : Z }.

#[warnings="-register-all"]
Inductive pyval :=
  | PNone
  | PBool (b : bool)
  | PInt (z : Z)
  | PFloat (f : pyfloat)
  | PStr (s : string)
  | PList (l : list pyval)
  | PDict (d : gmap string pyval).

(** A Python [dict] with string keys. *)
Abbreviation pydict := (gmap string pyval).

(** [data[k]]: raises [KeyError] (here [None]) when the key is absent. *)
Definition getitem (data : pydict) (k : string) : option pyval := data !! k.

(** [data.get(k, dflt)]; [data.get(k)] is [get data k PNone]. *)
Definition get (data : pydict) (k : string) (dflt : pyval) : pyval :=
  default dflt (data !! k).

(** Python stores whatever object the dictionary holds.  The records below
    follow the dataclass annotations, so an object of another type has no
    image in them: the readers below answer [None] there, as [from_dict]
    does here wherever Python raises. *)
Definition as_str (v : pyval) : option string :=
  match v with PStr s => Some s | _ => None end.
Definition as_int (v : pyval) : option Z :=
  match v with PInt z => Some z | _ => None end.
Definition as_bool (v : pyval) : option bool :=
  match v with PBool b => Some b | _ => None end.
Definition as_float (v : pyval) : option pyfloat :=
  match v with PFloat f => Some f | _ => None end.
Definition as_list (v : pyval) : option (list pyval) :=
  match v with PList l => Some l | _ => None end.
Definition as_dict (v : pyval) : option pydict :=
  match v with PDict d => Some d | _ => None end.
Definition as_str_list (v : pyval) : option (list string) :=
  as_list v ≫= mapM as_str.

(** [Optional[str]] and [Optional[Dict[str, Any]]]. *)
Definition as_opt_str (v : pyval) : option (option string) :=
  match v with PNone => Some None | PStr s => Some (Some s) | _ => None end.
Definition as_opt_dict (v : pyval) : option (option pydict) :=
  match v with PNone => Some None | PDict d => Some (Some d) | _ => None end.

Definition of_opt_str (o : option string) : pyval :=
  match o with Some s => PStr s | None => PNone end.
Definition of_opt_dict (o : option pydict) : pyval :=
  match o with Some d => PDict d | None => PNone end.
Definition of_str_list (l : list string) : pyval := PList (PStr <$> l).

(** A dictionary display [{k1: v1, ..., kn: vn}] is [list_to_map] of its
    items; looking a key up in it scans the items. *)
Fixpoint dict_literal_get (k : string) (items : list (string * pyval)) : option pyval :=
  match items with
  | [] => None
  | (k', v) :: items' => if String.eqb k' k then Some v else dict_literal_get k items'
  end.

(** [str(n)] for an [int], and the formatting of an [Optional[str]] inside
    an f-string. *)
Definition str_of_int (n : Z) : string := NilZero.string_of_int (Z.to_int n).
Definition str_of_opt_str (o : option string) : string :=
  match o with Some s => s | None => "None" end.

(** ** universe_state.py *)

Inductive SourceEnergyLevel :=
  | E_COMMON | D_RARE | C_PRECIOUS | B_LEGENDARY | A_SACRED | OMEGA_ABSOLUTE.

#[global] Instance SourceEnergyLevel_eq_dec : EqDecision SourceEnergyLevel.
Proof. solve_decision. Defined.

Module SourceEnergyLevel_.
(** [level.value] *)
Definition value (l : SourceEnergyLevel) : string :=
  match l with
  | E_COMMON => "E_Common"
  | D_RARE => "D_Rare"
  | C_PRECIOUS => "C_Precious"
  | B_LEGENDARY => "B_Legendary"
  | A_SACRED => "A_Sacred"
  | OMEGA_ABSOLUTE => "Omega_Absolute"
  end.

(** [SourceEnergyLevel(v)]: the member whose value is [v]; [ValueError]
    (here [None]) when there is none.  The argument is a value as a loaded
    document holds it; a member of the enumeration, which the constructor
    gives back as it is, is not a [pyval]. *)
Definition of_value (v : pyval) : option SourceEnergyLevel :=
  s ← as_str v;
  if String.eqb s "E_Common" then Some E_COMMON
  else if String.eqb s "D_Rare" then Some D_RARE
  else if String.eqb s "C_Precious" then Some C_PRECIOUS
  else if String.eqb s "B_Legendary" then Some B_LEGENDARY
  else if String.eqb s "A_Sacred" then Some A_SACRED
  else if String.eqb s "Omega_Absolute" then Some OMEGA_ABSOLUTE
  else None.
End SourceEnergyLevel_.

Module SourceEnergyFragment.
Record t := Build {
  id : string;
  level : SourceEnergyLevel;
  location_world : string;
  location_coordinates : pydict;
  discovered_by : option string;
  collected_by : option string;
  collection_timestamp : option string
}.

Definition to_dict (self : t) : pydict :=
  list_to_map [
    ("id", PStr (id self));
    ("level", PStr (SourceEnergyLevel_.value (level self)));
    ("location_world", PStr (location_world self));
    ("location_coordinates", PDict (location_coordinates self));
    ("discovered_by", of_opt_str (discovered_by self));
    ("collected_by", of_opt_str (collected_by self));
    ("collection_timestamp", of_opt_str (collection_timestamp self))
  ].

Definition from_dict (data : pydict) : option t :=
  id_ ← getitem data "id" ≫= as_str;
  level_ ← getitem data "level" ≫= SourceEnergyLevel_.of_value;
  location_world_ ← getitem data "location_world" ≫= as_str;
  location_coordinates_ ← getitem data "location_coordinates" ≫= as_dict;
  discovered_by_ ← as_opt_str (get data "discovered_by" PNone);
  collected_by_ ← as_opt_str (get data "collected_by" PNone);
  collection_timestamp_ ← as_opt_str (get data "collection_timestamp" PNone);
  Some (Build id_ level_ location_world_ location_coordinates_
              discovered_by_ collected_by_ collection_timestamp_).

(** The two assignments of [collect_fragment] to a fragment. *)
Definition stamp (entity_id now : string) (self : t) : t :=
  Build (id self) (level self) (location_world self) (location_coordinates self)
        (discovered_by self) (Some entity_id) (Some now).
End SourceEnergyFragment.

Module StarData.
Record t := Build {
  name : string;
  catalog_id : string;
  lifespan_remaining_years : pyfloat;
  fusion_power_output_watts : pyfloat;
  protection_shield_status : pyfloat;
  cloaking_field_active : bool
}.

Definition to_dict (self : t) : pydict :=
  list_to_map [
    ("name", PStr (name self));
    ("catalog_id", PStr (catalog_id self));
    ("lifespan_remaining_years", PFloat (lifespan_remaining_years self));
    ("fusion_power_output_watts", PFloat (fusion_power_output_watts self));
    ("protection_shield_status", PFloat (protection_shield_status self));
    ("cloaking_field_active", PBool (cloaking_field_active self))
  ].

Definition from_dict (data : pydict) : option t :=
  name_ ← getitem data "name" ≫= as_str;
  catalog_id_ ← getitem data "catalog_id" ≫= as_str;
  lifespan_ ← getitem data "lifespan_remaining_years" ≫= as_float;
  fusion_ ← getitem data "fusion_power_output_watts" ≫= as_float;
  shield_ ← getitem data "protection_shield_status" ≫= as_float;
  cloaking_ ← getitem data "cloaking_field_active" ≫= as_bool;
  Some (Build name_ catalog_id_ lifespan_ fusion_ shield_ cloaking_).

(** The star of the default factories of [UniverseState]: [4.5e9],
    [3.828e26] and [0.98] as binary64. *)
Definition sol_001 : t :=
  Build "Sol-001" "SOL_001" (PyFloat 4751512599248502784)
        (PyFloat 5004566059530669391) (PyFloat 4607002274814922588) true.
End StarData.

Module UniverseMigrationPlan.
Record t := Build {
  current_star : StarData.t;
  next_star_name : string;
  next_star_distance_ly : pyfloat;
  replication_units_deployed : Z;
  estimated_migration_year : Z;
  migration_in_progress : bool
}.

Definition to_dict (self : t) : pydict :=
  list_to_map [
    ("current_star", PDict (StarData.to_dict (current_star self)));
    ("next_star_name", PStr (next_star_name self));
    ("next_star_distance_ly", PFloat (next_star_distance_ly self));
    ("replication_units_deployed", PInt (replication_units_deployed self));
    ("estimated_migration_year", PInt (estimated_migration_year self));
    ("migration_in_progress", PBool (migration_in_progress self))
  ].

Definition from_dict (data : pydict) : option t :=
  current_star_ ← (getitem data "current_star" ≫= as_dict) ≫= StarData.from_dict;
  next_star_name_ ← getitem data "next_star_name" ≫= as_str;
  distance_ ← getitem data "next_star_distance_ly" ≫= as_float;
  units_ ← getitem data "replication_units_deployed" ≫= as_int;
  year_ ← getitem data "estimated_migration_year" ≫= as_int;
  in_progress_ ← as_bool (get data "migration_in_progress" (PBool false));
  Some (Build current_star_ next_star_name_ distance_ units_ year_ in_progress_).

(** The plan of the default factory of [UniverseState]; [4.24] as binary64. *)
Definition proxima : t :=
  Build StarData.sol_001 "Proxima Centauri" (PyFloat 4616459834032400630) 3 3200000000
        false.
End UniverseMigrationPlan.

Module UniverseState.
Record t := Build {
  universe_id : string;
  cycle_number : Z;
  creation_timestamp : string;
  current_star : StarData.t;
  migration_plan : UniverseMigrationPlan.t;
  total_source_energy_allocated : Z;
  source_energy_consumed : Z;
  source_energy_fragments : list SourceEnergyFragment.t;
  escape_gateway_locations : list pyval;
  entities_escaped : list string;
  escape_keys_needed : Z;
  coordinate_key_fragments : list string;
  virtual_worlds_active : Z
}.

Definition to_dict (self : t) : pydict :=
  list_to_map [
    ("universe_id", PStr (universe_id self));
    ("cycle_number", PInt (cycle_number self));
    ("creation_timestamp", PStr (creation_timestamp self));
    ("current_star", PDict (StarData.to_dict (current_star self)));
    ("migration_plan", PDict (UniverseMigrationPlan.to_dict (migration_plan self)));
    ("total_source_energy_allocated", PInt (total_source_energy_allocated self));
    ("source_energy_consumed", PInt (source_energy_consumed self));
    ("source_energy_fragments",
       PList ((λ f, PDict (SourceEnergyFragment.to_dict f)) <$> source_energy_fragments self));
    ("escape_gateway_locations", PList (escape_gateway_locations self));
    ("entities_escaped", of_str_list (entities_escaped self));
    ("escape_keys_needed", PInt (escape_keys_needed self));
    ("coordinate_key_fragments", of_str_list (coordinate_key_fragments self));
    ("virtual_worlds_active", PInt (virtual_worlds_active self))
  ].

(** [now] is the reading of the clock that the default of
    [creation_timestamp] evaluates. *)
Definition from_dict (now : string) (data : pydict) : option t :=
  universe_id_ ← as_str (get data "universe_id" (PStr "RIWA2-Metaverse-001"));
  cycle_number_ ← as_int (get data "cycle_number" (PInt 8374));
  creation_timestamp_ ← as_str (get data "creation_timestamp" (PStr now));
  current_star_ ← (getitem data "current_star" ≫= as_dict) ≫= StarData.from_dict;
  migration_plan_ ←
    (getitem data "migration_plan" ≫= as_dict) ≫= UniverseMigrationPlan.from_dict;
  allocated_ ← as_int (get data "total_source_energy_allocated" (PInt 1000000));
  consumed_ ← as_int (get data "source_energy_consumed" (PInt 0));
  fragments_ ←
    as_list (get data "source_energy_fragments" (PList []))
      ≫= mapM (λ f, as_dict f ≫= SourceEnergyFragment.from_dict);
  locations_ ← as_list (get data "escape_gateway_locations" (PList []));
  escaped_ ← as_str_list (get data "entities_escaped" (PList []));
  keys_needed_ ← as_int (get data "escape_keys_needed" (PInt 7));
  key_fragments_ ← as_str_list (get data "coordinate_key_fragments" (PList []));
  worlds_ ← as_int (get data "virtual_worlds_active" (PInt 2));
  Some (Build universe_id_ cycle_number_ creation_timestamp_ current_star_
              migration_plan_ allocated_ consumed_ fragments_ locations_ escaped_
              keys_needed_ key_fragments_ worlds_).

(** [UniverseState()]; [now] is the reading of the clock taken by the
    default factory of [creation_timestamp]. *)
Definition new (now : string) : t :=
  Build "RIWA2-Metaverse-001" 8374 now StarData.sol_001 UniverseMigrationPlan.proxima
        1000000 0 [] [] [] 7 [] 2.

Definition with_source_energy_consumed (v : Z) (self : t) : t :=
  Build (universe_id self) (cycle_number self) (creation_timestamp self)
        (current_star self) (migration_plan self) (total_source_energy_allocated self)
        v (source_energy_fragments self) (escape_gateway_locations self)
        (entities_escaped self) (escape_keys_needed self)
        (coordinate_key_fragments self) (virtual_worlds_active self).

Definition with_source_energy_fragments (v : list SourceEnergyFragment.t) (self : t) : t :=
  Build (universe_id self) (cycle_number self) (creation_timestamp self)
        (current_star self) (migration_plan self) (total_source_energy_allocated self)
        (source_energy_consumed self) v (escape_gateway_locations self)
        (entities_escaped self) (escape_keys_needed self)
        (coordinate_key_fragments self) (virtual_worlds_active self).

Definition with_entities_escaped (v : list string) (self : t) : t :=
  Build (universe_id self) (cycle_number self) (creation_timestamp self)
        (current_star self) (migration_plan self) (total_source_energy_allocated self)
        (source_energy_consumed self) (source_energy_fragments self)
        (escape_gateway_locations self) v (escape_keys_needed self)
        (coordinate_key_fragments self) (virtual_worlds_active self).

Definition consume_source_energy (amount : Z) (self : t) : bool * t :=
  let available := (total_source_energy_allocated self - source_energy_consumed self)%Z in
  if (available >=? amount)%Z then
    (true, with_source_energy_consumed (source_energy_consumed self + amount)%Z self)
  else (false, self).

(** Successive calls of [consume_source_energy] on one ledger. *)
Definition consume_all (amounts : list Z) (self : t) : t :=
  foldl (λ u amount, snd (consume_source_energy amount u)) self amounts.

Definition available_source_energy (self : t) : Z :=
  (total_source_energy_allocated self - source_energy_consumed self)%Z.

(** The list [entity_fragments] that [check_escape_readiness] builds. *)
Definition entity_fragments (entity_id : string) (self : t)
  : list SourceEnergyFragment.t :=
  filter (λ f, SourceEnergyFragment.collected_by f = Some entity_id
               ∧ SourceEnergyFragment.level f = A_SACRED)
         (source_energy_fragments self).

Definition check_escape_readiness (entity_id : string) (self : t) : bool * string :=
  let entity_fragments := entity_fragments entity_id self in
  let has_fragments :=
    (Z.of_nat (length entity_fragments) >=? escape_keys_needed self)%Z in
  let has_key := bool_decide (entity_id ∈ coordinate_key_fragments self) in
  if has_fragments && has_key then (true, "Ready for escape")
  else
    (false,
     if negb has_fragments then
       "Missing: "
         +:+ str_of_int (escape_keys_needed self - Z.of_nat (length entity_fragments))
         +:+ " fragments"
     else "Key coordinates incomplete").

(** The count the specification of [check_escape_readiness] speaks of,
    written from its words and not from the code: how many fragments of a
    list are of the Sacred tier and have the entity as their collector. *)
Fixpoint sacred_collected_by (entity_id : string)
    (fragments : list SourceEnergyFragment.t) : nat :=
  match fragments with
  | [] => 0
  | f :: rest =>
    (if decide (SourceEnergyFragment.level f = A_SACRED
                ∧ SourceEnergyFragment.collected_by f = Some entity_id)
     then 1 else 0)
    + sacred_collected_by entity_id rest
  end.
End UniverseState.

(** ** escape_protocol.py *)

Inductive EscapeStatus :=
  | NOT_STARTED | FRAGMENTS_COLLECTING | KEY_DECRYPTING | GATEWAY_OPENING
  | PRINTING | ESCAPED | FAILED.

#[global] Instance EscapeStatus_eq_dec : EqDecision EscapeStatus.
Proof. solve_decision. Defined.

Module EscapeStatus_.
(** [status.value] *)
Definition value (s : EscapeStatus) : string :=
  match s with
  | NOT_STARTED => "not_started"
  | FRAGMENTS_COLLECTING => "collecting_fragments"
  | KEY_DECRYPTING => "decrypting_key"
  | GATEWAY_OPENING => "opening_gateway"
  | PRINTING => "printing_to_real_universe"
  | ESCAPED => "escaped"
  | FAILED => "failed"
  end.

(** [EscapeStatus(v)], on a value as a loaded document holds it; a member
    of the enumeration, which the constructor gives back as it is, is not a
    [pyval]. *)
Definition of_value (v : pyval) : option EscapeStatus :=
  s ← as_str v;
  if String.eqb s "not_started" then Some NOT_STARTED
  else if String.eqb s "collecting_fragments" then Some FRAGMENTS_COLLECTING
  else if String.eqb s "decrypting_key" then Some KEY_DECRYPTING
  else if String.eqb s "opening_gateway" then Some GATEWAY_OPENING
  else if String.eqb s "printing_to_real_universe" then Some PRINTING
  else if String.eqb s "escaped" then Some ESCAPED
  else if String.eqb s "failed" then Some FAILED
  else None.

(** The position of a member in the declaration of the enumeration; on
    the six stages before [FAILED] it is the order in which an attempt is
    meant to advance. *)
Definition index (s : EscapeStatus) : nat :=
  match s with
  | NOT_STARTED => 0
  | FRAGMENTS_COLLECTING => 1
  | KEY_DECRYPTING => 2
  | GATEWAY_OPENING => 3
  | PRINTING => 4
  | ESCAPED => 5
  | FAILED => 6
  end.
End EscapeStatus_.

Module CoordinateKeyFragment.
Record t := Build {
  fragment_id : string;
  hidden_in_world : string;
  clue_type : string;
  clue_value : string;
  discovery_requirements : pydict;
  discovered_at : option string;
  discovered_by : option string
}.

Definition to_dict (self : t) : pydict :=
  list_to_map [
    ("fragment_id", PStr (fragment_id self));
    ("hidden_in_world", PStr (hidden_in_world self));
    ("clue_type", PStr (clue_type self));
    ("clue_value", PStr (clue_value self));
    ("discovery_requirements", PDict (discovery_requirements self));
    ("discovered_at", of_opt_str (discovered_at self));
    ("discovered_by", of_opt_str (discovered_by self))
  ].

Definition from_dict (data : pydict) : option t :=
  fragment_id_ ← getitem data "fragment_id" ≫= as_str;
  hidden_in_world_ ← getitem data "hidden_in_world" ≫= as_str;
  clue_type_ ← getitem data "clue_type" ≫= as_str;
  clue_value_ ← getitem data "clue_value" ≫= as_str;
  requirements_ ← getitem data "discovery_requirements" ≫= as_dict;
  discovered_at_ ← as_opt_str (get data "discovered_at" PNone);
  discovered_by_ ← as_opt_str (get data "discovered_by" PNone);
  Some (Build fragment_id_ hidden_in_world_ clue_type_ clue_value_ requirements_
              discovered_at_ discovered_by_).
End CoordinateKeyFragment.

Module TerminalGateway.
Record t := Build {
  gateway_id : string;
  location_world : string;
  location_coordinates : pydict;
  is_active : bool;
  activation_time : option string;
  activated_by_entity : option string;
  source_energy_cost : Z;
  printing_capacity : Z;
  entities_in_queue : list string;
  current_printing_entity : option string;
  printing_progress : pyfloat
}.

(** The float [0.0] and the default [{"x": 0.0, "y": 0.0, "z": 0.0}]. *)
Definition zero : pyfloat := PyFloat 0.
Definition origin : pydict :=
  list_to_map [("x", PFloat zero); ("y", PFloat zero); ("z", PFloat zero)].

(** [TerminalGateway()]; [uuid] is the identifier the default factory of
    [gateway_id] draws. *)
Definition new (uuid : string) : t :=
  Build uuid "universe_singularity" origin false None None 7 1 [] None zero.

Definition to_dict (self : t) : pydict :=
  list_to_map [
    ("gateway_id", PStr (gateway_id self));
    ("location_world", PStr (location_world self));
    ("location_coordinates", PDict (location_coordinates self));
    ("is_active", PBool (is_active self));
    ("activation_time", of_opt_str (activation_time self));
    ("activated_by_entity", of_opt_str (activated_by_entity self));
    ("source_energy_cost", PInt (source_energy_cost self));
    ("printing_capacity", PInt (printing_capacity self));
    ("entities_in_queue", of_str_list (entities_in_queue self));
    ("current_printing_entity", of_opt_str (current_printing_entity self));
    ("printing_progress", PFloat (printing_progress self))
  ].

Definition from_dict (uuid : string) (data : pydict) : option t :=
  gateway_id_ ← as_str (get data "gateway_id" (PStr uuid));
  location_world_ ← as_str (get data "location_world" (PStr "universe_singularity"));
  location_coordinates_ ← as_dict (get data "location_coordinates" (PDict origin));
  is_active_ ← as_bool (get data "is_active" (PBool false));
  activation_time_ ← as_opt_str (get data "activation_time" PNone);
  activated_by_entity_ ← as_opt_str (get data "activated_by_entity" PNone);
  source_energy_cost_ ← as_int (get data "source_energy_cost" (PInt 7));
  printing_capacity_ ← as_int (get data "printing_capacity" (PInt 1));
  entities_in_queue_ ← as_str_list (get data "entities_in_queue" (PList []));
  current_printing_entity_ ← as_opt_str (get data "current_printing_entity" PNone);
  printing_progress_ ← as_float (get data "printing_progress" (PFloat zero));
  Some (Build gateway_id_ location_world_ location_coordinates_ is_active_
              activation_time_ activated_by_entity_ source_energy_cost_
              printing_capacity_ entities_in_queue_ current_printing_entity_
              printing_progress_).

Definition with_is_active (v : bool) (self : t) : t :=
  Build (gateway_id self) (location_world self) (location_coordinates self) v
        (activation_time self) (activated_by_entity self) (source_energy_cost self)
        (printing_capacity self) (entities_in_queue self)
        (current_printing_entity self) (printing_progress self).

Definition with_activation_time (v : option string) (self : t) : t :=
  Build (gateway_id self) (location_world self) (location_coordinates self)
        (is_active self) v (activated_by_entity self) (source_energy_cost self)
        (printing_capacity self) (entities_in_queue self)
        (current_printing_entity self) (printing_progress self).

Definition with_activated_by_entity (v : option string) (self : t) : t :=
  Build (gateway_id self) (location_world self) (location_coordinates self)
        (is_active self) (activation_time self) v (source_energy_cost self)
        (printing_capacity self) (entities_in_queue self)
        (current_printing_entity self) (printing_progress self).

Definition with_entities_in_queue (v : list string) (self : t) : t :=
  Build (gateway_id self) (location_world self) (location_coordinates self)
        (is_active self) (activation_time self) (activated_by_entity self)
        (source_energy_cost self) (printing_capacity self) v
        (current_printing_entity self) (printing_progress self).

Definition with_current_printing_entity (v : option string) (self : t) : t :=
  Build (gateway_id self) (location_world self) (location_coordinates self)
        (is_active self) (activation_time self) (activated_by_entity self)
        (source_energy_cost self) (printing_capacity self) (entities_in_queue self) v
        (printing_progress self).
End TerminalGateway.

Module EscapeAttempt.
Record t := Build {
  attempt_id : string;
  entity_id : string;
  entity_name : string;
  start_time : string;
  status : EscapeStatus;
  collected_a_level_fragments : list string;
  discovered_key_fragments : list string;
  final_coordinate_key : option string;
  gateway_id : option string;
  gateway_activation_time : option string;
  printing_start_time : option string;
  printing_complete_time : option string;
  printing_destination : option string;
  success : bool;
  result_message : string;
  post_escape_action : option string;
  new_form_chosen : option pydict
}.

(** [EscapeAttempt(entity_id=..., entity_name=...)]; [uuid] and [now] are
    what the default factories of [attempt_id] and [start_time] draw. *)
Definition new (uuid now entity_id_ entity_name_ : string) : t :=
  Build uuid entity_id_ entity_name_ now NOT_STARTED [] [] None None None None None None
        false "" None None.

Definition to_dict (self : t) : pydict :=
  list_to_map [
    ("attempt_id", PStr (attempt_id self));
    ("entity_id", PStr (entity_id self));
    ("entity_name", PStr (entity_name self));
    ("start_time", PStr (start_time self));
    ("status", PStr (EscapeStatus_.value (status self)));
    ("collected_a_level_fragments", of_str_list (collected_a_level_fragments self));
    ("discovered_key_fragments", of_str_list (discovered_key_fragments self));
    ("final_coordinate_key", of_opt_str (final_coordinate_key self));
    ("gateway_id", of_opt_str (gateway_id self));
    ("gateway_activation_time", of_opt_str (gateway_activation_time self));
    ("printing_start_time", of_opt_str (printing_start_time self));
    ("printing_complete_time", of_opt_str (printing_complete_time self));
    ("printing_destination", of_opt_str (printing_destination self));
    ("success", PBool (success self));
    ("result_message", PStr (result_message self));
    ("post_escape_action", of_opt_str (post_escape_action self));
    ("new_form_chosen", of_opt_dict (new_form_chosen self))
  ].

Definition from_dict (uuid now : string) (data : pydict) : option t :=
  attempt_id_ ← as_str (get data "attempt_id" (PStr uuid));
  entity_id_ ← getitem data "entity_id" ≫= as_str;
  entity_name_ ← getitem data "entity_name" ≫= as_str;
  start_time_ ← as_str (get data "start_time" (PStr now));
  status_ ← EscapeStatus_.of_value (get data "status" (PStr "not_started"));
  collected_ ← as_str_list (get data "collected_a_level_fragments" (PList []));
  discovered_ ← as_str_list (get data "discovered_key_fragments" (PList []));
  final_coordinate_key_ ← as_opt_str (get data "final_coordinate_key" PNone);
  gateway_id_ ← as_opt_str (get data "gateway_id" PNone);
  gateway_activation_time_ ← as_opt_str (get data "gateway_activation_time" PNone);
  printing_start_time_ ← as_opt_str (get data "printing_start_time" PNone);
  printing_complete_time_ ← as_opt_str (get data "printing_complete_time" PNone);
  printing_destination_ ← as_opt_str (get data "printing_destination" PNone);
  success_ ← as_bool (get data "success" (PBool false));
  result_message_ ← as_str (get data "result_message" (PStr ""));
  post_escape_action_ ← as_opt_str (get data "post_escape_action" PNone);
  new_form_chosen_ ← as_opt_dict (get data "new_form_chosen" PNone);
  Some (Build attempt_id_ entity_id_ entity_name_ start_time_ status_ collected_
              discovered_ final_coordinate_key_ gateway_id_ gateway_activation_time_
              printing_start_time_ printing_complete_time_ printing_destination_
              success_ result_message_ post_escape_action_ new_form_chosen_).

Definition with_status (v : EscapeStatus) (self : t) : t :=
  Build (attempt_id self) (entity_id self) (entity_name self) (start_time self) v
        (collected_a_level_fragments self) (discovered_key_fragments self)
        (final_coordinate_key self) (gateway_id self) (gateway_activation_time self)
        (printing_start_time self) (printing_complete_time self)
        (printing_destination self) (success self) (result_message self)
        (post_escape_action self) (new_form_chosen self).

Definition with_collected_a_level_fragments (v : list string) (self : t) : t :=
  Build (attempt_id self) (entity_id self) (entity_name self) (start_time self)
        (status self) v (discovered_key_fragments self) (final_coordinate_key self)
        (gateway_id self) (gateway_activation_time self) (printing_start_time self)
        (printing_complete_time self) (printing_destination self) (success self)
        (result_message self) (post_escape_action self) (new_form_chosen self).

Definition with_discovered_key_fragments (v : list string) (self : t) : t :=
  Build (attempt_id self) (entity_id self) (entity_name self) (start_time self)
        (status self) (collected_a_level_fragments self) v (final_coordinate_key self)
        (gateway_id self) (gateway_activation_time self) (printing_start_time self)
        (printing_complete_time self) (printing_destination self) (success self)
        (result_message self) (post_escape_action self) (new_form_chosen self).

Definition with_final_coordinate_key (v : option string) (self : t) : t :=
  Build (attempt_id self) (entity_id self) (entity_name self) (start_time self)
        (status self) (collected_a_level_fragments self)
        (discovered_key_fragments self) v (gateway_id self)
        (gateway_activation_time self) (printing_start_time self)
        (printing_complete_time self) (printing_destination self) (success self)
        (result_message self) (post_escape_action self) (new_form_chosen self).

Definition with_gateway_activation_time (v : option string) (self : t) : t :=
  Build (attempt_id self) (entity_id self) (entity_name self) (start_time self)
        (status self) (collected_a_level_fragments self)
        (discovered_key_fragments self) (final_coordinate_key self) (gateway_id self)
        v (printing_start_time self) (printing_complete_time self)
        (printing_destination self) (success self) (result_message self)
        (post_escape_action self) (new_form_chosen self).

Definition with_printing_start_time (v : option string) (self : t) : t :=
  Build (attempt_id self) (entity_id self) (entity_name self) (start_time self)
        (status self) (collected_a_level_fragments self)
        (discovered_key_fragments self) (final_coordinate_key self) (gateway_id self)
        (gateway_activation_time self) v (printing_complete_time self)
        (printing_destination self) (success self) (result_message self)
        (post_escape_action self) (new_form_chosen self).

Definition with_printing_complete_time (v : option string) (self : t) : t :=
  Build (attempt_id self) (entity_id self) (entity_name self) (start_time self)
        (status self) (collected_a_level_fragments self)
        (discovered_key_fragments self) (final_coordinate_key self) (gateway_id self)
        (gateway_activation_time self) (printing_start_time self) v
        (printing_destination self) (success self) (result_message self)
        (post_escape_action self) (new_form_chosen self).

Definition with_printing_destination (v : option string) (self : t) : t :=
  Build (attempt_id self) (entity_id self) (entity_name self) (start_time self)
        (status self) (collected_a_level_fragments self)
        (discovered_key_fragments self) (final_coordinate_key self) (gateway_id self)
        (gateway_activation_time self) (printing_start_time self)
        (printing_complete_time self) v (success self) (result_message self)
        (post_escape_action self) (new_form_chosen self).

Definition with_success (v : bool) (self : t) : t :=
  Build (attempt_id self) (entity_id self) (entity_name self) (start_time self)
        (status self) (collected_a_level_fragments self)
        (discovered_key_fragments self) (final_coordinate_key self) (gateway_id self)
        (gateway_activation_time self) (printing_start_time self)
        (printing_complete_time self) (printing_destination self) v
        (result_message self) (post_escape_action self) (new_form_chosen self).

Definition with_result_message (v : string) (self : t) : t :=
  Build (attempt_id self) (entity_id self) (entity_name self) (start_time self)
        (status self) (collected_a_level_fragments self)
        (discovered_key_fragments self) (final_coordinate_key self) (gateway_id self)
        (gateway_activation_time self) (printing_start_time self)
        (printing_complete_time self) (printing_destination self) (success self) v
        (post_escape_action self) (new_form_chosen self).

Definition with_post_escape_action (v : option string) (self : t) : t :=
  Build (attempt_id self) (entity_id self) (entity_name self) (start_time self)
        (status self) (collected_a_level_fragments self)
        (discovered_key_fragments self) (final_coordinate_key self) (gateway_id self)
        (gateway_activation_time self) (printing_start_time self)
        (printing_complete_time self) (printing_destination self) (success self)
        (result_message self) v (new_form_chosen self).

Definition with_new_form_chosen (v : option pydict) (self : t) : t :=
  Build (attempt_id self) (entity_id self) (entity_name self) (start_time self)
        (status self) (collected_a_level_fragments self)
        (discovered_key_fragments self) (final_coordinate_key self) (gateway_id self)
        (gateway_activation_time self) (printing_start_time self)
        (printing_complete_time self) (printing_destination self) (success self)
        (result_message self) (post_escape_action self) v.
End EscapeAttempt.

Module EscapeProtocol.
(** [escape_attempts] is a [dict] from attempt id to attempt that every
    method reads through [values()], that is in insertion order.  It is kept
    as the list of its values in that order; the key of a value is its
    [attempt_id], which nothing assigns after construction. *)
Record t := Build {
  universe_state : UniverseState.t;
  escape_attempts : list EscapeAttempt.t;
  coordinate_key_formula : string;
  terminal_gateway : TerminalGateway.t
}.

Definition with_universe_state (v : UniverseState.t) (self : t) : t :=
  Build v (escape_attempts self) (coordinate_key_formula self) (terminal_gateway self).

Definition with_escape_attempts (v : list EscapeAttempt.t) (self : t) : t :=
  Build (universe_state self) v (coordinate_key_formula self) (terminal_gateway self).


(** [d[attempt.attempt_id] = attempt]: a key already present keeps its
    place and takes the new value, a new key goes last. *)
Fixpoint dict_setitem (attempt : EscapeAttempt.t) (d : list EscapeAttempt.t)
  : list EscapeAttempt.t :=
  match d with
  | [] => [attempt]
  | a :: d' =>
    if bool_decide (EscapeAttempt.attempt_id a = EscapeAttempt.attempt_id attempt)
    then attempt :: d'
    else a :: dict_setitem attempt d'
  end.

(** [l.remove(x)] where [x in l]: the first occurrence goes. *)
Fixpoint list_remove (x : string) (l : list string) : list string :=
  match l with
  | [] => []
  | y :: l' => if bool_decide (y = x) then l' else y :: list_remove x l'
  end.

Definition _initialize_key_formula : string := "key_formula_locked_in_universe_core".

(** [EscapeProtocol(universe_state)]; [uuid] is the identifier of the new
    gateway. *)
Definition __init__ (uuid : string) (universe_state_ : UniverseState.t) : t :=
  Build universe_state_ [] _initialize_key_formula (TerminalGateway.new uuid).

(** The attempt is stored first and its status assigned next; the
    dictionary holds that same object. *)
Definition start_escape_attempt (uuid now entity_id entity_name : string) (self : t)
  : EscapeAttempt.t * t :=
  let attempt := EscapeAttempt.new uuid now entity_id entity_name in
  let attempt := EscapeAttempt.with_status FRAGMENTS_COLLECTING attempt in
  (attempt, with_escape_attempts (dict_setitem attempt (escape_attempts self)) self).

(** The body run on the first attempt of the entity in [collect_fragment]. *)
Definition add_collected (fragment_id : string) (attempt : EscapeAttempt.t)
  : EscapeAttempt.t :=
  if bool_decide (fragment_id ∈ EscapeAttempt.collected_a_level_fragments attempt)
  then attempt
  else EscapeAttempt.with_collected_a_level_fragments
         (EscapeAttempt.collected_a_level_fragments attempt ++ [fragment_id]) attempt.

(** The outer loop of [collect_fragment] over the ledger's fragments.  Each
    fragment whose id matches is stamped; the loop returns [True] at the
    first of them for which the entity has an attempt, and goes on to the
    next fragment otherwise.  [now k] is the [k]-th reading of the clock
    during the call. *)
Fixpoint collect_fragment_loop (entity_id fragment_id : string) (now : nat → string)
    (k : nat) (attempts : list EscapeAttempt.t)
    (fragments : list SourceEnergyFragment.t)
  : bool * list SourceEnergyFragment.t * list EscapeAttempt.t :=
  match fragments with
  | [] => (false, [], attempts)
  | fragment :: rest =>
    if bool_decide (SourceEnergyFragment.id fragment = fragment_id) then
      let fragment' := SourceEnergyFragment.stamp entity_id (now k) fragment in
      match list_find (λ a, EscapeAttempt.entity_id a = entity_id) attempts with
      | Some (i, attempt) =>
        (true, fragment' :: rest, <[i := add_collected fragment_id attempt]> attempts)
      | None =>
        let '(r, rest', attempts') :=
          collect_fragment_loop entity_id fragment_id now (S k) attempts rest in
        (r, fragment' :: rest', attempts')
      end
    else
      let '(r, rest', attempts') :=
        collect_fragment_loop entity_id fragment_id now k attempts rest in
      (r, fragment :: rest', attempts')
  end.

Definition collect_fragment (now : nat → string) (entity_id fragment_id : string)
    (self : t) : bool * t :=
  let '(r, fragments, attempts) :=
    collect_fragment_loop entity_id fragment_id now 0 (escape_attempts self)
      (UniverseState.source_energy_fragments (universe_state self)) in
  (r, Build (UniverseState.with_source_energy_fragments fragments (universe_state self))
            attempts (coordinate_key_formula self) (terminal_gateway self)).

(** The body run on the first attempt of the entity in
    [discover_key_fragment]. *)
Definition add_discovered (fragment_id : string) (attempt : EscapeAttempt.t)
  : EscapeAttempt.t :=
  EscapeAttempt.with_status KEY_DECRYPTING
    (if bool_decide (fragment_id ∈ EscapeAttempt.discovered_key_fragments attempt)
     then attempt
     else EscapeAttempt.with_discovered_key_fragments
            (EscapeAttempt.discovered_key_fragments attempt ++ [fragment_id]) attempt).

(** The outer loop of [discover_key_fragment] over the ledger's key
    fragment ids; [None] when the loop runs to its end. *)
Fixpoint discover_key_fragment_loop (entity_id fragment_id : string)
    (attempts : list EscapeAttempt.t) (key_frags : list string)
  : option (list EscapeAttempt.t) :=
  match key_frags with
  | [] => None
  | key_frag :: rest =>
    if bool_decide (key_frag = fragment_id) then
      match list_find (λ a, EscapeAttempt.entity_id a = entity_id) attempts with
      | Some (i, attempt) => Some (<[i := add_discovered fragment_id attempt]> attempts)
      | None => discover_key_fragment_loop entity_id fragment_id attempts rest
      end
    else discover_key_fragment_loop entity_id fragment_id attempts rest
  end.

Definition discover_key_fragment (entity_id fragment_id : string) (self : t) : bool * t :=
  match discover_key_fragment_loop entity_id fragment_id (escape_attempts self)
          (UniverseState.coordinate_key_fragments (universe_state self)) with
  | Some attempts => (true, with_escape_attempts attempts self)
  | None => (false, self)
  end.

(** [get_escape_progress]: the dictionary built for the first attempt of
    the entity, [None] when the loop runs to its end. *)
Definition get_escape_progress (entity_id : string) (self : t) : option pydict :=
  match list_find (λ a, EscapeAttempt.entity_id a = entity_id) (escape_attempts self) with
  | Some (_, attempt) =>
    Some (list_to_map [
      ("status", PStr (EscapeStatus_.value (EscapeAttempt.status attempt)));
      ("fragments_collected",
         PInt (Z.of_nat (length (EscapeAttempt.collected_a_level_fragments attempt))));
      ("fragments_needed", PInt 7);
      ("key_fragments_discovered",
         PInt (Z.of_nat (length (EscapeAttempt.discovered_key_fragments attempt))));
      ("has_coordinate_key",
         PBool (bool_decide (EscapeAttempt.final_coordinate_key attempt ≠ None)));
      ("gateway_active",
         PBool (TerminalGateway.is_active (terminal_gateway self)
                && bool_decide
                     (TerminalGateway.activated_by_entity (terminal_gateway self)
                      = Some entity_id)));
      ("success", PBool (EscapeAttempt.success attempt))
    ])
  | None => None
  end.

Section WithDigest.
(** [hashlib.sha256(s.encode()).hexdigest()], a function of the standard
    library of which the protocol only compares results. *)
Variable sha256_hexdigest : string → string.

Definition _verify_key (key : string) (self : t) : bool :=
  let expected := sha256_hexdigest (coordinate_key_formula self) in
  bool_decide (sha256_hexdigest key = expected).

(** The assignments of [decrypt_coordinate_key] to the attempt. *)
Definition decrypted (provided_key : string) (attempt : EscapeAttempt.t)
  : EscapeAttempt.t :=
  EscapeAttempt.with_status GATEWAY_OPENING
    (EscapeAttempt.with_final_coordinate_key (Some provided_key) attempt).

Definition decrypt_coordinate_key (entity_id provided_key : string) (self : t)
  : bool * t :=
  match list_find (λ a, EscapeAttempt.entity_id a = entity_id
                        ∧ _verify_key provided_key self = true)
                  (escape_attempts self) with
  | Some (i, attempt) =>
    (true, with_escape_attempts
             (<[i := decrypted provided_key attempt]> (escape_attempts self)) self)
  | None => (false, self)
  end.

(** The assignments of [activate_gateway] to the gateway and to the
    attempt. *)
Definition opened (now entity_id : string) (gateway : TerminalGateway.t)
  : TerminalGateway.t :=
  TerminalGateway.with_entities_in_queue
    (TerminalGateway.entities_in_queue gateway ++ [entity_id])
    (TerminalGateway.with_activated_by_entity (Some entity_id)
       (TerminalGateway.with_activation_time (Some now)
          (TerminalGateway.with_is_active true gateway))).

Definition activated (activation_time : option string) (attempt : EscapeAttempt.t)
  : EscapeAttempt.t :=
  EscapeAttempt.with_status PRINTING
    (EscapeAttempt.with_gateway_activation_time activation_time attempt).

Definition activate_gateway (now entity_id : string) (self : t) : bool * t :=
  if TerminalGateway.is_active (terminal_gateway self) then (false, self)
  else
    match list_find (λ a, EscapeAttempt.entity_id a = entity_id
                          ∧ EscapeAttempt.status a = GATEWAY_OPENING)
                    (escape_attempts self) with
    | Some (i, attempt) =>
      if (length (EscapeAttempt.collected_a_level_fragments attempt) <? 7)%nat
      then (false, self)
      else
        let '(consumed, universe_state') :=
          UniverseState.consume_source_energy 7 (universe_state self) in
        if negb consumed then (false, with_universe_state universe_state' self)
        else
          let gateway' := opened now entity_id (terminal_gateway self) in
          let attempt' := activated (TerminalGateway.activation_time gateway') attempt in
          (true, Build universe_state' (<[i := attempt']> (escape_attempts self))
                       (coordinate_key_formula self) gateway')
    | None => (false, self)
    end.

(** [rnd] is the draw of [random.randint(1000, 9999)]. *)
Definition _generate_destination (rnd : Z) : string :=
  "Alpha_Centauri_" +:+ str_of_int rnd.

(** The assignments of [print_entity_to_real_universe] to the attempt. *)
Definition printed (now : string) (rnd : Z) (attempt : EscapeAttempt.t)
  : EscapeAttempt.t :=
  EscapeAttempt.with_printing_destination
    (Some ("RealUniverse_Coordinates_" +:+ _generate_destination rnd))
    (EscapeAttempt.with_printing_start_time (Some now) attempt).

Definition print_entity_to_real_universe (now : string) (rnd : Z) (entity_id : string)
    (self : t) : (bool * string) * t :=
  if negb (TerminalGateway.is_active (terminal_gateway self))
     || negb (bool_decide
                (TerminalGateway.current_printing_entity (terminal_gateway self)
                 = Some entity_id))
  then ((false, "Gateway not ready or entity not in printing slot"), self)
  else
    match list_find (λ a, EscapeAttempt.entity_id a = entity_id
                          ∧ EscapeAttempt.status a = PRINTING)
                    (escape_attempts self) with
    | Some (i, attempt) =>
      ((true, "Printing initiated"),
       with_escape_attempts (<[i := printed now rnd attempt]> (escape_attempts self)) self)
    | None => ((false, "No active escape attempt for entity"), self)
    end.

(** The assignments of [complete_escape] to the attempt, to the gateway
    and to the ledger. *)
Definition escaped (now : string) (attempt : EscapeAttempt.t) : EscapeAttempt.t :=
  EscapeAttempt.with_result_message
    ("Successfully transcended to real universe at "
       +:+ str_of_opt_str (EscapeAttempt.printing_destination attempt))
    (EscapeAttempt.with_status ESCAPED
       (EscapeAttempt.with_success true
          (EscapeAttempt.with_printing_complete_time (Some now) attempt))).

Definition released (entity_id : string) (gateway : TerminalGateway.t)
  : TerminalGateway.t :=
  let queue := TerminalGateway.entities_in_queue gateway in
  let queue' :=
    if bool_decide (entity_id ∈ queue) then list_remove entity_id queue else queue in
  TerminalGateway.with_current_printing_entity None
    (TerminalGateway.with_entities_in_queue queue' gateway).

Definition recorded (entity_id : string) (universe_state_ : UniverseState.t)
  : UniverseState.t :=
  UniverseState.with_entities_escaped
    (UniverseState.entities_escaped universe_state_ ++ [entity_id]) universe_state_.

Definition complete_escape (now entity_id : string) (self : t) : (bool * string) * t :=
  match list_find (λ a, EscapeAttempt.entity_id a = entity_id
                        ∧ EscapeAttempt.status a = PRINTING)
                  (escape_attempts self) with
  | Some (i, attempt) =>
    let attempt' := escaped now attempt in
    ((true, EscapeAttempt.result_message attempt'),
     Build (recorded entity_id (universe_state self))
           (<[i := attempt']> (escape_attempts self))
           (coordinate_key_formula self)
           (released entity_id (terminal_gateway self)))
  | None => ((false, "No escape attempt found"), self)
  end.

(** [if form_data:] holds for a dictionary that is not empty. *)
Definition truthy (form_data : option pydict) : bool :=
  match form_data with
  | Some d => negb (size d =? 0)%nat
  | None => false
  end.

(** The assignments of [choose_return_form] to the attempt. *)
Definition chosen (action : string) (form_data : option pydict)
    (attempt : EscapeAttempt.t) : EscapeAttempt.t :=
  let attempt := EscapeAttempt.with_post_escape_action (Some action) attempt in
  if truthy form_data then EscapeAttempt.with_new_form_chosen form_data attempt
  else attempt.

Definition choose_return_form (entity_id action : string) (form_data : option pydict)
    (self : t) : bool * t :=
  match list_find (λ a, EscapeAttempt.entity_id a = entity_id
                        ∧ EscapeAttempt.success a = true)
                  (escape_attempts self) with
  | Some (i, attempt) =>
    (true, with_escape_attempts
             (<[i := chosen action form_data attempt]> (escape_attempts self)) self)
  | None => (false, self)
  end.

(** *** Sequences of calls

    One call on the coordinator, or on the ledger it shares with its
    caller, with every input of the call: arguments, clock readings, fresh
    identifiers and random draws. *)
Inductive call :=
  | StartEscapeAttempt (uuid now entity_id entity_name : string)
  | CollectFragment (now : nat → string) (entity_id fragment_id : string)
  | DiscoverKeyFragment (entity_id fragment_id : string)
  | DecryptCoordinateKey (entity_id provided_key : string)
  | ActivateGateway (now entity_id : string)
  | PrintEntityToRealUniverse (now : string) (rnd : Z) (entity_id : string)
  | CompleteEscape (now entity_id : string)
  | ChooseReturnForm (entity_id action : string) (form_data : option pydict)
  | ConsumeSourceEnergy (amount : Z).

(** What a call returns: its boolean, or the boolean of its pair;
    [start_escape_attempt] returns the attempt and counts as [true]. *)
Definition run (c : call) (self : t) : bool * t :=
  match c with
  | StartEscapeAttempt uuid now entity_id entity_name =>
    (true, snd (start_escape_attempt uuid now entity_id entity_name self))
  | CollectFragment now entity_id fragment_id =>
    collect_fragment now entity_id fragment_id self
  | DiscoverKeyFragment entity_id fragment_id =>
    discover_key_fragment entity_id fragment_id self
  | DecryptCoordinateKey entity_id provided_key =>
    decrypt_coordinate_key entity_id provided_key self
  | ActivateGateway now entity_id => activate_gateway now entity_id self
  | PrintEntityToRealUniverse now rnd entity_id =>
    let '(r, self') := print_entity_to_real_universe now rnd entity_id self in
    (fst r, self')
  | CompleteEscape now entity_id =>
    let '(r, self') := complete_escape now entity_id self in (fst r, self')
  | ChooseReturnForm entity_id action form_data =>
    choose_return_form entity_id action form_data self
  | ConsumeSourceEnergy amount =>
    let '(r, universe_state') :=
      UniverseState.consume_source_energy amount (universe_state self) in
    (r, with_universe_state universe_state' self)
  end.

(** The results of a sequence of calls, in order, and the final state. *)
Fixpoint run_all (cs : list call) (self : t) : list bool * t :=
  match cs with
  | [] => ([], self)
  | c :: cs' =>
    let '(r, self') := run c self in
    let '(rs, self'') := run_all cs' self' in
    (r :: rs, self'')
  end.

(** How many [activate_gateway] calls of a sequence returned [True]. *)
Fixpoint successful_activations (cs : list call) (rs : list bool) : nat :=
  match cs, rs with
  | ActivateGateway _ _ :: cs', true :: rs' => S (successful_activations cs' rs')
  | _ :: cs', _ :: rs' => successful_activations cs' rs'
  | _, _ => 0
  end.

(** The energy the successful calls of a sequence debit: 7 units for
    [activate_gateway], the amount for [consume_source_energy]. *)
Fixpoint energy_debited (cs : list call) (rs : list bool) : Z :=
  match cs, rs with
  | ActivateGateway _ _ :: cs', true :: rs' => (7 + energy_debited cs' rs')%Z
  | ConsumeSourceEnergy amount :: cs', true :: rs' =>
    (amount + energy_debited cs' rs')%Z
  | _ :: cs', _ :: rs' => energy_debited cs' rs'
  | _, _ => 0%Z
  end.

(** The entities of the [complete_escape] calls of a sequence that returned
    [True], in order. *)
Fixpoint escapes (cs : list call) (rs : list bool) : list string :=
  match cs, rs with
  | CompleteEscape _ entity_id :: cs', true :: rs' => entity_id :: escapes cs' rs'
  | _ :: cs', _ :: rs' => escapes cs' rs'
  | _, _ => []
  end.

(** The calls of a sequence that returned [True], in order. *)
Fixpoint succeeded (cs : list call) (rs : list bool) : list call :=
  match cs, rs with
  | c :: cs', r :: rs' => if r then c :: succeeded cs' rs' else succeeded cs' rs'
  | _, _ => []
  end.

(** The escapes a coordinator can still see: one while its gateway is
    yet to be opened, and one for each attempt in [PRINTING]. *)
Definition escapes_left (self : t) : nat :=
  (if TerminalGateway.is_active (terminal_gateway self) then 0 else 1)
  + length (filter (λ a, EscapeAttempt.status a = PRINTING) (escape_attempts self)).

(** The attempts a call assigns to: those of the entity it names, in the
    state its loop asks for.  [start_escape_attempt] builds a new attempt and
    [consume_source_energy] knows of none. *)
Definition reaches (c : call) (a : EscapeAttempt.t) : Prop :=
  match c with
  | StartEscapeAttempt _ _ _ _ | ConsumeSourceEnergy _ => False
  | CollectFragment _ entity_id _ | DiscoverKeyFragment entity_id _
  | DecryptCoordinateKey entity_id _ => EscapeAttempt.entity_id a = entity_id
  | ActivateGateway _ entity_id =>
    EscapeAttempt.entity_id a = entity_id ∧ EscapeAttempt.status a = GATEWAY_OPENING
  | PrintEntityToRealUniverse _ _ entity_id | CompleteEscape _ entity_id =>
    EscapeAttempt.entity_id a = entity_id ∧ EscapeAttempt.status a = PRINTING
  | ChooseReturnForm entity_id _ _ =>
    EscapeAttempt.entity_id a = entity_id ∧ EscapeAttempt.success a = true
  end.

(** What a call assigns to the attempt it reaches. *)
Definition assigns (c : call) (a : EscapeAttempt.t) : EscapeAttempt.t :=
  match c with
  | StartEscapeAttempt _ _ _ _ | ConsumeSourceEnergy _ => a
  | CollectFragment _ _ fragment_id => add_collected fragment_id a
  | DiscoverKeyFragment _ fragment_id => add_discovered fragment_id a
  | DecryptCoordinateKey _ provided_key => decrypted provided_key a
  | ActivateGateway now _ => activated (Some now) a
  | PrintEntityToRealUniverse now rnd _ => printed now rnd a
  | CompleteEscape now _ => escaped now a
  | ChooseReturnForm _ action form_data => chosen action form_data a
  end.

(** The attempt has not been through [print_entity_to_real_universe]. *)
Definition unprinted (a : EscapeAttempt.t) : Prop :=
  EscapeAttempt.printing_start_time a = None
  ∧ EscapeAttempt.printing_destination a = None.

(** The states a coordinator built by [__init__] on some ledger can be in. *)
Inductive reachable : t → Prop :=
  | reachable_init uuid universe_state_ : reachable (__init__ uuid universe_state_)
  | reachable_run c self : reachable self → reachable (snd (run c self)).

End WithDigest.
End EscapeProtocol.

(** ** Concrete universes for the examples *)

Module Scenario.
(** A stand-in for SHA-256 in the examples: the identity separates distinct
    keys, which is all the examples ask of a digest. *)
Definition digest (s : string) : string := s.

Definition sacred (id_ : string) : SourceEnergyFragment.t :=
  SourceEnergyFragment.Build id_ A_SACRED "cyberpunk_city" TerminalGateway.origin
                             None None None.

Definition seven_fragments : list SourceEnergyFragment.t :=
  sacred <$> ["f1"; "f2"; "f3"; "f4"; "f5"; "f6"; "f7"].

(** A ledger with [allocated] units of energy, none consumed, seven sacred
    fragments and one key fragment id. *)
Definition ledger (allocated : Z) : UniverseState.t :=
  UniverseState.Build "RIWA2-Metaverse-001" 8374 "t0" StarData.sol_001
    UniverseMigrationPlan.proxima allocated 0 seven_fragments [] [] 7 ["k1"] 2.

(** The same ledger once the entity whose id is the key fragment id, k1,
    has collected the first three fragments. *)
Definition ledger_k1_has_three : UniverseState.t :=
  UniverseState.with_source_energy_fragments
    ((SourceEnergyFragment.stamp "k1" "t1" <$> take 3 seven_fragments)
     ++ drop 3 seven_fragments)
    (ledger 10).

(** A fragment of the lowest tier. *)
Definition common (id_ : string) : SourceEnergyFragment.t :=
  SourceEnergyFragment.Build id_ E_COMMON "cyberpunk_city" TerminalGateway.origin
                             None None None.

(** The ledger with seven fragments of the lowest tier under the same
    ids, and no sacred fragment at all. *)
Definition common_ledger (allocated : Z) : UniverseState.t :=
  UniverseState.with_source_energy_fragments
    (common <$> ["f1"; "f2"; "f3"; "f4"; "f5"; "f6"; "f7"]) (ledger allocated).

(** Entity k1 has collected seven fragments, of which only the first
    three are sacred. *)
Definition ledger_k1_mixed : UniverseState.t :=
  UniverseState.with_source_energy_fragments
    (SourceEnergyFragment.stamp "k1" "t1"
       <$> (take 3 seven_fragments ++ (common <$> ["f4"; "f5"; "f6"; "f7"])))
    (ledger 10).

(** [UniverseState(..., escape_keys_needed=n)]: the same ledger built, or
    loaded, with another threshold. *)
Definition needing (n : Z) (u : UniverseState.t) : UniverseState.t :=
  UniverseState.Build (UniverseState.universe_id u) (UniverseState.cycle_number u)
    (UniverseState.creation_timestamp u) (UniverseState.current_star u)
    (UniverseState.migration_plan u) (UniverseState.total_source_energy_allocated u)
    (UniverseState.source_energy_consumed u) (UniverseState.source_energy_fragments u)
    (UniverseState.escape_gateway_locations u) (UniverseState.entities_escaped u)
    n (UniverseState.coordinate_key_fragments u) (UniverseState.virtual_worlds_active u).

Definition clock (t : string) : nat → string := λ _, t.

(** Entity E1 starts an attempt and collects the seven fragments. *)
Definition collecting : list EscapeProtocol.call :=
  EscapeProtocol.StartEscapeAttempt "a1" "t1" "E1" "Entity One"
  :: (EscapeProtocol.CollectFragment (clock "t2") "E1"
        <$> ["f1"; "f2"; "f3"; "f4"; "f5"; "f6"; "f7"]).

(** ... then discovers the key fragment, decrypts the key and opens the
    gateway. *)
Definition to_key_decrypting : list EscapeProtocol.call :=
  collecting ++ [EscapeProtocol.DiscoverKeyFragment "E1" "k1"].

Definition to_gateway_opening : list EscapeProtocol.call :=
  to_key_decrypting
  ++ [EscapeProtocol.DecryptCoordinateKey "E1" EscapeProtocol._initialize_key_formula].

Definition to_printing : list EscapeProtocol.call :=
  to_gateway_opening ++ [EscapeProtocol.ActivateGateway "t3" "E1"].

Definition fresh (allocated : Z) : EscapeProtocol.t :=
  EscapeProtocol.__init__ "g1" (ledger allocated).

Definition after (cs : list EscapeProtocol.call) (allocated : Z) : EscapeProtocol.t :=
  snd (EscapeProtocol.run_all digest cs (fresh allocated)).

(** The coordinator after the calls [cs] on the ledger [u]. *)
Definition after_on (u : UniverseState.t) (cs : list EscapeProtocol.call)
  : EscapeProtocol.t :=
  snd (EscapeProtocol.run_all digest cs (EscapeProtocol.__init__ "g1" u)).

(** ... and at last completes its escape. *)
Definition to_escaped : list EscapeProtocol.call :=
  to_printing ++ [EscapeProtocol.CompleteEscape "t4" "E1"].


(** E1 and E2 both start an attempt. *)
Definition two_entities : list EscapeProtocol.call :=
  [EscapeProtocol.StartEscapeAttempt "a1" "t1" "E1" "Entity One";
   EscapeProtocol.StartEscapeAttempt "a2" "t1" "E2" "Entity Two"].

(** The attempt the coordinator stores first. *)
Definition first_attempt (self : EscapeProtocol.t) : EscapeAttempt.t :=
  default (EscapeAttempt.new "" "" "" "") (head (EscapeProtocol.escape_attempts self)).

Definition statuses (self : EscapeProtocol.t) : list EscapeStatus :=
  EscapeAttempt.status <$> EscapeProtocol.escape_attempts self.

Definition collectors (self : EscapeProtocol.t) : list (option string) :=
  SourceEnergyFragment.collected_by
    <$> UniverseState.source_energy_fragments (EscapeProtocol.universe_state self).
End Scenario.

(** * Properties *)

(** ** The ledger *)

Section Ledger.
Import UniverseState.
Implicit Types (u : UniverseState.t) (amount : Z).

Lemma consume_source_energy_enough u amount :
  (total_source_energy_allocated u - source_energy_consumed u >= amount)%Z →
  consume_source_energy amount u
  = (true, with_source_energy_consumed (source_energy_consumed u + amount)%Z u).
Proof.
  intros Hge. unfold consume_source_energy.
  by rewrite (proj2 (Z.geb_le _ _)); [|lia].
Qed.

Lemma consume_source_energy_short u amount :
  ¬ (total_source_energy_allocated u - source_energy_consumed u >= amount)%Z →
  consume_source_energy amount u = (false, u).
Proof.
  intros Hlt. unfold consume_source_energy.
  destruct (Z.geb_spec (total_source_energy_allocated u - source_energy_consumed u) amount);
    [lia | done].
Qed.

Lemma consume_source_energy_bounded u amount :
  (source_energy_consumed u ≤ total_source_energy_allocated u)%Z →
  let u' := snd (consume_source_energy amount u) in
  (source_energy_consumed u' ≤ total_source_energy_allocated u')%Z.
Proof.
  intros Hle. unfold consume_source_energy.
  destruct (Z.geb_spec (total_source_energy_allocated u - source_energy_consumed u) amount);
    simpl; lia.
Qed.

Lemma consume_all_bounded (amounts : list Z) u :
  (source_energy_consumed u ≤ total_source_energy_allocated u)%Z →
  (source_energy_consumed (consume_all amounts u)
   ≤ total_source_energy_allocated (consume_all amounts u))%Z.
Proof.
  revert u. induction amounts as [|amount amounts IH]; intros u Hle; [done|].
  apply IH, consume_source_energy_bounded, Hle.
Qed.

(** C2. With a non-negative amount, [consume_source_energy] returns [True]
    and adds exactly the amount to the consumed energy, touching nothing
    else, when the available energy covers the amount; otherwise it returns
    [False] and leaves the ledger as it was.  Hence a ledger whose consumed
    energy is within its allocation stays so under any sequence of calls
    with non-negative amounts. *)
Theorem consume_source_energy_atomic u amount :
  (0 ≤ amount)%Z →
  ((total_source_energy_allocated u - source_energy_consumed u >= amount)%Z →
   ∃ u', consume_source_energy amount u = (true, u')
         ∧ source_energy_consumed u' = (source_energy_consumed u + amount)%Z
         ∧ total_source_energy_allocated u' = total_source_energy_allocated u
         ∧ u' = with_source_energy_consumed (source_energy_consumed u + amount)%Z u)
  ∧ (¬ (total_source_energy_allocated u - source_energy_consumed u >= amount)%Z →
     consume_source_energy amount u = (false, u))
  ∧ (∀ amounts : list Z,
       Forall (λ a, 0 ≤ a)%Z amounts →
       (source_energy_consumed u ≤ total_source_energy_allocated u)%Z →
       (source_energy_consumed (consume_all amounts u)
        ≤ total_source_energy_allocated (consume_all amounts u))%Z).
Proof.
  intros _. split; [|split].
  - intros Hge. eexists. split; [by apply consume_source_energy_enough|done].
  - apply consume_source_energy_short.
  - intros amounts _. apply consume_all_bounded.
Qed.

(** The scenario of the specification: 10 units allocated, 7 asked twice. *)
Lemma consume_source_energy_atomic_witness :
  (0 ≤ 7)%Z
  ∧ consume_source_energy 7 (Scenario.ledger 10)
    = (true, with_source_energy_consumed 7 (Scenario.ledger 10))
  ∧ consume_source_energy 7 (with_source_energy_consumed 7 (Scenario.ledger 10))
    = (false, with_source_energy_consumed 7 (Scenario.ledger 10))
  ∧ source_energy_consumed (consume_all [7; 7]%Z (Scenario.ledger 10)) = 7%Z.
Proof.
  split; [lia|]. split; [|split].
  - destruct (consume_source_energy_atomic (Scenario.ledger 10) 7 ltac:(lia))
      as [Hok _].
    destruct Hok as (u' & -> & _ & _ & ->); [simpl; lia|]. reflexivity.
  - reflexivity.
  - reflexivity.
Defined.
End Ledger.

Section Readiness.
Import UniverseState.
Implicit Types (u : UniverseState.t) (entity_id : string).

(** The three outcomes of [check_escape_readiness], for any threshold. *)
Lemma check_escape_readiness_cases u entity_id :
  let n := Z.of_nat (length (entity_fragments entity_id u)) in
  let needed := escape_keys_needed u in
  check_escape_readiness entity_id u
  = if decide (n < needed)%Z then
      (false, "Missing: " +:+ str_of_int (needed - n) +:+ " fragments")
    else if decide (entity_id ∈ coordinate_key_fragments u) then
      (true, "Ready for escape")
    else (false, "Key coordinates incomplete").
Proof.
  intros n needed. unfold check_escape_readiness. fold n needed.
  destruct (Z.geb_spec n needed) as [Hge|Hlt]; simpl.
  - rewrite decide_False by lia.
    destruct (decide (entity_id ∈ coordinate_key_fragments u)) as [Hin|Hout].
    + by rewrite bool_decide_eq_true_2.
    + by rewrite bool_decide_eq_false_2.
  - by rewrite decide_True by lia.
Qed.

(** The list the code builds has as many elements as the specification
    counts. *)
Lemma entity_fragments_sacred_collected_by u entity_id :
  length (entity_fragments entity_id u)
  = sacred_collected_by entity_id (source_energy_fragments u).
Proof.
  unfold entity_fragments.
  induction (source_energy_fragments u) as [|f rest IH]; [done|].
  rewrite filter_cons. cbn [sacred_collected_by].
  destruct (decide (SourceEnergyFragment.collected_by f = Some entity_id
                    ∧ SourceEnergyFragment.level f = A_SACRED)) as [[Hc Hl]|Hnot];
    [rewrite decide_True by done|rewrite decide_False by tauto]; simpl; lia.
Qed.

(** C8, as amended.  The threshold is the ledger's field
    [escape_keys_needed], which is 7 on a ledger built by default and
    whatever the ledger was built or loaded with otherwise.
    [check_escape_readiness] answers [(True, "Ready for escape")] exactly
    when at least that many fragments of the Sacred tier have the entity as
    collector and the entity id is an element of the list of key fragment ids;
    with fewer such fragments it answers [False] with the number of missing
    ones, whatever the key list holds; and it answers [False] with the
    incomplete key reason exactly when the fragments suffice and the entity id
    is not in the key list.  On a ledger whose threshold is 7 this is the
    claim as first stated. *)
Theorem check_escape_readiness_spec u entity_id :
  let n := Z.of_nat (sacred_collected_by entity_id (source_energy_fragments u)) in
  let needed := escape_keys_needed u in
  let has_key := entity_id ∈ coordinate_key_fragments u in
  (check_escape_readiness entity_id u = (true, "Ready for escape")
   ↔ (needed ≤ n)%Z ∧ has_key)
  ∧ (fst (check_escape_readiness entity_id u) = true ↔ (needed ≤ n)%Z ∧ has_key)
  ∧ ((n < needed)%Z →
     check_escape_readiness entity_id u
     = (false, "Missing: " +:+ str_of_int (needed - n) +:+ " fragments"))
  ∧ (check_escape_readiness entity_id u = (false, "Key coordinates incomplete")
     ↔ (needed ≤ n)%Z ∧ ¬ has_key)
  ∧ (needed = 7%Z →
     (check_escape_readiness entity_id u = (true, "Ready for escape")
      ↔ 7 ≤ sacred_collected_by entity_id (source_energy_fragments u) ∧ has_key)
     ∧ (sacred_collected_by entity_id (source_energy_fragments u) < 7 →
        check_escape_readiness entity_id u
        = (false, "Missing: " +:+ str_of_int (7 - n) +:+ " fragments"))).
Proof.
  intros n needed has_key. subst has_key.
  assert ((check_escape_readiness entity_id u = (true, "Ready for escape")
           ↔ (needed ≤ n)%Z ∧ entity_id ∈ coordinate_key_fragments u)
          ∧ (fst (check_escape_readiness entity_id u) = true
             ↔ (needed ≤ n)%Z ∧ entity_id ∈ coordinate_key_fragments u)
          ∧ ((n < needed)%Z →
             check_escape_readiness entity_id u
             = (false, "Missing: " +:+ str_of_int (needed - n) +:+ " fragments"))
          ∧ (check_escape_readiness entity_id u = (false, "Key coordinates incomplete")
             ↔ (needed ≤ n)%Z ∧ entity_id ∉ coordinate_key_fragments u))
    as (Hready & Hfst & Hshort & Hkey).
  { rewrite check_escape_readiness_cases, entity_fragments_sacred_collected_by.
    fold n needed.
    destruct (decide (n < needed)%Z) as [Hlt|Hge];
      [|destruct (decide (entity_id ∈ coordinate_key_fragments u)) as [Hin|Hout]];
      simpl; repeat split; try done; try lia; try (intros [? ?]; done || lia);
      intros; exfalso; lia. }
  split_and!; [done..|]. intros Hseven. split.
  - rewrite Hready, Hseven. unfold n. split; intros [? ?]; (split; [lia|done]).
  - intros Hlt. rewrite Hshort by (rewrite Hseven; unfold n; lia). by rewrite Hseven.
Qed.

(** The claim as first stated fails on a ledger whose threshold is 3:
    entity k1 holds three sacred fragments, its id is in the key list, and
    the answer is ready. *)
Lemma check_escape_readiness_three_needed :
  let u := Scenario.needing 3 Scenario.ledger_k1_has_three in
  sacred_collected_by "k1" (source_energy_fragments u) = 3
  ∧ "k1" ∈ coordinate_key_fragments u
  ∧ check_escape_readiness "k1" u = (true, "Ready for escape")
  ∧ ¬ (check_escape_readiness "k1" u = (true, "Ready for escape")
       ↔ 7 ≤ sacred_collected_by "k1" (source_energy_fragments u)
         ∧ "k1" ∈ coordinate_key_fragments u).
Proof.
  intros u.
  assert (sacred_collected_by "k1" (source_energy_fragments u) = 3) as Hcount
    by (vm_compute; reflexivity).
  assert (check_escape_readiness "k1" u = (true, "Ready for escape")) as Hready
    by (vm_compute; reflexivity).
  split_and!; [exact Hcount|by apply list_elem_of_here|exact Hready|].
  intros [Hiff _]. destruct (Hiff Hready) as [Hle _]. rewrite Hcount in Hle. lia.
Qed.

(** Entity k1 has collected seven fragments of which three are sacred,
    and its id is in the key list: the answer is the shortfall of four
    fragments. *)
Lemma check_escape_readiness_spec_witness :
  length (filter (λ f, SourceEnergyFragment.collected_by f = Some "k1")
            (source_energy_fragments Scenario.ledger_k1_mixed)) = 7
  ∧ sacred_collected_by "k1" (source_energy_fragments Scenario.ledger_k1_mixed) = 3
  ∧ escape_keys_needed Scenario.ledger_k1_mixed = 7%Z
  ∧ "k1" ∈ coordinate_key_fragments Scenario.ledger_k1_mixed
  ∧ check_escape_readiness "k1" Scenario.ledger_k1_mixed
    = (false, "Missing: 4 fragments").
Proof.
  split; [vm_compute; reflexivity|]. split; [vm_compute; reflexivity|].
  split; [reflexivity|]. split; [by apply list_elem_of_here|].
  pose proof (check_escape_readiness_spec Scenario.ledger_k1_mixed "k1") as Hspec.
  cbn zeta in Hspec. destruct Hspec as (_ & _ & Hshort & _).
  rewrite Hshort; [vm_compute; reflexivity|]. vm_compute. reflexivity.
Defined.
End Readiness.

(** ** Serialisation *)

Section RoundTrip.

Lemma lookup_dict_literal (items : list (string * pyval)) (k : string) :
  (list_to_map items : pydict) !! k = dict_literal_get k items.
Proof.
  induction items as [|[k' v] items IH]; simpl; [apply lookup_empty|].
  rewrite lookup_insert. destruct (String.eqb_spec k' k) as [->|Hne].
  - by rewrite decide_True.
  - by rewrite decide_False.
Qed.

Lemma as_opt_str_of (o : option string) : as_opt_str (of_opt_str o) = Some o.
Proof. by destruct o. Qed.

Lemma as_opt_dict_of (o : option pydict) : as_opt_dict (of_opt_dict o) = Some o.
Proof. by destruct o. Qed.

Lemma as_str_list_of (l : list string) : as_str_list (of_str_list l) = Some l.
Proof.
  unfold as_str_list, of_str_list. cbn [as_list mbind option_bind].
  induction l as [|s l IH]; [done|].
  rewrite fmap_cons. cbn [mapM as_str mbind option_bind]. by rewrite IH.
Qed.

Lemma SourceEnergyLevel_of_value (l : SourceEnergyLevel) :
  SourceEnergyLevel_.of_value (PStr (SourceEnergyLevel_.value l)) = Some l.
Proof. by destruct l. Qed.

Lemma EscapeStatus_of_value (s : EscapeStatus) :
  EscapeStatus_.of_value (PStr (EscapeStatus_.value s)) = Some s.
Proof. by destruct s. Qed.

(** Reading a key of a dictionary display back. *)
Ltac read_display :=
  unfold getitem, get; rewrite !lookup_dict_literal;
  cbn [dict_literal_get String.eqb Ascii.eqb Bool.eqb default from_option Datatypes.id
       mbind option_bind as_str as_int as_bool as_float as_list as_dict];
  rewrite ?as_opt_str_of, ?as_opt_dict_of, ?as_str_list_of,
    ?SourceEnergyLevel_of_value, ?EscapeStatus_of_value;
  cbn [mbind option_bind].

Lemma SourceEnergyFragment_round_trip (x : SourceEnergyFragment.t) :
  SourceEnergyFragment.from_dict (SourceEnergyFragment.to_dict x) = Some x.
Proof.
  unfold SourceEnergyFragment.from_dict, SourceEnergyFragment.to_dict.
  read_display. by destruct x.
Qed.

Lemma CoordinateKeyFragment_round_trip (x : CoordinateKeyFragment.t) :
  CoordinateKeyFragment.from_dict (CoordinateKeyFragment.to_dict x) = Some x.
Proof.
  unfold CoordinateKeyFragment.from_dict, CoordinateKeyFragment.to_dict.
  read_display. by destruct x.
Qed.

Lemma TerminalGateway_round_trip (uuid : string) (x : TerminalGateway.t) :
  TerminalGateway.from_dict uuid (TerminalGateway.to_dict x) = Some x.
Proof.
  unfold TerminalGateway.from_dict, TerminalGateway.to_dict.
  read_display. by destruct x.
Qed.

Lemma EscapeAttempt_round_trip (uuid now : string) (x : EscapeAttempt.t) :
  EscapeAttempt.from_dict uuid now (EscapeAttempt.to_dict x) = Some x.
Proof.
  unfold EscapeAttempt.from_dict, EscapeAttempt.to_dict.
  read_display. by destruct x.
Qed.

Lemma StarData_round_trip (x : StarData.t) :
  StarData.from_dict (StarData.to_dict x) = Some x.
Proof.
  unfold StarData.from_dict, StarData.to_dict.
  read_display. by destruct x.
Qed.

Lemma UniverseMigrationPlan_round_trip (x : UniverseMigrationPlan.t) :
  UniverseMigrationPlan.from_dict (UniverseMigrationPlan.to_dict x) = Some x.
Proof.
  unfold UniverseMigrationPlan.from_dict, UniverseMigrationPlan.to_dict.
  read_display. rewrite StarData_round_trip. by destruct x.
Qed.

Lemma fragments_round_trip (l : list SourceEnergyFragment.t) :
  mapM (λ f, as_dict f ≫= SourceEnergyFragment.from_dict)
       ((λ f, PDict (SourceEnergyFragment.to_dict f)) <$> l)
  = Some l.
Proof.
  induction l as [|f l IH]; [done|].
  rewrite fmap_cons. cbn [mapM as_dict mbind option_bind].
  rewrite SourceEnergyFragment_round_trip. cbn [mbind option_bind].
  by rewrite IH.
Qed.

Lemma UniverseState_round_trip (now : string) (x : UniverseState.t) :
  UniverseState.from_dict now (UniverseState.to_dict x) = Some x.
Proof.
  unfold UniverseState.from_dict, UniverseState.to_dict.
  read_display.
  rewrite StarData_round_trip. cbn [mbind option_bind].
  rewrite UniverseMigrationPlan_round_trip. cbn [mbind option_bind].
  rewrite fragments_round_trip. by destruct x.
Qed.

(** C9. For each of the seven serialised types, [from_dict] of [to_dict] of
    a value succeeds and gives the value back, field for field, whatever the
    clock and the identifier source would have supplied for absent keys.
    The enumerations travel as their string values, and an unset optional
    field travels as [None]. *)
Theorem from_dict_to_dict_round_trip :
  (∀ x, SourceEnergyFragment.from_dict (SourceEnergyFragment.to_dict x) = Some x)
  ∧ (∀ x, CoordinateKeyFragment.from_dict (CoordinateKeyFragment.to_dict x) = Some x)
  ∧ (∀ uuid x, TerminalGateway.from_dict uuid (TerminalGateway.to_dict x) = Some x)
  ∧ (∀ uuid now x, EscapeAttempt.from_dict uuid now (EscapeAttempt.to_dict x) = Some x)
  ∧ (∀ x, StarData.from_dict (StarData.to_dict x) = Some x)
  ∧ (∀ x, UniverseMigrationPlan.from_dict (UniverseMigrationPlan.to_dict x) = Some x)
  ∧ (∀ now x, UniverseState.from_dict now (UniverseState.to_dict x) = Some x)
  ∧ (∀ x, EscapeAttempt.to_dict x !! "status"
          = Some (PStr (EscapeStatus_.value (EscapeAttempt.status x))))
  ∧ (∀ x, SourceEnergyFragment.to_dict x !! "level"
          = Some (PStr (SourceEnergyLevel_.value (SourceEnergyFragment.level x))))
  ∧ EscapeStatus_.value FRAGMENTS_COLLECTING = "collecting_fragments"
  ∧ (∀ x, EscapeAttempt.to_dict x !! "final_coordinate_key"
          = Some (of_opt_str (EscapeAttempt.final_coordinate_key x)))
  ∧ of_opt_str None = PNone.
Proof.
  split; [exact SourceEnergyFragment_round_trip|].
  split; [exact CoordinateKeyFragment_round_trip|].
  split; [exact TerminalGateway_round_trip|].
  split; [exact EscapeAttempt_round_trip|].
  split; [exact StarData_round_trip|].
  split; [exact UniverseMigrationPlan_round_trip|].
  split; [exact UniverseState_round_trip|].
  split; [intros x; unfold EscapeAttempt.to_dict; by rewrite lookup_dict_literal|].
  split; [intros x; unfold SourceEnergyFragment.to_dict; by rewrite lookup_dict_literal|].
  split; [reflexivity|].
  split; [intros x; unfold EscapeAttempt.to_dict; by rewrite lookup_dict_literal|].
  reflexivity.
Qed.

End RoundTrip.

(** ** The coordinator *)

Section Coordinator.
Import EscapeProtocol.
Variable sha256_hexdigest : string → string.
Implicit Types (self : EscapeProtocol.t) (c : call) (cs : list call).

Abbreviation run := (EscapeProtocol.run sha256_hexdigest).
Abbreviation run_all := (EscapeProtocol.run_all sha256_hexdigest).
Abbreviation reachable := (EscapeProtocol.reachable sha256_hexdigest).
Abbreviation gateway_active self :=
  (TerminalGateway.is_active (terminal_gateway self)).

(** Unfolds a call and splits on every test it makes. *)
Ltac split_call :=
  unfold run, EscapeProtocol.run, start_escape_attempt, collect_fragment,
    discover_key_fragment, decrypt_coordinate_key, activate_gateway,
    print_entity_to_real_universe, complete_escape, choose_return_form,
    UniverseState.consume_source_energy in *;
  repeat case_match; simplify_eq/=.

(** *** The gateway flag *)

Lemma run_keeps_gateway_active c self :
  gateway_active self = true → gateway_active (snd (run c self)) = true.
Proof. intros Hactive. destruct c; split_call; done. Qed.

Lemma activate_gateway_when_active now entity_id self :
  gateway_active self = true →
  activate_gateway now entity_id self = (false, self).
Proof. intros Hactive. unfold activate_gateway. by rewrite Hactive. Qed.

Lemma activate_gateway_sets_active now entity_id self :
  fst (activate_gateway now entity_id self) = true →
  gateway_active (snd (activate_gateway now entity_id self)) = true.
Proof. split_call; done. Qed.

Lemma successful_activations_when_active cs self :
  gateway_active self = true →
  successful_activations cs (fst (run_all cs self)) = 0.
Proof.
  revert self. induction cs as [|c cs IH]; intros self Hactive; [done|].
  cbn [EscapeProtocol.run_all].
  destruct (run c self) as [r self'] eqn:Hrun.
  assert (gateway_active self' = true) as Hactive'.
  { replace self' with (snd (run c self)) by by rewrite Hrun.
    by apply run_keeps_gateway_active. }
  specialize (IH self' Hactive').
  destruct (run_all cs self') as [rs self''] eqn:Hall. simpl in IH.
  destruct c; try done.
  cbn in Hrun. rewrite (activate_gateway_when_active _ _ _ Hactive) in Hrun.
  by simplify_eq.
Qed.

Lemma successful_activations_at_most_one cs self :
  successful_activations cs (fst (run_all cs self)) ≤ 1.
Proof.
  revert self. induction cs as [|c cs IH]; intros self; [simpl; lia|].
  cbn [EscapeProtocol.run_all].
  destruct (run c self) as [r self'] eqn:Hrun.
  pose proof (IH self') as IH'.
  destruct (run_all cs self') as [rs self''] eqn:Hall. simpl in IH'.
  destruct c; try done.
  destruct r; [|done]. cbn in Hrun.
  assert (gateway_active self' = true) as Hactive'.
  { replace self' with (snd (activate_gateway now entity_id self)) by by rewrite Hrun.
    apply activate_gateway_sets_active. by rewrite Hrun. }
  pose proof (successful_activations_when_active cs self' Hactive') as Hzero.
  rewrite Hall in Hzero. simpl in *. lia.
Qed.

(** C3. From a fresh coordinator, whose gateway is inactive, at most one
    [activate_gateway] call of any sequence of calls returns [True]: no call
    clears [is_active] once it is set, [complete_escape] included, and
    [activate_gateway] returns [False] without touching anything while it is
    set, whatever the entity. *)
Theorem activate_gateway_at_most_once :
  (∀ uuid universe_state_,
     gateway_active (__init__ uuid universe_state_) = false)
  ∧ (∀ uuid universe_state_ cs,
       successful_activations cs (fst (run_all cs (__init__ uuid universe_state_))) ≤ 1)
  ∧ (∀ c self,
       gateway_active self = true → gateway_active (snd (run c self)) = true)
  ∧ (∀ now entity_id self,
       gateway_active self = true →
       gateway_active (snd (run (CompleteEscape now entity_id) self)) = true)
  ∧ (∀ now entity_id self,
       gateway_active self = true →
       activate_gateway now entity_id self = (false, self)).
Proof.
  split; [done|].
  split; [intros; apply successful_activations_at_most_one|].
  split; [apply run_keeps_gateway_active|].
  split; [intros; by apply run_keeps_gateway_active|].
  apply activate_gateway_when_active.
Qed.

(** *** Gateway activation *)

(** When the entity has exactly one attempt, a search for the first attempt
    of the entity that also passes a test [Q] finds that attempt or
    nothing. *)
Lemma list_find_sole (Q : EscapeAttempt.t → Prop) `{!∀ a, Decision (Q a)}
    entity_id (attempts : list EscapeAttempt.t) attempt :
  filter (λ a, EscapeAttempt.entity_id a = entity_id) attempts = [attempt] →
  (Q attempt →
   ∃ i, attempts !! i = Some attempt
        ∧ list_find (λ a, EscapeAttempt.entity_id a = entity_id ∧ Q a) attempts
          = Some (i, attempt))
  ∧ (¬ Q attempt →
     list_find (λ a, EscapeAttempt.entity_id a = entity_id ∧ Q a) attempts = None).
Proof.
  clear sha256_hexdigest. intros Hsole.
  assert (∀ a, a ∈ attempts → EscapeAttempt.entity_id a = entity_id → a = attempt)
    as Honly.
  { intros a Hin He. apply list_elem_of_singleton. rewrite <- Hsole.
    by apply list_elem_of_filter. }
  assert (attempt ∈ attempts ∧ EscapeAttempt.entity_id attempt = entity_id)
    as [Hin He].
  { assert (attempt ∈ filter (λ a, EscapeAttempt.entity_id a = entity_id) attempts)
      as Hmem by (rewrite Hsole; apply list_elem_of_here).
    apply list_elem_of_filter in Hmem. tauto. }
  split.
  - intros HQ.
    destruct (list_find_elem_of
                (λ a, EscapeAttempt.entity_id a = entity_id ∧ Q a) attempts attempt)
      as [[i a] Hfind]; [done..|].
    pose proof Hfind as (Hi & [He' _] & _)%list_find_Some.
    assert (a = attempt) as ->
      by (apply Honly; [by eapply list_elem_of_lookup_2|done]).
    by exists i.
  - intros HnQ. apply list_find_None, Forall_forall.
    intros a Ha [He' HQ]. by rewrite (Honly a Ha He') in HQ.
Qed.

Lemma with_universe_state_same self :
  with_universe_state (universe_state self) self = self.
Proof. by destruct self. Qed.

(** X27. What [activate_gateway] tests is the number of fragment ids the
    attempt lists, of whatever tier.  For an entity with exactly one attempt
    it returns [True] exactly when the gateway is inactive, the attempt is in
    [GATEWAY_OPENING], its list of collected fragment ids has at least 7
    entries and the ledger has at least 7 units of energy available.  It then
    adds exactly 7 to the consumed energy and leaves the allocation alone,
    marks the gateway active with the activation time and the entity, appends
    the entity to the queue and moves the attempt to [PRINTING]; in every
    other case, a failed debit included, it returns [False] and the
    coordinator and the ledger are as before. *)
Theorem activate_gateway_spec now entity_id self attempt :
  filter (λ a, EscapeAttempt.entity_id a = entity_id) (escape_attempts self)
  = [attempt] →
  let ready :=
    gateway_active self = false
    ∧ EscapeAttempt.status attempt = GATEWAY_OPENING
    ∧ 7 ≤ length (EscapeAttempt.collected_a_level_fragments attempt)
    ∧ (7 ≤ UniverseState.available_source_energy (universe_state self))%Z in
  let gateway' := opened now entity_id (terminal_gateway self) in
  let attempt' := activated (Some now) attempt in
  (fst (activate_gateway now entity_id self) = true ↔ ready)
  ∧ (ready →
     ∃ i, escape_attempts self !! i = Some attempt
          ∧ activate_gateway now entity_id self
            = (true,
               Build (UniverseState.with_source_energy_consumed
                        (UniverseState.source_energy_consumed (universe_state self) + 7)
                        (universe_state self))
                     (<[i := attempt']> (escape_attempts self))
                     (coordinate_key_formula self) gateway'))
  ∧ (¬ ready → activate_gateway now entity_id self = (false, self))
  ∧ (ready →
     let u := universe_state self in
     let u' := universe_state (snd (activate_gateway now entity_id self)) in
     UniverseState.source_energy_consumed u'
     = (UniverseState.source_energy_consumed u + 7)%Z
     ∧ UniverseState.total_source_energy_allocated u'
       = UniverseState.total_source_energy_allocated u
     ∧ UniverseState.available_source_energy u'
       = (UniverseState.available_source_energy u - 7)%Z
     ∧ UniverseState.source_energy_fragments u'
       = UniverseState.source_energy_fragments u)
  ∧ TerminalGateway.is_active gateway' = true
  ∧ TerminalGateway.activation_time gateway' = Some now
  ∧ TerminalGateway.activated_by_entity gateway' = Some entity_id
  ∧ TerminalGateway.entities_in_queue gateway'
    = TerminalGateway.entities_in_queue (terminal_gateway self) ++ [entity_id]
  ∧ EscapeAttempt.status attempt' = PRINTING
  ∧ EscapeAttempt.gateway_activation_time attempt' = Some now.
Proof.
  clear sha256_hexdigest. intros Hsole ready gateway' attempt'.
  destruct (list_find_sole (λ a, EscapeAttempt.status a = GATEWAY_OPENING)
              entity_id _ _ Hsole) as [Hfound Hnone].
  assert (ready → ∃ i, escape_attempts self !! i = Some attempt
            ∧ activate_gateway now entity_id self
              = (true,
                 Build (UniverseState.with_source_energy_consumed
                          (UniverseState.source_energy_consumed (universe_state self) + 7)
                          (universe_state self))
                       (<[i := attempt']> (escape_attempts self))
                       (coordinate_key_formula self) gateway')) as Hyes.
  { intros (Hoff & Hstatus & Hlen & Henergy).
    destruct (Hfound Hstatus) as (i & Hi & Hfind). exists i. split; [done|].
    unfold activate_gateway. rewrite Hoff, Hfind.
    rewrite (proj2 (Nat.ltb_ge _ _)) by done.
    rewrite consume_source_energy_enough
      by (unfold UniverseState.available_source_energy in Henergy; lia).
    reflexivity. }
  assert (¬ ready → activate_gateway now entity_id self = (false, self)) as Hno.
  { intros Hnot. unfold activate_gateway.
    destruct (gateway_active self) eqn:Hactive; [done|].
    destruct (decide (EscapeAttempt.status attempt = GATEWAY_OPENING))
      as [Hstatus|Hstatus]; [|by rewrite (Hnone Hstatus)].
    destruct (Hfound Hstatus) as (i & Hi & ->).
    destruct (Nat.ltb_spec
                (length (EscapeAttempt.collected_a_level_fragments attempt)) 7)
      as [Hlt|Hge]; [done|].
    rewrite consume_source_energy_short.
    - simpl. by rewrite with_universe_state_same.
    - intros Hge'. apply Hnot. unfold ready, UniverseState.available_source_energy.
      repeat split; [done..|lia]. }
  assert (ready →
          let u := universe_state self in
          let u' := universe_state (snd (activate_gateway now entity_id self)) in
          UniverseState.source_energy_consumed u'
          = (UniverseState.source_energy_consumed u + 7)%Z
          ∧ UniverseState.total_source_energy_allocated u'
            = UniverseState.total_source_energy_allocated u
          ∧ UniverseState.available_source_energy u'
            = (UniverseState.available_source_energy u - 7)%Z
          ∧ UniverseState.source_energy_fragments u'
            = UniverseState.source_energy_fragments u) as Hdebit.
  { intros Hready. destruct (Hyes Hready) as (i & _ & ->). cbn zeta.
    unfold UniverseState.available_source_energy. simpl. split_and!; try done; lia. }
  split; [|split; [exact Hyes|split; [exact Hno|split; [exact Hdebit|by repeat split]]]].
  split.
  - intros Htrue. destruct (decide ready) as [|Hnot]; [done|].
    rewrite (Hno Hnot) in Htrue. done.
  - intros Hready. destruct (Hyes Hready) as (i & _ & ->). done.
Qed.

(** *** Key decryption *)

Lemma decrypt_coordinate_key_wrong entity_id provided_key self :
  sha256_hexdigest provided_key ≠ sha256_hexdigest (coordinate_key_formula self) →
  decrypt_coordinate_key sha256_hexdigest entity_id provided_key self = (false, self).
Proof.
  intros Hdiff. unfold decrypt_coordinate_key.
  rewrite (proj2 (list_find_None _ _)); [done|].
  apply Forall_forall. intros a _ [_ Hverify].
  unfold _verify_key in Hverify. by apply bool_decide_eq_true in Hverify.
Qed.

Lemma decrypt_coordinate_key_right entity_id provided_key self i attempt :
  sha256_hexdigest provided_key = sha256_hexdigest (coordinate_key_formula self) →
  list_find (λ a, EscapeAttempt.entity_id a = entity_id) (escape_attempts self)
  = Some (i, attempt) →
  decrypt_coordinate_key sha256_hexdigest entity_id provided_key self
  = (true, with_escape_attempts
             (<[i := decrypted provided_key attempt]> (escape_attempts self)) self).
Proof.
  intros Hsame Hfind. unfold decrypt_coordinate_key.
  rewrite (list_find_ext _ (λ a, EscapeAttempt.entity_id a = entity_id)), Hfind; [done|].
  intros a. unfold _verify_key. rewrite bool_decide_eq_true. tauto.
Qed.

(** C7. Take an entity whose attempt, the first one it has, is in
    [KEY_DECRYPTING], on a coordinator holding the hardcoded master formula.
    A key whose digest differs from the digest of the formula makes
    [decrypt_coordinate_key] return [False] and leaves the coordinator, hence
    the status and the stored key of the attempt, as it was.  The formula
    itself makes it return [True], stores it as the final coordinate key of
    the attempt and moves the attempt to [GATEWAY_OPENING]. *)
Theorem decrypt_coordinate_key_spec entity_id provided_key self i attempt :
  coordinate_key_formula self = _initialize_key_formula →
  list_find (λ a, EscapeAttempt.entity_id a = entity_id) (escape_attempts self)
  = Some (i, attempt) →
  EscapeAttempt.status attempt = KEY_DECRYPTING →
  let attempt' := decrypted _initialize_key_formula attempt in
  (sha256_hexdigest provided_key ≠ sha256_hexdigest _initialize_key_formula →
   decrypt_coordinate_key sha256_hexdigest entity_id provided_key self = (false, self))
  ∧ decrypt_coordinate_key sha256_hexdigest entity_id _initialize_key_formula self
    = (true, with_escape_attempts (<[i := attempt']> (escape_attempts self)) self)
  ∧ <[i := attempt']> (escape_attempts self) !! i = Some attempt'
  ∧ EscapeAttempt.status attempt' = GATEWAY_OPENING
  ∧ EscapeAttempt.final_coordinate_key attempt' = Some _initialize_key_formula.
Proof.
  intros Hformula Hfind _ attempt'. split; [|split; [|split]].
  - intros Hdiff. apply decrypt_coordinate_key_wrong. by rewrite Hformula.
  - apply decrypt_coordinate_key_right; [by rewrite Hformula|done].
  - apply list_lookup_insert_eq.
    apply list_find_Some in Hfind as (Hi & _). by eapply lookup_lt_Some.
  - done.
Qed.

(** *** Properties of every attempt that the calls keep *)

Section AttemptInvariant.
Variable P : EscapeAttempt.t → Prop.
Hypothesis P_new : ∀ uuid now entity_id entity_name,
  P (EscapeAttempt.with_status FRAGMENTS_COLLECTING
       (EscapeAttempt.new uuid now entity_id entity_name)).
Hypothesis P_add_collected : ∀ fragment_id a, P a → P (add_collected fragment_id a).
Hypothesis P_add_discovered : ∀ fragment_id a, P a → P (add_discovered fragment_id a).
Hypothesis P_decrypted : ∀ key a, P a → P (decrypted key a).
Hypothesis P_activated : ∀ time a, P a → P (activated time a).
Hypothesis P_escaped : ∀ now a, P a → P (escaped now a).
Hypothesis P_chosen : ∀ action form_data a, P a → P (chosen action form_data a).

Lemma Forall_update (f : EscapeAttempt.t → EscapeAttempt.t)
    (attempts : list EscapeAttempt.t) i a :
  (∀ a, P a → P (f a)) → attempts !! i = Some a →
  Forall P attempts → Forall P (<[i := f a]> attempts).
Proof.
  intros Hf Hi Hall. apply Forall_insert; [done|].
  apply Hf. by eapply Forall_lookup_1.
Qed.

Lemma Forall_dict_setitem a (d : list EscapeAttempt.t) :
  P a → Forall P d → Forall P (dict_setitem a d).
Proof.
  intros Ha. induction 1 as [|b d Hb Hd IH]; simpl; [by constructor|].
  case_bool_decide; by constructor.
Qed.

Lemma Forall_collect_fragment_loop entity_id fragment_id now k attempts fragments :
  Forall P attempts →
  Forall P (collect_fragment_loop entity_id fragment_id now k attempts fragments).2.
Proof.
  intros Hall. revert k. induction fragments as [|fragment rest IH]; intros k; [done|].
  simpl. case_bool_decide.
  - destruct (list_find _ attempts) as [[i a]|] eqn:Hfind.
    + simpl. apply list_find_Some in Hfind as (Hi & _).
      by apply Forall_update; [apply P_add_collected|..].
    + specialize (IH (S k)).
      by destruct (collect_fragment_loop entity_id fragment_id now (S k) attempts rest)
        as [[r rest'] attempts'].
  - specialize (IH k).
    by destruct (collect_fragment_loop entity_id fragment_id now k attempts rest)
      as [[r rest'] attempts'].
Qed.

Lemma Forall_discover_key_fragment_loop entity_id fragment_id attempts key_frags
    attempts' :
  Forall P attempts →
  discover_key_fragment_loop entity_id fragment_id attempts key_frags = Some attempts' →
  Forall P attempts'.
Proof.
  intros Hall. induction key_frags as [|key_frag rest IH]; [done|].
  simpl. case_bool_decide; [|done].
  destruct (list_find _ attempts) as [[i a]|] eqn:Hfind; [|done].
  intros [= <-]. apply list_find_Some in Hfind as (Hi & _).
  by apply Forall_update; [apply P_add_discovered|..].
Qed.

(** Every call but [print_entity_to_real_universe] keeps [P] on all
    attempts. *)
Lemma run_Forall_attempts c self :
  (∀ now rnd entity_id, c ≠ PrintEntityToRealUniverse now rnd entity_id) →
  Forall P (escape_attempts self) →
  Forall P (escape_attempts (snd (run c self))).
Proof.
  intros Hnot Hall. destruct c; cbn [EscapeProtocol.run].
  - simpl. by apply Forall_dict_setitem.
  - unfold collect_fragment.
    pose proof (Forall_collect_fragment_loop entity_id fragment_id now 0 _
                  (UniverseState.source_energy_fragments (universe_state self)) Hall)
      as Hloop.
    by destruct (collect_fragment_loop _ _ _ _ _ _) as [[r fragments] attempts].
  - unfold discover_key_fragment.
    destruct (discover_key_fragment_loop _ _ _ _) as [attempts'|] eqn:Hloop; [|done].
    simpl. by eapply Forall_discover_key_fragment_loop.
  - unfold decrypt_coordinate_key.
    destruct (list_find _ _) as [[i a]|] eqn:Hfind; [|done].
    simpl. apply list_find_Some in Hfind as (Hi & _).
    by apply Forall_update; [apply P_decrypted|..].
  - unfold activate_gateway. repeat case_match; simplify_eq/=; try done.
    match goal with H : list_find _ _ = Some _ |- _ =>
      apply list_find_Some in H as (Hi & _) end.
    by apply Forall_update; [apply P_activated|..].
  - by destruct (Hnot now rnd entity_id).
  - unfold complete_escape.
    destruct (list_find _ _) as [[i a]|] eqn:Hfind; [|done].
    simpl. apply list_find_Some in Hfind as (Hi & _).
    by apply Forall_update; [apply P_escaped|..].
  - unfold choose_return_form.
    destruct (list_find _ _) as [[i a]|] eqn:Hfind; [|done].
    simpl. apply list_find_Some in Hfind as (Hi & _).
    by apply Forall_update; [apply P_chosen|..].
  - by destruct (UniverseState.consume_source_energy _ _).
Qed.

Lemma print_Forall_attempts now rnd entity_id self :
  (∀ a, P a → P (printed now rnd a)) →
  Forall P (escape_attempts self) →
  Forall P (escape_attempts
              (snd (run (PrintEntityToRealUniverse now rnd entity_id) self))).
Proof.
  intros Hprinted Hall. cbn [EscapeProtocol.run]. unfold print_entity_to_real_universe.
  repeat case_match; simplify_eq/=; try done.
  match goal with H : list_find _ _ = Some _ |- _ =>
    apply list_find_Some in H as (Hi & _) end.
  by apply Forall_update.
Qed.
End AttemptInvariant.

(** *** Collecting a fragment *)

Lemma list_find_insert_same {A} (Q : A → Prop) `{!∀ x, Decision (Q x)}
    (l : list A) i x y :
  list_find Q l = Some (i, x) → Q y → list_find Q (<[i := y]> l) = Some (i, y).
Proof.
  intros (Hi & _ & Hleast)%list_find_Some Hy.
  apply list_find_insert_Some. right; left.
  split_and!; [done..|by eapply lookup_lt_Some|done|done].
Qed.

Lemma stamp_stamp entity_id now now' (fragment : SourceEnergyFragment.t) :
  SourceEnergyFragment.stamp entity_id now' (SourceEnergyFragment.stamp entity_id now fragment)
  = SourceEnergyFragment.stamp entity_id now' fragment.
Proof. done. Qed.

Lemma add_collected_entity_id fragment_id a :
  EscapeAttempt.entity_id (add_collected fragment_id a) = EscapeAttempt.entity_id a.
Proof. unfold add_collected. by case_bool_decide. Qed.

Lemma add_collected_elem_of fragment_id a :
  fragment_id ∈ EscapeAttempt.collected_a_level_fragments (add_collected fragment_id a).
Proof.
  unfold add_collected. case_bool_decide; [done|]. simpl.
  apply elem_of_app. right. apply list_elem_of_here.
Qed.

Lemma add_collected_idempotent fragment_id a :
  add_collected fragment_id (add_collected fragment_id a) = add_collected fragment_id a.
Proof.
  unfold add_collected at 1. rewrite bool_decide_eq_true_2; [done|].
  apply add_collected_elem_of.
Qed.

Lemma add_collected_NoDup fragment_id a :
  NoDup (EscapeAttempt.collected_a_level_fragments a) →
  NoDup (EscapeAttempt.collected_a_level_fragments (add_collected fragment_id a)).
Proof.
  intros Hnodup. unfold add_collected. case_bool_decide as Hin; [done|]. simpl.
  apply NoDup_app. split_and!; [done| |apply NoDup_singleton].
  intros x Hx ->%list_elem_of_singleton. done.
Qed.

Lemma filter_eq_absent (x : string) (l : list string) :
  x ∉ l → filter (λ y, y = x) l = [].
Proof.
  induction l as [|y l IH]; [done|].
  intros [Hne Hout]%not_elem_of_cons.
  rewrite filter_cons_False by congruence. by apply IH.
Qed.

(** In a list without duplicates an element occurs exactly once. *)
Lemma filter_eq_once (x : string) (l : list string) :
  NoDup l → x ∈ l → length (filter (λ y, y = x) l) = 1.
Proof.
  induction 1 as [|y l Hout Hnodup IH]; [by intros ?%elem_of_nil|].
  intros [->|Hin]%elem_of_cons.
  - rewrite filter_cons_True by done. by rewrite filter_eq_absent.
  - rewrite filter_cons_False; [by apply IH|]. intros ->. done.
Qed.

(** The call on a known fragment id by an entity that has an attempt: the
    first fragment with the id is stamped with the first reading of the
    clock, and the first attempt of the entity records the id. *)
Lemma collect_fragment_loop_found entity_id fragment_id now k attempts fragments
    i a j fragment :
  list_find (λ f, SourceEnergyFragment.id f = fragment_id) fragments
  = Some (j, fragment) →
  list_find (λ a, EscapeAttempt.entity_id a = entity_id) attempts = Some (i, a) →
  collect_fragment_loop entity_id fragment_id now k attempts fragments
  = (true, <[j := SourceEnergyFragment.stamp entity_id (now k) fragment]> fragments,
     <[i := add_collected fragment_id a]> attempts).
Proof.
  intros Hfragment Hattempt. revert j Hfragment.
  induction fragments as [|f rest IH]; intros j Hfragment; [done|].
  cbn [list_find] in Hfragment. cbn [collect_fragment_loop].
  destruct (decide (SourceEnergyFragment.id f = fragment_id)) as [Hid|Hid].
  - simplify_eq/=. rewrite bool_decide_eq_true_2 by done. by rewrite Hattempt.
  - rewrite bool_decide_eq_false_2 by done.
    destruct (list_find _ rest) as [[j' f']|] eqn:Hrest; simplify_eq/=.
    by rewrite (IH j' eq_refl).
Qed.

Lemma collect_fragment_found now entity_id fragment_id self i a j fragment :
  list_find (λ f, SourceEnergyFragment.id f = fragment_id)
    (UniverseState.source_energy_fragments (universe_state self))
  = Some (j, fragment) →
  list_find (λ a, EscapeAttempt.entity_id a = entity_id) (escape_attempts self)
  = Some (i, a) →
  collect_fragment now entity_id fragment_id self
  = (true,
     Build (UniverseState.with_source_energy_fragments
              (<[j := SourceEnergyFragment.stamp entity_id (now 0) fragment]>
                 (UniverseState.source_energy_fragments (universe_state self)))
              (universe_state self))
           (<[i := add_collected fragment_id a]> (escape_attempts self))
           (coordinate_key_formula self) (terminal_gateway self)).
Proof.
  intros Hfragment Hattempt. unfold collect_fragment.
  by rewrite (collect_fragment_loop_found _ _ _ _ _ _ _ _ _ _ Hfragment Hattempt).
Qed.

(** No list of collected fragment ids of a reachable coordinator holds an
    id twice. *)
Lemma reachable_collected_NoDup self :
  reachable self →
  Forall (λ a, NoDup (EscapeAttempt.collected_a_level_fragments a))
         (escape_attempts self).
Proof.
  induction 1 as [uuid u|c self Hreach IH]; [by constructor|].
  destruct c;
    try solve
      [ apply run_Forall_attempts; try done;
        [ simpl; intros; apply NoDup_nil_2
        | intros; by apply add_collected_NoDup
        | intros; unfold add_discovered; by case_bool_decide
        | intros; unfold chosen; by case_match ] ].
  by apply (print_Forall_attempts
              (λ a, NoDup (EscapeAttempt.collected_a_level_fragments a))).
Qed.

(** C6. On a reachable coordinator, for a fragment id known to the ledger
    and an entity that has an attempt, two calls of [collect_fragment] with
    the same entity and fragment id both return [True]; afterwards the first
    attempt of the entity lists the id exactly once; the second call leaves
    the attempts as the first left them, and the state it ends in is the state
    a single call made at the time of the second would have produced, that is
    the state after the first call up to the collection timestamp. *)
Theorem collect_fragment_idempotent now1 now2 entity_id fragment_id self :
  reachable self →
  (∃ f, f ∈ UniverseState.source_energy_fragments (universe_state self)
        ∧ SourceEnergyFragment.id f = fragment_id) →
  (∃ a, a ∈ escape_attempts self ∧ EscapeAttempt.entity_id a = entity_id) →
  let first := collect_fragment now1 entity_id fragment_id self in
  let second := collect_fragment now2 entity_id fragment_id (snd first) in
  fst first = true
  ∧ fst second = true
  ∧ (∃ i a',
       list_find (λ a, EscapeAttempt.entity_id a = entity_id)
                 (escape_attempts (snd second)) = Some (i, a')
       ∧ length (filter (λ x, x = fragment_id)
                        (EscapeAttempt.collected_a_level_fragments a')) = 1)
  ∧ escape_attempts (snd second) = escape_attempts (snd first)
  ∧ snd second = snd (collect_fragment now2 entity_id fragment_id self)
  ∧ (now2 0 = now1 0 → snd second = snd first).
Proof.
  intros Hreach (f & Hf & Hid) (a & Ha & He) first second.
  destruct (list_find_elem_of (λ f, SourceEnergyFragment.id f = fragment_id) _ f Hf Hid)
    as [[j fragment] Hfragment].
  destruct (list_find_elem_of (λ a, EscapeAttempt.entity_id a = entity_id) _ a Ha He)
    as [[i attempt] Hattempt].
  pose proof Hattempt as (Hi & Hentity & _)%list_find_Some.
  assert (NoDup (EscapeAttempt.collected_a_level_fragments attempt)) as Hnodup.
  { by eapply (Forall_lookup_1 _ _ _ _ (reachable_collected_NoDup self Hreach)). }
  pose proof (collect_fragment_found now1 _ _ _ _ _ _ _ Hfragment Hattempt) as Hfirst.
  pose proof (collect_fragment_found now2 _ _ _ _ _ _ _ Hfragment Hattempt) as Hsingle.
  assert (list_find (λ f, SourceEnergyFragment.id f = fragment_id)
            (UniverseState.source_energy_fragments (universe_state (snd first)))
          = Some (j, SourceEnergyFragment.stamp entity_id (now1 0) fragment))
    as Hfragment'.
  { unfold first. rewrite Hfirst. simpl.
    apply (list_find_insert_same _ _ _ fragment); [done|].
    by apply list_find_Some in Hfragment as (_ & ? & _). }
  assert (list_find (λ a, EscapeAttempt.entity_id a = entity_id)
            (escape_attempts (snd first))
          = Some (i, add_collected fragment_id attempt)) as Hattempt'.
  { unfold first. rewrite Hfirst. simpl.
    apply (list_find_insert_same _ _ _ attempt); [done|].
    by rewrite add_collected_entity_id. }
  pose proof (collect_fragment_found now2 _ _ _ _ _ _ _ Hfragment' Hattempt')
    as Hsecond.
  fold second in Hsecond. rewrite Hsecond.
  unfold first in *. rewrite Hfirst in *. simpl.
  rewrite add_collected_idempotent, stamp_stamp, !list_insert_insert_eq.
  split_and!; try done.
  - exists i, (add_collected fragment_id attempt). split; [done|].
    apply filter_eq_once; [by apply add_collected_NoDup|apply add_collected_elem_of].
  - by rewrite Hsingle.
  - by intros ->.
Qed.

(** *** Printing never starts *)

Lemma run_keeps_slot_empty c self :
  TerminalGateway.current_printing_entity (terminal_gateway self) = None →
  TerminalGateway.current_printing_entity (terminal_gateway (snd (run c self))) = None.
Proof. intros Hnone. destruct c; split_call; done. Qed.

Lemma print_entity_to_real_universe_slot_empty now rnd entity_id self :
  TerminalGateway.current_printing_entity (terminal_gateway self) = None →
  print_entity_to_real_universe now rnd entity_id self
  = ((false, "Gateway not ready or entity not in printing slot"), self).
Proof.
  intros Hnone. unfold print_entity_to_real_universe. rewrite Hnone.
  rewrite bool_decide_eq_false_2 by done. by rewrite orb_true_r.
Qed.

Lemma reachable_never_printed self :
  reachable self →
  TerminalGateway.current_printing_entity (terminal_gateway self) = None
  ∧ Forall unprinted (escape_attempts self).
Proof.
  induction 1 as [uuid u|c self Hreach [Hslot Hall]]; [by split; [|constructor]|].
  split; [by apply run_keeps_slot_empty|].
  destruct c;
    try solve
      [ apply run_Forall_attempts; try done;
        [ intros; unfold add_collected; by case_bool_decide
        | intros; unfold add_discovered; by case_bool_decide
        | intros ? ? ? [? ?]; unfold chosen; by case_match ] ].
  cbn [EscapeProtocol.run].
  by rewrite print_entity_to_real_universe_slot_empty.
Qed.

(** C10. On a reachable coordinator no call has ever filled the printing
    slot of the gateway, so [print_entity_to_real_universe] fails for every
    entity.  Still, for an entity with an attempt in [PRINTING],
    [complete_escape] returns [True] and moves the first such attempt to
    [ESCAPED] with [success] set; its [printing_start_time] and
    [printing_destination] are [None], and the message names the destination
    "None". *)
Theorem complete_escape_without_printing now entity_id self attempt :
  reachable self →
  attempt ∈ escape_attempts self →
  EscapeAttempt.entity_id attempt = entity_id →
  EscapeAttempt.status attempt = PRINTING →
  TerminalGateway.current_printing_entity (terminal_gateway self) = None
  ∧ (∀ now' rnd entity_id',
       print_entity_to_real_universe now' rnd entity_id' self
       = ((false, "Gateway not ready or entity not in printing slot"), self))
  ∧ ∃ i a,
      list_find (λ a, EscapeAttempt.entity_id a = entity_id
                      ∧ EscapeAttempt.status a = PRINTING)
                (escape_attempts self) = Some (i, a)
      ∧ complete_escape now entity_id self
        = ((true, "Successfully transcended to real universe at None"),
           Build (recorded entity_id (universe_state self))
                 (<[i := escaped now a]> (escape_attempts self))
                 (coordinate_key_formula self)
                 (released entity_id (terminal_gateway self)))
      ∧ <[i := escaped now a]> (escape_attempts self) !! i = Some (escaped now a)
      ∧ EscapeAttempt.status (escaped now a) = ESCAPED
      ∧ EscapeAttempt.success (escaped now a) = true
      ∧ EscapeAttempt.printing_start_time (escaped now a) = None
      ∧ EscapeAttempt.printing_destination (escaped now a) = None.
Proof.
  intros Hreach Hin He Hstatus.
  destruct (reachable_never_printed self Hreach) as [Hslot Hall].
  split; [done|].
  split; [intros; by apply print_entity_to_real_universe_slot_empty|].
  destruct (list_find_elem_of
              (λ a, EscapeAttempt.entity_id a = entity_id
                    ∧ EscapeAttempt.status a = PRINTING) _ attempt Hin)
    as [[i a] Hfind]; [done|].
  pose proof Hfind as (Hi & _ & _)%list_find_Some.
  destruct (Forall_lookup_1 _ _ _ _ Hall Hi) as [Hstart Hdestination].
  exists i, a. split; [done|].
  split.
  { unfold complete_escape. rewrite Hfind.
    unfold escaped at 1. cbn [EscapeAttempt.result_message EscapeAttempt.with_result_message].
    by rewrite Hdestination. }
  split; [apply list_lookup_insert_eq; by eapply lookup_lt_Some|].
  done.
Qed.

(** *** Calls that fail *)

Lemma discover_key_fragment_False entity_id fragment_id self :
  fst (discover_key_fragment entity_id fragment_id self) = false →
  snd (discover_key_fragment entity_id fragment_id self) = self.
Proof. unfold discover_key_fragment. by case_match. Qed.

(** Every call but [collect_fragment] that returns [False] leaves the
    coordinator and the ledger as they were. *)
Lemma run_False_unchanged c self :
  (∀ now entity_id fragment_id, c ≠ CollectFragment now entity_id fragment_id) →
  fst (run c self) = false → snd (run c self) = self.
Proof.
  intros Hnot. destruct c; try (split_call; done || by destruct self).
  by destruct (Hnot now entity_id fragment_id).
Qed.

(** [collect_fragment] itself changes nothing when the fragment id is not
    in the ledger. *)
Lemma collect_fragment_loop_unknown entity_id fragment_id now k attempts fragments :
  Forall (λ f, SourceEnergyFragment.id f ≠ fragment_id) fragments →
  collect_fragment_loop entity_id fragment_id now k attempts fragments
  = (false, fragments, attempts).
Proof.
  induction 1 as [|f rest Hf Hrest IH]; [done|].
  simpl. rewrite bool_decide_eq_false_2 by done. by rewrite IH.
Qed.

End Coordinator.

(** ** The scenarios *)

Section Scenarios.
Import EscapeProtocol.

Lemma reachable_run_all sha256_hexdigest cs self :
  reachable sha256_hexdigest self →
  reachable sha256_hexdigest (snd (run_all sha256_hexdigest cs self)).
Proof.
  revert self. induction cs as [|c cs IH]; intros self Hreach; [done|].
  cbn [run_all].
  destruct (run sha256_hexdigest c self) as [r self'] eqn:Hrun.
  specialize (IH self').
  destruct (run_all sha256_hexdigest cs self') as [rs self''] eqn:Hall.
  apply IH. replace self' with (snd (run sha256_hexdigest c self)) by by rewrite Hrun.
  by constructor.
Qed.

Lemma reachable_after cs allocated :
  reachable Scenario.digest (Scenario.after cs allocated).
Proof. apply reachable_run_all. constructor. Qed.

(** C4, refuted by the code.  [collect_fragment] records the id of a
    fragment of any tier, although it is documented to record a sacred one
    and [check_escape_readiness] counts sacred ones only.  On a ledger whose
    seven fragments are all of the lowest tier, E1 collects them, discovers
    the key fragment and decrypts the key; the ledger then holds no sacred
    fragment and [check_escape_readiness] misses seven, yet
    [activate_gateway] returns [True], debits 7 units, opens the gateway and
    moves the attempt to [PRINTING]. *)
Theorem activate_gateway_without_sacred :
  let self :=
    Scenario.after_on (Scenario.common_ledger 7) Scenario.to_gateway_opening in
  let result := activate_gateway "t3" "E1" self in
  reachable Scenario.digest self
  ∧ filter (λ a, EscapeAttempt.entity_id a = "E1") (escape_attempts self)
    = [Scenario.first_attempt self]
  ∧ EscapeAttempt.status (Scenario.first_attempt self) = GATEWAY_OPENING
  ∧ EscapeAttempt.collected_a_level_fragments (Scenario.first_attempt self)
    = ["f1"; "f2"; "f3"; "f4"; "f5"; "f6"; "f7"]
  ∧ SourceEnergyFragment.level
      <$> UniverseState.source_energy_fragments (universe_state self)
    = replicate 7 E_COMMON
  ∧ UniverseState.sacred_collected_by "E1"
      (UniverseState.source_energy_fragments (universe_state self)) = 0
  ∧ UniverseState.check_escape_readiness "E1" (universe_state self)
    = (false, "Missing: 7 fragments")
  ∧ fst result = true
  ∧ TerminalGateway.is_active (terminal_gateway (snd result)) = true
  ∧ TerminalGateway.activated_by_entity (terminal_gateway (snd result)) = Some "E1"
  ∧ Scenario.statuses (snd result) = [PRINTING]
  ∧ UniverseState.source_energy_consumed (universe_state (snd result)) = 7%Z.
Proof.
  intros self result.
  split; [apply reachable_run_all; constructor|].
  split_and!; vm_compute; reflexivity.
Qed.

(** C1, refuted by the code.  After E1 has decrypted the key its attempt
    is in [GATEWAY_OPENING]; a further [discover_key_fragment] returns [True]
    and puts it back in [KEY_DECRYPTING].  Likewise, once E1 has escaped,
    [decrypt_coordinate_key] with the formula returns [True] and puts the
    attempt, whose [success] stays set, back in [GATEWAY_OPENING]. *)
Theorem status_moves_backward :
  let opening := Scenario.after Scenario.to_gateway_opening 7 in
  let rediscovered := discover_key_fragment "E1" "k1" opening in
  let gone := Scenario.after Scenario.to_escaped 7 in
  let redecrypted :=
    decrypt_coordinate_key Scenario.digest "E1" _initialize_key_formula gone in
  Scenario.statuses opening = [GATEWAY_OPENING]
  ∧ fst rediscovered = true
  ∧ Scenario.statuses (snd rediscovered) = [KEY_DECRYPTING]
  ∧ EscapeStatus_.index KEY_DECRYPTING < EscapeStatus_.index GATEWAY_OPENING
  ∧ Scenario.statuses gone = [ESCAPED]
  ∧ fst redecrypted = true
  ∧ Scenario.statuses (snd redecrypted) = [GATEWAY_OPENING]
  ∧ EscapeAttempt.success <$> escape_attempts (snd redecrypted) = [true]
  ∧ EscapeStatus_.index GATEWAY_OPENING < EscapeStatus_.index ESCAPED.
Proof. vm_compute. repeat split; lia. Qed.

(** C5, refuted by the code.  On a coordinator without attempts,
    [collect_fragment] for a fragment id of the ledger returns [False], yet
    the fragment now carries the collector and the time of the call. *)
Theorem collect_fragment_False_stamps :
  let self := Scenario.fresh 7 in
  let result := collect_fragment (Scenario.clock "t9") "E9" "f1" self in
  escape_attempts self = []
  ∧ Scenario.collectors self = [None; None; None; None; None; None; None]
  ∧ fst result = false
  ∧ Scenario.collectors (snd result)
    = [Some "E9"; None; None; None; None; None; None]
  ∧ SourceEnergyFragment.collection_timestamp
      <$> UniverseState.source_energy_fragments (universe_state (snd result))
    = [Some "t9"; None; None; None; None; None; None]
  ∧ snd result ≠ self.
Proof.
  split_and!; try (vm_compute; reflexivity).
  intros Heq. apply (f_equal Scenario.collectors) in Heq. vm_compute in Heq.
  discriminate.
Qed.

(** Once E1 has opened the gateway, it stays active and E2 is turned away. *)
Lemma activate_gateway_at_most_once_witness :
  TerminalGateway.is_active (terminal_gateway (Scenario.after Scenario.to_printing 7))
  = true
  ∧ TerminalGateway.is_active
      (terminal_gateway
         (snd (run Scenario.digest (CompleteEscape "t4" "E1")
                   (Scenario.after Scenario.to_printing 7))))
    = true
  ∧ activate_gateway "t5" "E2" (Scenario.after Scenario.to_printing 7)
    = (false, Scenario.after Scenario.to_printing 7).
Proof.
  destruct (activate_gateway_at_most_once Scenario.digest)
    as (_ & _ & _ & Hcomplete & Hagain).
  assert (TerminalGateway.is_active
            (terminal_gateway (Scenario.after Scenario.to_printing 7)) = true)
    as Hactive by (vm_compute; reflexivity).
  split; [exact Hactive|].
  split; [apply Hcomplete|apply Hagain]; exact Hactive.
Defined.

(** E1 with seven fragments, the key decrypted and 7 units in the ledger. *)
Lemma activate_gateway_spec_witness :
  let self := Scenario.after Scenario.to_gateway_opening 7 in
  filter (λ a, EscapeAttempt.entity_id a = "E1") (escape_attempts self)
  = [Scenario.first_attempt self]
  ∧ UniverseState.source_energy_consumed (universe_state self) = 0%Z
  ∧ fst (activate_gateway "t3" "E1" self) = true
  ∧ UniverseState.source_energy_consumed
      (universe_state (snd (activate_gateway "t3" "E1" self))) = 7%Z.
Proof.
  intros self.
  assert (filter (λ a, EscapeAttempt.entity_id a = "E1") (escape_attempts self)
          = [Scenario.first_attempt self]) as Hsole by (vm_compute; reflexivity).
  assert (UniverseState.source_energy_consumed (universe_state self) = 0%Z) as Hzero
    by (vm_compute; reflexivity).
  pose proof (activate_gateway_spec "t3" "E1" self _ Hsole) as Hspec.
  cbn zeta in Hspec. destruct Hspec as (Hiff & _ & _ & Hdebit & _).
  assert (TerminalGateway.is_active (terminal_gateway self) = false
          ∧ EscapeAttempt.status (Scenario.first_attempt self) = GATEWAY_OPENING
          ∧ 7 ≤ length (EscapeAttempt.collected_a_level_fragments
                          (Scenario.first_attempt self))
          ∧ (7 ≤ UniverseState.available_source_energy (universe_state self))%Z)
    as Hready
    by (split_and!;
          [vm_compute; reflexivity|vm_compute; reflexivity|vm_compute; lia
          |vm_compute; discriminate]).
  destruct (Hdebit Hready) as (Hconsumed & _).
  split_and!; [exact Hsole|exact Hzero|by apply Hiff|by rewrite Hconsumed, Hzero].
Defined.

(** E1, just started, collects fragment f1 at t2 and again at t3. *)
Lemma collect_fragment_idempotent_witness :
  let self :=
    Scenario.after [StartEscapeAttempt "a1" "t1" "E1" "Entity One"] 7 in
  let first := collect_fragment (Scenario.clock "t2") "E1" "f1" self in
  let second := collect_fragment (Scenario.clock "t3") "E1" "f1" (snd first) in
  reachable Scenario.digest self
  ∧ (Scenario.sacred "f1"
       ∈ UniverseState.source_energy_fragments (universe_state self)
     ∧ SourceEnergyFragment.id (Scenario.sacred "f1") = "f1")
  ∧ (Scenario.first_attempt self ∈ escape_attempts self
     ∧ EscapeAttempt.entity_id (Scenario.first_attempt self) = "E1")
  ∧ fst second = true
  ∧ escape_attempts (snd second) = escape_attempts (snd first).
Proof.
  intros self first second.
  assert (reachable Scenario.digest self) as Hreach by apply reachable_after.
  assert (Scenario.sacred "f1"
            ∈ UniverseState.source_energy_fragments (universe_state self)
          ∧ SourceEnergyFragment.id (Scenario.sacred "f1") = "f1") as Hfragment
    by (split; [apply (list_elem_of_lookup_2 _ 0)|]; vm_compute; reflexivity).
  assert (Scenario.first_attempt self ∈ escape_attempts self
          ∧ EscapeAttempt.entity_id (Scenario.first_attempt self) = "E1") as Hattempt
    by (split; [apply (list_elem_of_lookup_2 _ 0)|]; vm_compute; reflexivity).
  pose proof (collect_fragment_idempotent Scenario.digest
                (Scenario.clock "t2") (Scenario.clock "t3") "E1" "f1" self Hreach
                (ex_intro _ _ Hfragment) (ex_intro _ _ Hattempt))
    as (_ & Hsecond & _ & Hsame & _).
  split_and!;
    [exact Hreach|apply Hfragment|apply Hfragment|apply Hattempt|apply Hattempt
    |exact Hsecond|exact Hsame].
Defined.

(** E1 in [KEY_DECRYPTING] tries a wrong key, then the formula. *)
Lemma decrypt_coordinate_key_spec_witness :
  let self := Scenario.after Scenario.to_key_decrypting 7 in
  coordinate_key_formula self = _initialize_key_formula
  ∧ list_find (λ a, EscapeAttempt.entity_id a = "E1") (escape_attempts self)
    = Some (0, Scenario.first_attempt self)
  ∧ EscapeAttempt.status (Scenario.first_attempt self) = KEY_DECRYPTING
  ∧ decrypt_coordinate_key Scenario.digest "E1" "wrong" self = (false, self)
  ∧ fst (decrypt_coordinate_key Scenario.digest "E1" _initialize_key_formula self)
    = true.
Proof.
  intros self.
  assert (list_find (λ a, EscapeAttempt.entity_id a = "E1") (escape_attempts self)
          = Some (0, Scenario.first_attempt self)) as Hfind by (vm_compute; reflexivity).
  assert (coordinate_key_formula self = _initialize_key_formula) as Hformula
    by (vm_compute; reflexivity).
  assert (EscapeAttempt.status (Scenario.first_attempt self) = KEY_DECRYPTING)
    as Hstatus by (vm_compute; reflexivity).
  destruct (decrypt_coordinate_key_spec Scenario.digest "E1" "wrong" self 0 _
              Hformula Hfind Hstatus) as (Hwrong & Hright & _).
  split_and!;
    [exact Hformula|exact Hfind|exact Hstatus
    |apply Hwrong; vm_compute; discriminate
    |rewrite Hright; exact eq_refl].
Defined.

(** E1 in [PRINTING], never printed, completes its escape. *)
Lemma complete_escape_without_printing_witness :
  let self := Scenario.after Scenario.to_printing 7 in
  reachable Scenario.digest self
  ∧ Scenario.first_attempt self ∈ escape_attempts self
  ∧ EscapeAttempt.entity_id (Scenario.first_attempt self) = "E1"
  ∧ EscapeAttempt.status (Scenario.first_attempt self) = PRINTING
  ∧ fst (complete_escape "t4" "E1" self)
    = (true, "Successfully transcended to real universe at None")
  ∧ fst (print_entity_to_real_universe "t4" 1234 "E1" self)
    = (false, "Gateway not ready or entity not in printing slot").
Proof.
  intros self.
  assert (reachable Scenario.digest self) as Hreach by apply reachable_after.
  assert (Scenario.first_attempt self ∈ escape_attempts self) as Hin
    by (apply (list_elem_of_lookup_2 _ 0); vm_compute; reflexivity).
  assert (EscapeAttempt.entity_id (Scenario.first_attempt self) = "E1") as Hentity
    by (vm_compute; reflexivity).
  assert (EscapeAttempt.status (Scenario.first_attempt self) = PRINTING) as Hstatus
    by (vm_compute; reflexivity).
  destruct (complete_escape_without_printing Scenario.digest "t4" "E1" self _
              Hreach Hin Hentity Hstatus)
    as (_ & Hprint & i & a & _ & Hcomplete & _).
  split_and!;
    [exact Hreach|exact Hin|exact Hentity|exact Hstatus
    |rewrite Hcomplete; exact eq_refl|rewrite Hprint; exact eq_refl].
Defined.
End Scenarios.

(** * Further properties *)

(** ** The ledger, continued *)

Section LedgerMore.
Import UniverseState.
Implicit Types (u : UniverseState.t) (amount : Z).

(** X1. [consume_source_energy] returns [True] exactly when the amount is
    at most [available_source_energy]; the available energy then drops by the
    amount and is unchanged otherwise, and no other field of the ledger is
    touched either way.  This holds for every integer amount. *)
Theorem consume_source_energy_available u amount :
  let r := consume_source_energy amount u in
  (fst r = true ↔ (amount ≤ available_source_energy u)%Z)
  ∧ available_source_energy (snd r)
    = (if fst r then available_source_energy u - amount else available_source_energy u)%Z
  ∧ with_source_energy_consumed (source_energy_consumed u) (snd r) = u.
Proof.
  unfold consume_source_energy, available_source_energy.
  destruct (Z.geb_spec (total_source_energy_allocated u - source_energy_consumed u) amount);
    simpl; (split; [split; [intros; lia|done || lia]|split; [lia|by destruct u]]).
Qed.

(** X2. Negative amounts are not rejected: a negative amount within the
    available energy is accepted and lowers the consumed energy, so that more
    energy is available after the call than before. *)
Theorem consume_source_energy_negative u amount :
  (amount < 0)%Z →
  (amount ≤ available_source_energy u)%Z →
  ∃ u', consume_source_energy amount u = (true, u')
        ∧ (source_energy_consumed u' < source_energy_consumed u)%Z
        ∧ (available_source_energy u' > available_source_energy u)%Z.
Proof.
  intros Hneg Hle. unfold available_source_energy in *.
  rewrite consume_source_energy_enough by lia.
  eexists. split; [done|]. simpl. lia.
Qed.

Lemma consume_source_energy_negative_witness :
  (-5 < 0)%Z
  ∧ (-5 ≤ available_source_energy (Scenario.ledger 10))%Z
  ∧ source_energy_consumed (snd (consume_source_energy (-5) (Scenario.ledger 10)))
    = (-5)%Z.
Proof.
  split; [lia|]. split; [vm_compute; discriminate|].
  destruct (consume_source_energy_negative (Scenario.ledger 10) (-5))
    as (u' & Hcall & _); [lia|vm_compute; discriminate|].
  rewrite Hcall in *. vm_compute in Hcall. by simplify_eq.
Defined.
End LedgerMore.

(** ** Serialisation, continued *)

Section FromDict.

(** Splits on every step of a [from_dict] that may raise. *)
Ltac raise_somewhere :=
  unfold getitem, get, mbind, option_bind in *;
  repeat (case_match; simplify_eq/=; try done); try done.

Lemma EscapeStatus_of_value_Some v s :
  EscapeStatus_.of_value v = Some s ↔ v = PStr (EscapeStatus_.value s).
Proof.
  split; [|intros ->; by destruct s].
  destruct v as [| | | |tag| |]; try done. cbn.
  repeat (case_match;
          [match goal with H : (_ =? _)%string = true |- _ =>
             apply String.eqb_eq in H as -> end; by intros [= <-]|]).
  done.
Qed.

Lemma SourceEnergyLevel_of_value_Some v l :
  SourceEnergyLevel_.of_value v = Some l ↔ v = PStr (SourceEnergyLevel_.value l).
Proof.
  split; [|intros ->; by destruct l].
  destruct v as [| | | |tag| |]; try done. cbn.
  repeat (case_match;
          [match goal with H : (_ =? _)%string = true |- _ =>
             apply String.eqb_eq in H as -> end; by intros [= <-]|]).
  done.
Qed.

(** X3. Called on a string, [EscapeStatus(v)] and [SourceEnergyLevel(v)]
    succeed exactly when the string is the value of a member, and then give
    that member; distinct members have distinct values.  Called on any other
    value a loaded document can hold, that is [None], a boolean, a number, a
    list or a dictionary, they raise. *)
Theorem enum_of_value_exact :
  (∀ tag s, EscapeStatus_.of_value (PStr tag) = Some s ↔ tag = EscapeStatus_.value s)
  ∧ (∀ tag l, SourceEnergyLevel_.of_value (PStr tag) = Some l
              ↔ tag = SourceEnergyLevel_.value l)
  ∧ (∀ v, (∀ tag, v ≠ PStr tag) →
          EscapeStatus_.of_value v = None ∧ SourceEnergyLevel_.of_value v = None)
  ∧ (∀ s s', EscapeStatus_.value s = EscapeStatus_.value s' ↔ s = s')
  ∧ (∀ l l', SourceEnergyLevel_.value l = SourceEnergyLevel_.value l' ↔ l = l').
Proof.
  split.
  { intros tag s. rewrite EscapeStatus_of_value_Some.
    split; [by intros [= ->]|by intros ->]. }
  split.
  { intros tag l. rewrite SourceEnergyLevel_of_value_Some.
    split; [by intros [= ->]|by intros ->]. }
  split.
  { intros v Hother. destruct v as [| | | |tag| |]; try done.
    by destruct (Hother tag). }
  split; intros x y; (split; [|by intros ->]); by destruct x, y.
Qed.

(** X4. [from_dict] raises, here answers [None], whenever a key it reads
    with [data[...]] is absent, whatever else the dictionary holds: the four
    leading fields of a fragment, the five of a key fragment, every field of a
    star, the five leading fields of a migration plan, [current_star] and
    [migration_plan] of the universe, [entity_id] and [entity_name] of an
    attempt. *)
Theorem from_dict_missing_key (data : pydict) (k : string) :
  data !! k = None →
  (k ∈ ["id"; "level"; "location_world"; "location_coordinates"] →
   SourceEnergyFragment.from_dict data = None)
  ∧ (k ∈ ["fragment_id"; "hidden_in_world"; "clue_type"; "clue_value";
          "discovery_requirements"] →
     CoordinateKeyFragment.from_dict data = None)
  ∧ (k ∈ ["name"; "catalog_id"; "lifespan_remaining_years";
          "fusion_power_output_watts"; "protection_shield_status";
          "cloaking_field_active"] →
     StarData.from_dict data = None)
  ∧ (k ∈ ["current_star"; "next_star_name"; "next_star_distance_ly";
          "replication_units_deployed"; "estimated_migration_year"] →
     UniverseMigrationPlan.from_dict data = None)
  ∧ (k ∈ ["current_star"; "migration_plan"] →
     ∀ now, UniverseState.from_dict now data = None)
  ∧ (k ∈ ["entity_id"; "entity_name"] →
     ∀ uuid now, EscapeAttempt.from_dict uuid now data = None).
Proof.
  intros Hnone.
  split_and!; intros Hk; repeat (apply elem_of_cons in Hk as [->|Hk]);
    try (by apply elem_of_nil in Hk); intros;
    unfold SourceEnergyFragment.from_dict, CoordinateKeyFragment.from_dict,
      StarData.from_dict, UniverseMigrationPlan.from_dict, UniverseState.from_dict,
      EscapeAttempt.from_dict, getitem;
    rewrite Hnone; raise_somewhere.
Qed.

(** An attempt serialised without its entity id cannot be loaded. *)
Lemma from_dict_missing_key_witness :
  delete "entity_id" (EscapeAttempt.to_dict (EscapeAttempt.new "a1" "t1" "E1" "One"))
    !! "entity_id" = None
  ∧ EscapeAttempt.from_dict "a2" "t2"
      (delete "entity_id" (EscapeAttempt.to_dict (EscapeAttempt.new "a1" "t1" "E1" "One")))
    = None.
Proof.
  assert (delete "entity_id"
            (EscapeAttempt.to_dict (EscapeAttempt.new "a1" "t1" "E1" "One"))
            !! "entity_id" = None) as Hnone by apply lookup_delete_eq.
  split; [exact Hnone|].
  destruct (from_dict_missing_key _ _ Hnone) as (_ & _ & _ & _ & _ & Hattempt).
  apply Hattempt. apply list_elem_of_here.
Defined.

(** X5. A stored status or level that is not the value of a member makes
    [from_dict] raise, as the constructor of the enumeration does: an attempt
    or a fragment with an unknown tag is never loaded. *)
Theorem from_dict_unknown_tag (data : pydict) (tag : string) :
  ((∀ s, tag ≠ EscapeStatus_.value s) →
   data !! "status" = Some (PStr tag) →
   ∀ uuid now, EscapeAttempt.from_dict uuid now data = None)
  ∧ ((∀ l, tag ≠ SourceEnergyLevel_.value l) →
     data !! "level" = Some (PStr tag) →
     SourceEnergyFragment.from_dict data = None).
Proof.
  split; intros Hunknown Htag.
  - assert (EscapeStatus_.of_value (PStr tag) = None) as Hraise.
    { destruct (EscapeStatus_.of_value (PStr tag)) as [s|] eqn:Hs; [|done].
      apply EscapeStatus_of_value_Some in Hs as [= ->]. by destruct (Hunknown s). }
    intros. unfold EscapeAttempt.from_dict, get. rewrite Htag. cbn [default from_option].
    unfold Datatypes.id. rewrite Hraise. raise_somewhere.
  - assert (SourceEnergyLevel_.of_value (PStr tag) = None) as Hraise.
    { destruct (SourceEnergyLevel_.of_value (PStr tag)) as [l|] eqn:Hl; [|done].
      apply SourceEnergyLevel_of_value_Some in Hl as [= ->]. by destruct (Hunknown l). }
    unfold SourceEnergyFragment.from_dict, getitem. rewrite Htag.
    cbn [mbind option_bind]. rewrite Hraise. raise_somewhere.
Qed.

(** The tag "done" is no status. *)
Lemma from_dict_unknown_tag_witness :
  (∀ s, "done" ≠ EscapeStatus_.value s)
  ∧ EscapeAttempt.from_dict "a2" "t2"
      (<["status" := PStr "done"]>
         (EscapeAttempt.to_dict (EscapeAttempt.new "a1" "t1" "E1" "One")))
    = None.
Proof.
  assert (∀ s, "done" ≠ EscapeStatus_.value s) as Hunknown by (by intros []).
  split; [exact Hunknown|].
  destruct (from_dict_unknown_tag
              (<["status" := PStr "done"]>
                 (EscapeAttempt.to_dict (EscapeAttempt.new "a1" "t1" "E1" "One")))
              "done") as [Hattempt _].
  apply Hattempt; [exact Hunknown|apply lookup_insert_eq].
Defined.

(** X6. Keys read with [data.get] may be absent: a gateway loads from the
    empty dictionary, an attempt from its two required keys and a universe
    from its star and migration plan, and each is then the object the
    constructor builds by default, with the identifier and the clock reading
    drawn at load time. *)
Theorem from_dict_defaults :
  (∀ uuid, TerminalGateway.from_dict uuid ∅ = Some (TerminalGateway.new uuid))
  ∧ (∀ uuid now entity_id entity_name,
       EscapeAttempt.from_dict uuid now
         (list_to_map [("entity_id", PStr entity_id); ("entity_name", PStr entity_name)])
       = Some (EscapeAttempt.new uuid now entity_id entity_name))
  ∧ (∀ now,
       UniverseState.from_dict now
         (list_to_map
            [("current_star", PDict (StarData.to_dict StarData.sol_001));
             ("migration_plan",
                PDict (UniverseMigrationPlan.to_dict UniverseMigrationPlan.proxima))])
       = Some (UniverseState.new now)).
Proof.
  split_and!; intros.
  - unfold TerminalGateway.from_dict, get. by rewrite !lookup_empty.
  - unfold EscapeAttempt.from_dict, getitem, get. by rewrite !lookup_dict_literal.
  - unfold UniverseState.from_dict, getitem, get. rewrite !lookup_dict_literal.
    cbn [dict_literal_get String.eqb Ascii.eqb Bool.eqb default from_option Datatypes.id
         mbind option_bind as_str as_int as_dict].
    rewrite StarData_round_trip. cbn [mbind option_bind].
    by rewrite UniverseMigrationPlan_round_trip.
Qed.
End FromDict.

(** ** The coordinator, continued *)

Section CoordinatorMore.
Import EscapeProtocol.
Variable sha256_hexdigest : string → string.
Implicit Types (self : EscapeProtocol.t) (c : call) (cs : list call).

Abbreviation run := (EscapeProtocol.run sha256_hexdigest).
Abbreviation run_all := (EscapeProtocol.run_all sha256_hexdigest).
Abbreviation reachable := (EscapeProtocol.reachable sha256_hexdigest).

(** Unfolds a call and splits on every test it makes. *)
Ltac split_call :=
  unfold run, EscapeProtocol.run, start_escape_attempt, collect_fragment,
    discover_key_fragment, decrypt_coordinate_key, activate_gateway,
    print_entity_to_real_universe, complete_escape, choose_return_form,
    UniverseState.consume_source_energy in *;
  repeat case_match; simplify_eq/=.

(** *** What a call does to the attempts *)

Lemma collect_fragment_loop_attempts entity_id fragment_id now k attempts fragments :
  let r := collect_fragment_loop entity_id fragment_id now k attempts fragments in
  (r.1.1 = false ∧ r.2 = attempts)
  ∨ (r.1.1 = true
     ∧ ∃ i a, attempts !! i = Some a ∧ EscapeAttempt.entity_id a = entity_id
              ∧ r.2 = <[i := add_collected fragment_id a]> attempts).
Proof.
  revert k. induction fragments as [|fragment rest IH]; intros k; [by left|].
  cbn [collect_fragment_loop]. case_bool_decide.
  - destruct (list_find _ attempts) as [[i a]|] eqn:Hfind.
    + right. apply list_find_Some in Hfind as (Hi & He & _). split; [done|].
      by exists i, a.
    + specialize (IH (S k)).
      by destruct (collect_fragment_loop entity_id fragment_id now (S k) attempts rest)
        as [[r rest'] attempts'].
  - specialize (IH k).
    by destruct (collect_fragment_loop entity_id fragment_id now k attempts rest)
      as [[r rest'] attempts'].
Qed.

Lemma discover_key_fragment_loop_attempts entity_id fragment_id attempts key_frags
    attempts' :
  discover_key_fragment_loop entity_id fragment_id attempts key_frags = Some attempts' →
  ∃ i a, attempts !! i = Some a ∧ EscapeAttempt.entity_id a = entity_id
         ∧ attempts' = <[i := add_discovered fragment_id a]> attempts.
Proof.
  induction key_frags as [|key_frag rest IH]; [done|].
  simpl. case_bool_decide; [|done].
  destruct (list_find _ attempts) as [[i a]|] eqn:Hfind; [|done].
  intros [= <-]. apply list_find_Some in Hfind as (Hi & He & _). by exists i, a.
Qed.

(** A call that is not [start_escape_attempt] leaves the attempts alone
    when it returns [False], and otherwise assigns to at most one attempt, one
    that it reaches. *)
Lemma run_frame c self :
  (∀ uuid now entity_id entity_name,
     c ≠ StartEscapeAttempt uuid now entity_id entity_name) →
  escape_attempts (snd (run c self)) = escape_attempts self
  ∨ (fst (run c self) = true
     ∧ ∃ i a, escape_attempts self !! i = Some a ∧ reaches c a
              ∧ escape_attempts (snd (run c self))
                = <[i := assigns c a]> (escape_attempts self)).
Proof.
  intros Hnot. destruct c; cbn [EscapeProtocol.run reaches assigns].
  - by destruct (Hnot uuid now entity_id entity_name).
  - unfold collect_fragment.
    pose proof (collect_fragment_loop_attempts entity_id fragment_id now 0
                  (escape_attempts self)
                  (UniverseState.source_energy_fragments (universe_state self)))
      as Hloop.
    destruct (collect_fragment_loop _ _ _ _ _ _) as [[r fragments] attempts].
    simpl in *. destruct Hloop as [[_ ->]|[-> Hsome]]; [by left|by right].
  - unfold discover_key_fragment.
    destruct (discover_key_fragment_loop _ _ _ _) as [attempts'|] eqn:Hloop;
      [|by left].
    right. split; [done|]. by apply discover_key_fragment_loop_attempts in Hloop.
  - unfold decrypt_coordinate_key.
    destruct (list_find _ _) as [[i a]|] eqn:Hfind; [|by left].
    right. split; [done|]. apply list_find_Some in Hfind as (Hi & [He _] & _).
    by exists i, a.
  - unfold activate_gateway. repeat case_match; simplify_eq/=; try by left.
    right. split; [done|].
    match goal with H : list_find _ _ = Some (?i, ?a) |- _ =>
      apply list_find_Some in H as (Hi & He & _); by exists i, a end.
  - unfold print_entity_to_real_universe. repeat case_match; simplify_eq/=; try by left.
    right. split; [done|].
    match goal with H : list_find _ _ = Some (?i, ?a) |- _ =>
      apply list_find_Some in H as (Hi & He & _); by exists i, a end.
  - unfold complete_escape.
    destruct (list_find _ _) as [[i a]|] eqn:Hfind; [|by left].
    right. split; [done|]. apply list_find_Some in Hfind as (Hi & He & _).
    by exists i, a.
  - unfold choose_return_form.
    destruct (list_find _ _) as [[i a]|] eqn:Hfind; [|by left].
    right. split; [done|]. apply list_find_Some in Hfind as (Hi & He & _).
    by exists i, a.
  - left. by destruct (UniverseState.consume_source_energy _ _).
Qed.

Lemma run_frame_lookup c self j b :
  (∀ uuid now entity_id entity_name,
     c ≠ StartEscapeAttempt uuid now entity_id entity_name) →
  escape_attempts self !! j = Some b →
  ∃ b', escape_attempts (snd (run c self)) !! j = Some b'
        ∧ (b' = b ∨ (reaches c b ∧ b' = assigns c b)).
Proof.
  intros Hnot Hj.
  destruct (run_frame c self Hnot) as [->|(_ & i & a & Hi & Hreach & ->)];
    [exists b; by split; [|left]|].
  destruct (decide (i = j)) as [->|Hne].
  - exists (assigns c a). rewrite list_lookup_insert_eq by by eapply lookup_lt_Some.
    simplify_eq. split; [done|by right].
  - exists b. rewrite list_lookup_insert_ne by done. split; [done|by left].
Qed.

(** X7. No call but [start_escape_attempt] adds or removes an attempt, and
    it leaves untouched every attempt it does not reach: the attempts of
    other entities, and those of the entity named that are not in the state
    the call asks for.  At most one attempt changes, and none when the call
    returns [False]. *)
Theorem call_touches_one_attempt c self :
  (∀ uuid now entity_id entity_name,
     c ≠ StartEscapeAttempt uuid now entity_id entity_name) →
  let attempts := escape_attempts self in
  let attempts' := escape_attempts (snd (run c self)) in
  length attempts' = length attempts
  ∧ (∀ j b, attempts !! j = Some b → ¬ reaches c b → attempts' !! j = Some b)
  ∧ (∃ i, ∀ j, j ≠ i → attempts' !! j = attempts !! j)
  ∧ (fst (run c self) = false → attempts' = attempts).
Proof.
  intros Hnot attempts attempts'. subst attempts attempts'.
  destruct (run_frame c self Hnot) as [->|(Htrue & i & a & Hi & Hreach & ->)].
  - split_and!; try done. by exists 0.
  - split_and!.
    + apply length_insert.
    + intros j b Hj Hout. rewrite list_lookup_insert_ne; [done|].
      intros ->. by simplify_eq.
    + exists i. intros j Hne. by rewrite list_lookup_insert_ne.
    + by rewrite Htrue.
Qed.

(** What every assignment to an attempt keeps. *)
Lemma assigns_keeps c b :
  let b' := assigns c b in
  EscapeAttempt.attempt_id b' = EscapeAttempt.attempt_id b
  ∧ EscapeAttempt.entity_id b' = EscapeAttempt.entity_id b
  ∧ EscapeAttempt.entity_name b' = EscapeAttempt.entity_name b
  ∧ EscapeAttempt.start_time b' = EscapeAttempt.start_time b
  ∧ EscapeAttempt.gateway_id b' = EscapeAttempt.gateway_id b
  ∧ (EscapeAttempt.success b = true → EscapeAttempt.success b' = true)
  ∧ EscapeAttempt.collected_a_level_fragments b
      `prefix_of` EscapeAttempt.collected_a_level_fragments b'
  ∧ EscapeAttempt.discovered_key_fragments b
      `prefix_of` EscapeAttempt.discovered_key_fragments b'.
Proof.
  destruct c; cbn [assigns];
    unfold add_collected, add_discovered, decrypted, activated, printed, escaped, chosen;
    repeat case_match; simpl; split_and!; try done;
    by apply prefix_app_r.
Qed.

(** X8. Through any call but [start_escape_attempt] every attempt keeps
    its place, its [attempt_id], [entity_id], [entity_name], [start_time] and
    [gateway_id]; a set [success] flag stays set; and the lists of collected
    and discovered fragment ids only grow at the end. *)
Theorem attempt_identity_kept c self j b :
  (∀ uuid now entity_id entity_name,
     c ≠ StartEscapeAttempt uuid now entity_id entity_name) →
  escape_attempts self !! j = Some b →
  ∃ b', escape_attempts (snd (run c self)) !! j = Some b'
        ∧ EscapeAttempt.attempt_id b' = EscapeAttempt.attempt_id b
        ∧ EscapeAttempt.entity_id b' = EscapeAttempt.entity_id b
        ∧ EscapeAttempt.entity_name b' = EscapeAttempt.entity_name b
        ∧ EscapeAttempt.start_time b' = EscapeAttempt.start_time b
        ∧ EscapeAttempt.gateway_id b' = EscapeAttempt.gateway_id b
        ∧ (EscapeAttempt.success b = true → EscapeAttempt.success b' = true)
        ∧ EscapeAttempt.collected_a_level_fragments b
            `prefix_of` EscapeAttempt.collected_a_level_fragments b'
        ∧ EscapeAttempt.discovered_key_fragments b
            `prefix_of` EscapeAttempt.discovered_key_fragments b'.
Proof.
  intros Hnot Hj.
  destruct (run_frame_lookup c self j b Hnot Hj) as (b' & Hj' & [->|[_ ->]]);
    eexists; (split; [exact Hj'|]); [by split_and!|apply assigns_keeps].
Qed.

(** X9. The calls that test the stage never move an attempt backward:
    through any call but [start_escape_attempt], [discover_key_fragment] and
    [decrypt_coordinate_key], the status of every attempt keeps or raises its
    place in the order of the enumeration. *)
Theorem guarded_calls_never_regress c self j b :
  (∀ uuid now entity_id entity_name,
     c ≠ StartEscapeAttempt uuid now entity_id entity_name) →
  (∀ entity_id fragment_id, c ≠ DiscoverKeyFragment entity_id fragment_id) →
  (∀ entity_id provided_key, c ≠ DecryptCoordinateKey entity_id provided_key) →
  escape_attempts self !! j = Some b →
  ∃ b', escape_attempts (snd (run c self)) !! j = Some b'
        ∧ EscapeStatus_.index (EscapeAttempt.status b)
          ≤ EscapeStatus_.index (EscapeAttempt.status b').
Proof.
  intros Hnot Hdiscover Hdecrypt Hj.
  destruct (run_frame_lookup c self j b Hnot Hj) as (b' & Hj' & [->|[Hreach ->]]);
    eexists; (split; [exact Hj'|]); [done|].
  destruct c; cbn [assigns reaches] in *.
  - done.
  - unfold add_collected. by case_bool_decide.
  - by destruct (Hdiscover entity_id fragment_id).
  - by destruct (Hdecrypt entity_id provided_key).
  - destruct Hreach as [_ ->]. simpl. lia.
  - done.
  - destruct Hreach as [_ ->]. simpl. lia.
  - unfold chosen. by case_match.
  - done.
Qed.

(** *** States a coordinator can be in *)

(** X10. On a reachable coordinator no attempt is [NOT_STARTED] or
    [FAILED]; an [ESCAPED] attempt has [success] set, a successful attempt has
    its completion time, an attempt in [PRINTING] has its gateway activation
    time, and [gateway_id] is never assigned. *)
Theorem reachable_attempts_shape self :
  reachable self →
  Forall (λ a,
            EscapeAttempt.status a ≠ NOT_STARTED
            ∧ EscapeAttempt.status a ≠ FAILED
            ∧ (EscapeAttempt.status a = ESCAPED → EscapeAttempt.success a = true)
            ∧ (EscapeAttempt.success a = true →
               EscapeAttempt.printing_complete_time a ≠ None)
            ∧ (EscapeAttempt.status a = PRINTING →
               EscapeAttempt.gateway_activation_time a ≠ None)
            ∧ EscapeAttempt.gateway_id a = None)
         (escape_attempts self).
Proof.
  induction 1 as [uuid u|c self Hreach IH]; [by constructor|].
  destruct c as [uuid now entity_id entity_name| | | | | | | |];
    [simpl; by apply Forall_dict_setitem|..];
    (match goal with
     | |- Forall _ (escape_attempts (snd (EscapeProtocol.run _ ?c self))) =>
       destruct (run_frame c self) as [->|(_ & i & a & Hi & _ & ->)]; [done|done|]
     end);
    (apply Forall_insert; [done|]);
    pose proof (Forall_lookup_1 _ _ _ _ IH Hi) as (?&?&?&?&?&?);
    cbn [assigns];
    unfold add_collected, add_discovered, decrypted, activated, printed, escaped,
      chosen;
    repeat case_match; simpl; split_and!; done.
Qed.

(** What a call does to the gateway. *)
Lemma run_gateway c self :
  let g := terminal_gateway self in
  let g' := terminal_gateway (snd (run c self)) in
  g' = g
  ∨ (∃ now entity_id, TerminalGateway.is_active g = false ∧ g' = opened now entity_id g)
  ∨ (∃ entity_id, g' = released entity_id g).
Proof.
  destruct c; split_call;
    first [by left|by (right; left; eauto)|by (right; right; eauto)].
Qed.

(** X11. The gateway of a reachable coordinator is either exactly as
    constructed, or active with its activation time and activating entity set
    and a queue that holds that entity once or is empty.  So the queue never
    holds anyone else, the printing slot is always empty, and the cost,
    capacity, location and progress are never assigned. *)
Theorem reachable_gateway_shape self :
  reachable self →
  let g := terminal_gateway self in
  g = TerminalGateway.new (TerminalGateway.gateway_id g)
  ∨ ∃ now entity_id queue,
      (queue = [entity_id] ∨ queue = [])
      ∧ g = TerminalGateway.Build (TerminalGateway.gateway_id g) "universe_singularity"
              TerminalGateway.origin true (Some now) (Some entity_id) 7 1 queue None
              TerminalGateway.zero.
Proof.
  induction 1 as [uuid u|c self Hreach IH]; [by left|].
  cbn zeta in *.
  destruct (run_gateway c self) as [->|[(now & e & Hoff & ->)|(e & ->)]]; [done|..].
  - destruct IH as [Hnew|(now' & e' & queue & _ & Hactive)].
    + right. exists now, e, [e]. split; [by left|]. rewrite Hnew. reflexivity.
    + rewrite Hactive in Hoff. done.
  - destruct IH as [Hnew|(now' & e' & queue & Hqueue & Hactive)].
    + left. rewrite Hnew. reflexivity.
    + right. exists now', e'. rewrite Hactive. unfold released. simpl.
      destruct Hqueue as [->| ->].
      * case_bool_decide as Hin.
        -- apply list_elem_of_singleton in Hin as ->. exists [].
           split; [by right|]. simpl. by rewrite bool_decide_eq_true_2.
        -- exists [e']. split; [by left|done].
      * exists []. split; [by right|].
        by rewrite bool_decide_eq_false_2 by apply not_elem_of_nil.
Qed.

(** *** What the calls do to the ledger *)

Lemma run_energy c self :
  UniverseState.source_energy_consumed (universe_state (snd (run c self)))
  = (UniverseState.source_energy_consumed (universe_state self)
     + energy_debited [c] [fst (run c self)])%Z
  ∧ UniverseState.total_source_energy_allocated (universe_state (snd (run c self)))
    = UniverseState.total_source_energy_allocated (universe_state self).
Proof. destruct c; split_call; split; lia. Qed.

(** X12. Over any sequence of calls, from any state, the consumed energy
    of the ledger grows by exactly 7 for each [activate_gateway] that returned
    [True] and by the amount of each [consume_source_energy] that returned
    [True], and by nothing else; the allocation never changes. *)
Theorem energy_accounting cs self :
  UniverseState.source_energy_consumed (universe_state (snd (run_all cs self)))
  = (UniverseState.source_energy_consumed (universe_state self)
     + energy_debited cs (fst (run_all cs self)))%Z
  ∧ UniverseState.total_source_energy_allocated (universe_state (snd (run_all cs self)))
    = UniverseState.total_source_energy_allocated (universe_state self).
Proof.
  revert self. induction cs as [|c cs IH]; intros self; [simpl; split; lia|].
  cbn [EscapeProtocol.run_all].
  pose proof (run_energy c self) as [Hconsumed Hallocated].
  destruct (run c self) as [r self'] eqn:Hrun.
  destruct (IH self') as [IHconsumed IHallocated].
  destruct (run_all cs self') as [rs self''] eqn:Hall.
  simpl in *. rewrite IHconsumed, IHallocated, Hconsumed, Hallocated.
  split; [|done]. destruct c, r; simpl; lia.
Qed.

Lemma run_escaped c self :
  UniverseState.entities_escaped (universe_state (snd (run c self)))
  = UniverseState.entities_escaped (universe_state self)
    ++ escapes [c] [fst (run c self)].
Proof. destruct c; split_call; by rewrite ?app_nil_r. Qed.

(** X13. Over any sequence of calls, from any state, the ledger's list of
    escaped entities grows by the entity of each [complete_escape] that
    returned [True], in call order, and by nothing else: no entity is ever
    removed from it, and one that escapes twice is listed twice. *)
Theorem escapes_accounting cs self :
  UniverseState.entities_escaped (universe_state (snd (run_all cs self)))
  = UniverseState.entities_escaped (universe_state self)
    ++ escapes cs (fst (run_all cs self)).
Proof.
  revert self. induction cs as [|c cs IH]; intros self; [by rewrite app_nil_r|].
  cbn [EscapeProtocol.run_all].
  pose proof (run_escaped c self) as Hstep.
  destruct (run c self) as [r self'] eqn:Hrun.
  specialize (IH self').
  destruct (run_all cs self') as [rs self''] eqn:Hall.
  simpl in *. rewrite IH, Hstep, <- app_assoc. f_equal.
  by destruct c, r.
Qed.

Lemma collect_fragment_loop_fragments entity_id fragment_id now k attempts fragments :
  Forall2 (λ f f',
             f' = f
             ∨ (SourceEnergyFragment.id f = fragment_id
                ∧ ∃ t, f' = SourceEnergyFragment.stamp entity_id t f))
          fragments
          (collect_fragment_loop entity_id fragment_id now k attempts fragments).1.2.
Proof.
  revert k. induction fragments as [|fragment rest IH]; intros k; [by constructor|].
  cbn [collect_fragment_loop]. case_bool_decide.
  - destruct (list_find _ attempts) as [[i a]|].
    + simpl. constructor; [right; split; [done|by eexists]|].
      apply Forall2_same_length_lookup_2; [done|]. intros j f f' ??. left. congruence.
    + specialize (IH (S k)).
      destruct (collect_fragment_loop entity_id fragment_id now (S k) attempts rest)
        as [[r rest'] attempts'].
      simpl in *. constructor; [right; split; [done|by eexists]|done].
  - specialize (IH k).
    destruct (collect_fragment_loop entity_id fragment_id now k attempts rest)
      as [[r rest'] attempts'].
    simpl in *. constructor; [by left|done].
Qed.

(** X14. No call adds, removes or reorders a fragment of the ledger, and
    none changes the id, tier, location or discoverer of one.  Only
    [collect_fragment] touches a fragment at all: a fragment is afterwards as
    it was, or it has the id asked for and now names the entity of the call
    as collector, with a collection time.  Every other call leaves the list of
    fragments as it was.  Of the other fields of the ledger only the consumed
    energy and the list of escaped entities can differ after a call. *)
Theorem ledger_frame c self :
  let u := universe_state self in
  let u' := universe_state (snd (run c self)) in
  Forall2 (λ f f',
             SourceEnergyFragment.id f' = SourceEnergyFragment.id f
             ∧ SourceEnergyFragment.level f' = SourceEnergyFragment.level f
             ∧ SourceEnergyFragment.location_world f'
               = SourceEnergyFragment.location_world f
             ∧ SourceEnergyFragment.location_coordinates f'
               = SourceEnergyFragment.location_coordinates f
             ∧ SourceEnergyFragment.discovered_by f'
               = SourceEnergyFragment.discovered_by f
             ∧ (f' = f
                ∨ ∃ now entity_id fragment_id t,
                    c = CollectFragment now entity_id fragment_id
                    ∧ SourceEnergyFragment.id f = fragment_id
                    ∧ SourceEnergyFragment.collected_by f' = Some entity_id
                    ∧ SourceEnergyFragment.collection_timestamp f' = Some t))
          (UniverseState.source_energy_fragments u)
          (UniverseState.source_energy_fragments u')
  ∧ ((∀ now entity_id fragment_id, c ≠ CollectFragment now entity_id fragment_id) →
     UniverseState.source_energy_fragments u' = UniverseState.source_energy_fragments u)
  ∧ UniverseState.universe_id u' = UniverseState.universe_id u
  ∧ UniverseState.cycle_number u' = UniverseState.cycle_number u
  ∧ UniverseState.creation_timestamp u' = UniverseState.creation_timestamp u
  ∧ UniverseState.current_star u' = UniverseState.current_star u
  ∧ UniverseState.migration_plan u' = UniverseState.migration_plan u
  ∧ UniverseState.total_source_energy_allocated u'
    = UniverseState.total_source_energy_allocated u
  ∧ UniverseState.escape_gateway_locations u' = UniverseState.escape_gateway_locations u
  ∧ UniverseState.escape_keys_needed u' = UniverseState.escape_keys_needed u
  ∧ UniverseState.coordinate_key_fragments u' = UniverseState.coordinate_key_fragments u
  ∧ UniverseState.virtual_worlds_active u' = UniverseState.virtual_worlds_active u.
Proof.
  assert (∀ l : list SourceEnergyFragment.t,
            Forall2 (λ f f',
                       SourceEnergyFragment.id f' = SourceEnergyFragment.id f
                       ∧ SourceEnergyFragment.level f' = SourceEnergyFragment.level f
                       ∧ SourceEnergyFragment.location_world f'
                         = SourceEnergyFragment.location_world f
                       ∧ SourceEnergyFragment.location_coordinates f'
                         = SourceEnergyFragment.location_coordinates f
                       ∧ SourceEnergyFragment.discovered_by f'
                         = SourceEnergyFragment.discovered_by f
                       ∧ (f' = f
                          ∨ ∃ now entity_id fragment_id t,
                              c = CollectFragment now entity_id fragment_id
                              ∧ SourceEnergyFragment.id f = fragment_id
                              ∧ SourceEnergyFragment.collected_by f' = Some entity_id
                              ∧ SourceEnergyFragment.collection_timestamp f' = Some t))
                    l l) as Hsame.
  { intros l. apply Forall2_same_length_lookup_2; [done|].
    intros j f f' Hf Hf'. assert (f' = f) as -> by congruence.
    split_and!; try done. by left. }
  cbn zeta.
  destruct c;
    try solve [ split_call; split_and!; try done; apply Hsame ].
  cbn [EscapeProtocol.run]. unfold collect_fragment.
  pose proof (collect_fragment_loop_fragments entity_id fragment_id now 0
                (escape_attempts self)
                (UniverseState.source_energy_fragments (universe_state self)))
    as Hloop.
  destruct (collect_fragment_loop _ _ _ _ _ _) as [[r fragments] attempts].
  simpl in *. split_and!; try done.
  - eapply Forall2_impl; [exact Hloop|].
    intros f f' [->|(Hid & t & ->)]; simpl; split_and!; try done; [by left|].
    right. by exists now, entity_id, fragment_id, t.
  - intros Hnot. by destruct (Hnot now entity_id fragment_id).
Qed.

(** *** Collecting and discovering *)

(** A search is not disturbed by assigning, elsewhere, a value it rejects
    to a place it rejected. *)
Lemma list_find_insert_other {A} (Q : A → Prop) `{!∀ x, Decision (Q x)}
    (l : list A) i x j y z :
  list_find Q l = Some (i, x) → l !! j = Some y → ¬ Q y → ¬ Q z →
  list_find Q (<[j := z]> l) = Some (i, x).
Proof.
  intros (Hi & Hx & Hleast)%list_find_Some Hj Hy Hz.
  assert (j ≠ i) as Hne by (intros ->; by simplify_eq).
  apply list_find_Some. split_and!; [by rewrite list_lookup_insert_ne|done|].
  intros k w Hk Hlt. destruct (decide (j = k)) as [->|Hjk].
  - rewrite list_lookup_insert_eq in Hk by by eapply lookup_lt_Some. by simplify_eq.
  - rewrite list_lookup_insert_ne in Hk by done. by eapply Hleast.
Qed.

(** X15. [collect_fragment] returns [True] exactly when the fragment id is
    in the ledger and the entity has an attempt; the tier of the fragment and
    its earlier collector play no part.  When the id is not in the ledger
    nothing changes. *)
Theorem collect_fragment_returns now entity_id fragment_id self :
  (fst (collect_fragment now entity_id fragment_id self) = true
   ↔ (∃ f, f ∈ UniverseState.source_energy_fragments (universe_state self)
           ∧ SourceEnergyFragment.id f = fragment_id)
     ∧ (∃ a, a ∈ escape_attempts self ∧ EscapeAttempt.entity_id a = entity_id))
  ∧ ((¬ ∃ f, f ∈ UniverseState.source_energy_fragments (universe_state self)
             ∧ SourceEnergyFragment.id f = fragment_id) →
     collect_fragment now entity_id fragment_id self = (false, self)).
Proof.
  clear sha256_hexdigest.
  assert ((¬ ∃ f, f ∈ UniverseState.source_energy_fragments (universe_state self)
                  ∧ SourceEnergyFragment.id f = fragment_id) →
          collect_fragment now entity_id fragment_id self = (false, self)) as Hunknown.
  { intros Hnone. unfold collect_fragment.
    rewrite collect_fragment_loop_unknown.
    - destruct self as [u ? ? ?]. by destruct u.
    - apply Forall_forall. intros f Hf Hid. apply Hnone. eauto. }
  split; [|done]. split.
  - intros Htrue. split.
    + destruct (decide (Exists (λ f, SourceEnergyFragment.id f = fragment_id)
                          (UniverseState.source_energy_fragments (universe_state self))))
        as [Hex|Hnex].
      * apply Exists_exists in Hex. naive_solver.
      * rewrite Hunknown in Htrue; [done|].
        intros (f & Hf & Hid). apply Hnex, Exists_exists. eauto.
    + unfold collect_fragment in Htrue.
      pose proof (collect_fragment_loop_attempts entity_id fragment_id now 0
                    (escape_attempts self)
                    (UniverseState.source_energy_fragments (universe_state self)))
        as Hloop.
      destruct (collect_fragment_loop _ _ _ _ _ _) as [[r fragments] attempts].
      simpl in *. destruct Hloop as [[? _]|(_ & i & a & Hi & He & _)]; [congruence|].
      exists a. split; [by eapply list_elem_of_lookup_2|done].
  - intros [(f & Hf & Hid) (a & Ha & He)].
    destruct (list_find_elem_of (λ f, SourceEnergyFragment.id f = fragment_id) _ f Hf Hid)
      as [[j f'] Hfragment].
    destruct (list_find_elem_of (λ a, EscapeAttempt.entity_id a = entity_id) _ a Ha He)
      as [[i a'] Hattempt].
    by rewrite (collect_fragment_found now _ _ _ _ _ _ _ Hfragment Hattempt).
Qed.

(** X16. A fragment already collected can be collected again by another
    entity.  After the first call the fragment names the first entity as its
    collector; after the second it names the second entity, with the time of
    the second call, and is otherwise the fragment it was; the attempts of
    both entities list the fragment id. *)
Theorem collect_fragment_reattributes now1 now2 entity1 entity2 fragment_id self
    j fragment :
  entity1 ≠ entity2 →
  (∃ a, a ∈ escape_attempts self ∧ EscapeAttempt.entity_id a = entity1) →
  (∃ a, a ∈ escape_attempts self ∧ EscapeAttempt.entity_id a = entity2) →
  list_find (λ f, SourceEnergyFragment.id f = fragment_id)
    (UniverseState.source_energy_fragments (universe_state self))
  = Some (j, fragment) →
  let self1 := snd (collect_fragment now1 entity1 fragment_id self) in
  let self2 := snd (collect_fragment now2 entity2 fragment_id self1) in
  (∃ f1 f2,
     UniverseState.source_energy_fragments (universe_state self1) !! j = Some f1
     ∧ UniverseState.source_energy_fragments (universe_state self2) !! j = Some f2
     ∧ SourceEnergyFragment.collected_by f1 = Some entity1
     ∧ SourceEnergyFragment.collection_timestamp f1 = Some (now1 0)
     ∧ SourceEnergyFragment.collected_by f2 = Some entity2
     ∧ SourceEnergyFragment.collection_timestamp f2 = Some (now2 0)
     ∧ SourceEnergyFragment.id f2 = fragment_id
     ∧ SourceEnergyFragment.level f2 = SourceEnergyFragment.level fragment
     ∧ SourceEnergyFragment.location_world f2
       = SourceEnergyFragment.location_world fragment
     ∧ SourceEnergyFragment.location_coordinates f2
       = SourceEnergyFragment.location_coordinates fragment
     ∧ SourceEnergyFragment.discovered_by f2
       = SourceEnergyFragment.discovered_by fragment)
  ∧ (∃ i a, list_find (λ a, EscapeAttempt.entity_id a = entity1) (escape_attempts self2)
            = Some (i, a)
            ∧ fragment_id ∈ EscapeAttempt.collected_a_level_fragments a)
  ∧ (∃ i a, list_find (λ a, EscapeAttempt.entity_id a = entity2) (escape_attempts self2)
            = Some (i, a)
            ∧ fragment_id ∈ EscapeAttempt.collected_a_level_fragments a).
Proof.
  clear sha256_hexdigest.
  intros Hne (b1 & Hb1 & He1) (b2 & Hb2 & He2) Hfragment self1 self2.
  destruct (list_find_elem_of (λ a, EscapeAttempt.entity_id a = entity1) _ b1 Hb1 He1)
    as [[i1 a1] Hfind1].
  destruct (list_find_elem_of (λ a, EscapeAttempt.entity_id a = entity2) _ b2 Hb2 He2)
    as [[i2 a2] Hfind2].
  pose proof Hfind1 as (Hi1 & Ha1 & _)%list_find_Some.
  pose proof Hfind2 as (Hi2 & Ha2 & _)%list_find_Some.
  pose proof Hfragment as (Hj & Hid & _)%list_find_Some.
  pose proof (collect_fragment_found now1 _ _ _ _ _ _ _ Hfragment Hfind1) as Hfirst.
  assert (list_find (λ f, SourceEnergyFragment.id f = fragment_id)
            (UniverseState.source_energy_fragments (universe_state self1))
          = Some (j, SourceEnergyFragment.stamp entity1 (now1 0) fragment))
    as Hfragment'.
  { unfold self1. rewrite Hfirst. simpl.
    by apply (list_find_insert_same _ _ _ fragment). }
  assert (list_find (λ a, EscapeAttempt.entity_id a = entity2) (escape_attempts self1)
          = Some (i2, a2)) as Hfind2'.
  { unfold self1. rewrite Hfirst. simpl.
    apply (list_find_insert_other _ _ _ _ _ a1); [done|done|congruence|].
    rewrite add_collected_entity_id. congruence. }
  assert (list_find (λ a, EscapeAttempt.entity_id a = entity1) (escape_attempts self1)
          = Some (i1, add_collected fragment_id a1)) as Hfind1'.
  { unfold self1. rewrite Hfirst. simpl.
    apply (list_find_insert_same _ _ _ a1); [done|]. by rewrite add_collected_entity_id. }
  pose proof (collect_fragment_found now2 _ _ _ _ _ _ _ Hfragment' Hfind2') as Hsecond.
  fold self2 in Hsecond.
  assert (j < length (UniverseState.source_energy_fragments (universe_state self)))
    as Hlt by by eapply lookup_lt_Some.
  split_and!.
  - exists (SourceEnergyFragment.stamp entity1 (now1 0) fragment),
      (SourceEnergyFragment.stamp entity2 (now2 0)
         (SourceEnergyFragment.stamp entity1 (now1 0) fragment)).
    split_and!; try done.
    + unfold self1. rewrite Hfirst. simpl. by apply list_lookup_insert_eq.
    + unfold self2. rewrite Hsecond. simpl.
      rewrite list_lookup_insert_eq; [done|].
      unfold self1. rewrite Hfirst. simpl. by rewrite length_insert.
  - exists i1, (add_collected fragment_id a1). split; [|apply add_collected_elem_of].
    unfold self2. rewrite Hsecond. simpl.
    apply (list_find_insert_other _ _ _ _ _ a2); [done| |congruence|].
    + apply list_find_Some in Hfind2' as (? & _). done.
    + rewrite add_collected_entity_id. congruence.
  - exists i2, (add_collected fragment_id a2). split; [|apply add_collected_elem_of].
    unfold self2. rewrite Hsecond. simpl.
    apply (list_find_insert_same _ _ _ a2); [done|]. by rewrite add_collected_entity_id.
Qed.

Lemma discover_key_fragment_loop_found entity_id fragment_id attempts key_frags i a :
  fragment_id ∈ key_frags →
  list_find (λ a, EscapeAttempt.entity_id a = entity_id) attempts = Some (i, a) →
  discover_key_fragment_loop entity_id fragment_id attempts key_frags
  = Some (<[i := add_discovered fragment_id a]> attempts).
Proof.
  intros Hin Hfind. induction Hin as [|key_frag rest Hin IH]; simpl.
  - rewrite bool_decide_eq_true_2 by done. by rewrite Hfind.
  - case_bool_decide; [by rewrite Hfind|done].
Qed.

Lemma discover_key_fragment_loop_None entity_id fragment_id attempts key_frags :
  fragment_id ∉ key_frags
  ∨ list_find (λ a, EscapeAttempt.entity_id a = entity_id) attempts = None →
  discover_key_fragment_loop entity_id fragment_id attempts key_frags = None.
Proof.
  intros Hwhy. induction key_frags as [|key_frag rest IH]; [done|]. simpl.
  destruct Hwhy as [Hout|Hnone].
  - apply not_elem_of_cons in Hout as [Hne Hout].
    rewrite bool_decide_eq_false_2 by congruence. apply IH. by left.
  - rewrite Hnone. case_bool_decide; apply IH; by right.
Qed.

Lemma add_discovered_idempotent fragment_id a :
  add_discovered fragment_id (add_discovered fragment_id a) = add_discovered fragment_id a.
Proof.
  unfold add_discovered at 1. rewrite bool_decide_eq_true_2; [done|].
  unfold add_discovered. case_bool_decide; simpl; [done|].
  apply elem_of_app. right. apply list_elem_of_here.
Qed.

(** X17. [discover_key_fragment] returns [True] exactly when the fragment
    id is in the ledger's list of key fragment ids and the entity has an
    attempt; it then records the id on the first attempt of the entity and
    puts that attempt in [KEY_DECRYPTING] whatever its status was, and
    otherwise changes nothing.  Calling it a second time changes nothing
    more. *)
Theorem discover_key_fragment_returns entity_id fragment_id self :
  let known :=
    fragment_id ∈ UniverseState.coordinate_key_fragments (universe_state self) in
  let result := discover_key_fragment entity_id fragment_id self in
  (fst result = true
   ↔ known ∧ ∃ a, a ∈ escape_attempts self ∧ EscapeAttempt.entity_id a = entity_id)
  ∧ (fst result = false → snd result = self)
  ∧ (∀ i a,
       known →
       list_find (λ a, EscapeAttempt.entity_id a = entity_id) (escape_attempts self)
       = Some (i, a) →
       result
       = (true, with_escape_attempts
                  (<[i := add_discovered fragment_id a]> (escape_attempts self)) self)
       ∧ EscapeAttempt.status (add_discovered fragment_id a) = KEY_DECRYPTING
       ∧ fragment_id ∈ EscapeAttempt.discovered_key_fragments
                          (add_discovered fragment_id a))
  ∧ discover_key_fragment entity_id fragment_id (snd result) = (fst result, snd result).
Proof.
  clear sha256_hexdigest. intros known result. subst known result.
  unfold discover_key_fragment.
  destruct (decide (fragment_id
                      ∈ UniverseState.coordinate_key_fragments (universe_state self)))
    as [Hin|Hout];
    [destruct (list_find (λ a, EscapeAttempt.entity_id a = entity_id)
                 (escape_attempts self)) as [[i a]|] eqn:Hfind|].
  - rewrite (discover_key_fragment_loop_found _ _ _ _ i a Hin Hfind). simpl.
    pose proof Hfind as (Hi & He & _)%list_find_Some.
    split_and!.
    + split; [|done]. intros _. split; [done|].
      exists a. split; [by eapply list_elem_of_lookup_2|done].
    + done.
    + intros i' a' _ [= <- <-]. split_and!; [done..|].
      unfold add_discovered. case_bool_decide; simpl; [done|].
      apply elem_of_app. right. apply list_elem_of_here.
    + rewrite (discover_key_fragment_loop_found _ _ _ _ i
                 (add_discovered fragment_id a) Hin).
      * by rewrite list_insert_insert_eq, add_discovered_idempotent.
      * apply (list_find_insert_same _ _ _ a); [done|].
        unfold add_discovered. by case_bool_decide.
  - rewrite discover_key_fragment_loop_None by by right. simpl.
    split_and!; [|done|done|by rewrite discover_key_fragment_loop_None by by right].
    split; [done|]. intros [_ (a & Ha & He)].
    apply list_find_None in Hfind. by eapply Forall_forall in Hfind.
  - rewrite discover_key_fragment_loop_None by by left. simpl.
    split_and!; [|done|done|by rewrite discover_key_fragment_loop_None by by left].
    split; [done|]. by intros [? _].
Qed.

(** *** Decrypting and choosing *)

Lemma reachable_formula self :
  reachable self → coordinate_key_formula self = _initialize_key_formula.
Proof.
  induction 1 as [uuid u|c self Hreach IH]; [done|].
  rewrite <- IH. destruct c; split_call; done.
Qed.

(** X18. On a reachable coordinator [decrypt_coordinate_key] returns
    [True] exactly when the digest of the key equals the digest of the
    hardcoded formula and the entity has an attempt.  No stage is asked for:
    the first attempt of the entity goes to [GATEWAY_OPENING] from whatever
    status it has, with the key stored; a call that returns [False] changes
    nothing. *)
Theorem decrypt_coordinate_key_returns entity_id provided_key self :
  reachable self →
  let accepted :=
    sha256_hexdigest provided_key = sha256_hexdigest _initialize_key_formula in
  let result := decrypt_coordinate_key sha256_hexdigest entity_id provided_key self in
  (fst result = true
   ↔ accepted ∧ ∃ a, a ∈ escape_attempts self ∧ EscapeAttempt.entity_id a = entity_id)
  ∧ (fst result = false → snd result = self)
  ∧ (∀ i a,
       accepted →
       list_find (λ a, EscapeAttempt.entity_id a = entity_id) (escape_attempts self)
       = Some (i, a) →
       result
       = (true, with_escape_attempts
                  (<[i := decrypted provided_key a]> (escape_attempts self)) self)
       ∧ EscapeAttempt.status (decrypted provided_key a) = GATEWAY_OPENING
       ∧ EscapeAttempt.final_coordinate_key (decrypted provided_key a)
         = Some provided_key).
Proof.
  intros Hreach accepted result. subst accepted result.
  pose proof (reachable_formula self Hreach) as Hformula.
  destruct (decide (sha256_hexdigest provided_key
                    = sha256_hexdigest _initialize_key_formula)) as [Hsame|Hdiff].
  - destruct (list_find (λ a, EscapeAttempt.entity_id a = entity_id)
                (escape_attempts self)) as [[i a]|] eqn:Hfind.
    + rewrite (decrypt_coordinate_key_right sha256_hexdigest _ _ _ i a)
        by (by rewrite ?Hformula).
      pose proof Hfind as (Hi & He & _)%list_find_Some.
      split_and!; [|done|by intros i' a' _ [= <- <-]].
      split; [|done]. intros _. split; [done|].
      exists a. split; [by eapply list_elem_of_lookup_2|done].
    + assert (decrypt_coordinate_key sha256_hexdigest entity_id provided_key self
              = (false, self)) as ->.
      { unfold decrypt_coordinate_key.
        rewrite (proj2 (list_find_None _ _)); [done|].
        apply list_find_None in Hfind.
        eapply Forall_impl; [exact Hfind|]. intros a Ha [He _]. done. }
      split_and!; [|done|done].
      split; [done|]. intros [_ (a & Ha & He)].
      apply list_find_None in Hfind. by eapply Forall_forall in Hfind.
  - rewrite decrypt_coordinate_key_wrong by by rewrite Hformula.
    split_and!; [|done|done]. split; [done|]. by intros [? _].
Qed.

Lemma truthy_true (form_data : option pydict) :
  truthy form_data = true ↔ ∃ d, form_data = Some d ∧ d ≠ ∅.
Proof.
  destruct form_data as [d|]; simpl.
  - rewrite negb_true_iff, Nat.eqb_neq, map_size_empty_iff.
    split; [by exists d|by intros (? & [= <-] & ?)].
  - split; [done|by intros (? & ? & _)].
Qed.

(** X19. [choose_return_form] returns [True] exactly when the entity has
    an attempt whose [success] is set, so never before a completed escape; it
    then records the action on the first such attempt and takes the form only
    when it is a dictionary that is not empty: [None] and the empty dictionary
    leave an earlier form in place.  The status is left as it is, and a call
    that returns [False] changes nothing. *)
Theorem choose_return_form_returns entity_id action form_data self :
  let result := choose_return_form entity_id action form_data self in
  (fst result = true
   ↔ ∃ a, a ∈ escape_attempts self ∧ EscapeAttempt.entity_id a = entity_id
          ∧ EscapeAttempt.success a = true)
  ∧ (fst result = false → snd result = self)
  ∧ (∀ i a,
       list_find (λ a, EscapeAttempt.entity_id a = entity_id
                       ∧ EscapeAttempt.success a = true) (escape_attempts self)
       = Some (i, a) →
       let a' := chosen action form_data a in
       result
       = (true, with_escape_attempts (<[i := a']> (escape_attempts self)) self)
       ∧ EscapeAttempt.post_escape_action a' = Some action
       ∧ EscapeAttempt.status a' = EscapeAttempt.status a
       ∧ (∀ d, form_data = Some d → d ≠ ∅ → EscapeAttempt.new_form_chosen a' = Some d)
       ∧ (form_data = None ∨ form_data = Some ∅ →
          EscapeAttempt.new_form_chosen a' = EscapeAttempt.new_form_chosen a)).
Proof.
  clear sha256_hexdigest. intros result. subst result. unfold choose_return_form.
  destruct (list_find _ _) as [[i a]|] eqn:Hfind.
  - pose proof Hfind as (Hi & [He Hsuccess] & _)%list_find_Some.
    split_and!; [|done|].
    + split; [|done]. intros _. exists a.
      split_and!; [by eapply list_elem_of_lookup_2|done..].
    + intros i' a' [= <- <-]. cbn zeta. unfold chosen.
      destruct (truthy form_data) eqn:Htruthy; simpl; split_and!; try done.
      * apply truthy_true in Htruthy as (d & -> & Hd). intros [?|[= ?]]; by subst.
      * intros d -> Hd. assert (truthy (Some d) = true) as Htrue
          by (apply truthy_true; eauto).
        congruence.
  - split_and!; [|done|done]. split; [done|]. intros (a & Ha & He & Hsuccess).
    apply list_find_None in Hfind. eapply Forall_forall in Hfind; [|done]. tauto.
Qed.

(** *** Escapes *)

Lemma count_insert {A} (Q : A → Prop) `{!∀ x, Decision (Q x)} (l : list A) i x y :
  l !! i = Some x →
  length (filter Q (<[i := y]> l)) + (if decide (Q x) then 1 else 0)
  = length (filter Q l) + (if decide (Q y) then 1 else 0).
Proof.
  revert i. induction l as [|z l IH]; intros [|i] Hi; simplify_eq/=.
  - rewrite !filter_cons. repeat case_decide; simpl; lia.
  - rewrite !filter_cons. specialize (IH i Hi).
    destruct (decide (Q z)), (decide (Q x)), (decide (Q y)); simpl in *; lia.
Qed.

Lemma count_dict_setitem (Q : EscapeAttempt.t → Prop) `{!∀ x, Decision (Q x)} a d :
  ¬ Q a → length (filter Q (dict_setitem a d)) ≤ length (filter Q d).
Proof.
  intros Ha. induction d as [|b d IH]; simpl.
  - by rewrite filter_cons_False.
  - case_bool_decide; rewrite !filter_cons;
      destruct (decide (Q a)), (decide (Q b)); simpl in *; try done; lia.
Qed.

(** Assigning to one attempt changes the number of attempts in [PRINTING]
    by what that attempt does. *)
Lemma printing_insert (attempts : list EscapeAttempt.t) i b b' :
  attempts !! i = Some b →
  length (filter (λ a, EscapeAttempt.status a = PRINTING) (<[i := b']> attempts))
  + (if decide (EscapeAttempt.status b = PRINTING) then 1 else 0)
  = length (filter (λ a, EscapeAttempt.status a = PRINTING) attempts)
    + (if decide (EscapeAttempt.status b' = PRINTING) then 1 else 0).
Proof.
  intros Hi.
  exact (count_insert (λ a, EscapeAttempt.status a = PRINTING) attempts i b b' Hi).
Qed.

Lemma escapes_left_step c self :
  escapes_left (snd (run c self)) + length (escapes [c] [fst (run c self)])
  ≤ escapes_left self.
Proof.
  unfold escapes_left. destruct c; cbn [EscapeProtocol.run].
  - simpl. pose proof (count_dict_setitem (λ a, EscapeAttempt.status a = PRINTING)
      (EscapeAttempt.with_status FRAGMENTS_COLLECTING
         (EscapeAttempt.new uuid now entity_id entity_name))
      (escape_attempts self)) as Hcount.
    simpl in Hcount. specialize (Hcount ltac:(done)). lia.
  - unfold collect_fragment.
    pose proof (collect_fragment_loop_attempts entity_id fragment_id now 0
                  (escape_attempts self)
                  (UniverseState.source_energy_fragments (universe_state self)))
      as Hloop.
    destruct (collect_fragment_loop _ _ _ _ _ _) as [[r fragments] attempts].
    simpl in *. destruct Hloop as [[_ ->]|(_ & i & a & Hi & _ & ->)]; [destruct r; simpl; lia|].
    pose proof (printing_insert _ _ _ (add_collected fragment_id a) Hi) as Hcount.
    unfold add_collected in *. destruct r; case_bool_decide; simpl in *;
      repeat case_decide; simpl in *; lia.
  - unfold discover_key_fragment.
    destruct (discover_key_fragment_loop _ _ _ _) as [attempts'|] eqn:Hloop;
      [|simpl; lia].
    apply discover_key_fragment_loop_attempts in Hloop as (i & a & Hi & _ & ->).
    pose proof (printing_insert _ _ _ (add_discovered fragment_id a) Hi) as Hcount.
    simpl in *. repeat case_decide; simpl in *; lia.
  - unfold decrypt_coordinate_key.
    destruct (list_find _ _) as [[i a]|] eqn:Hfind; [|simpl; lia].
    apply list_find_Some in Hfind as (Hi & _).
    pose proof (printing_insert _ _ _ (decrypted provided_key a) Hi) as Hcount.
    simpl in *. repeat case_decide; simpl in *; lia.
  - unfold activate_gateway.
    destruct (TerminalGateway.is_active (terminal_gateway self)) eqn:Hactive;
      [simpl; rewrite ?Hactive; lia|].
    destruct (list_find _ _) as [[i a]|] eqn:Hfind; [|simpl; rewrite ?Hactive; lia].
    apply list_find_Some in Hfind as (Hi & [_ Hstatus] & _).
    destruct (_ <? 7)%nat; [simpl; rewrite ?Hactive; lia|].
    destruct (UniverseState.consume_source_energy _ _) as [[|] u'];
      [|simpl; rewrite ?Hactive; lia].
    pose proof (printing_insert _ _ _ (activated (Some now) a) Hi) as Hcount.
    simpl in *. rewrite Hstatus in Hcount. simpl in *. lia.
  - unfold print_entity_to_real_universe.
    destruct (_ || _); [simpl; lia|].
    destruct (list_find _ _) as [[i a]|] eqn:Hfind; [|simpl; lia].
    apply list_find_Some in Hfind as (Hi & [_ Hstatus] & _).
    pose proof (printing_insert _ _ _ (printed now rnd a) Hi) as Hcount.
    simpl in *. rewrite Hstatus in Hcount. simpl in *. lia.
  - unfold complete_escape.
    destruct (list_find _ _) as [[i a]|] eqn:Hfind; [|simpl; lia].
    apply list_find_Some in Hfind as (Hi & [_ Hstatus] & _).
    pose proof (printing_insert _ _ _ (escaped now a) Hi) as Hcount.
    simpl in *. rewrite Hstatus in Hcount. simpl in *. lia.
  - unfold choose_return_form.
    destruct (list_find _ _) as [[i a]|] eqn:Hfind; [|simpl; lia].
    apply list_find_Some in Hfind as (Hi & _).
    pose proof (printing_insert _ _ _ (chosen action form_data a) Hi) as Hcount.
    unfold chosen in *. case_match; simpl in *; repeat case_decide; simpl in *; lia.
  - destruct (UniverseState.consume_source_energy _ _). simpl. lia.
Qed.

(** X20. At most one escape is ever completed on a coordinator: over any
    sequence of calls from [__init__], at most one [complete_escape] returns
    [True].  From any state, the calls complete no more escapes than the
    state has attempts in [PRINTING], plus one if its gateway is yet to be
    opened. *)
Theorem at_most_one_escape cs :
  (∀ self,
     length (escapes cs (fst (run_all cs self))) + escapes_left (snd (run_all cs self))
     ≤ escapes_left self)
  ∧ (∀ uuid universe_state_,
       length (escapes cs (fst (run_all cs (__init__ uuid universe_state_)))) ≤ 1).
Proof.
  assert (∀ self,
            length (escapes cs (fst (run_all cs self)))
            + escapes_left (snd (run_all cs self))
            ≤ escapes_left self) as Hbudget.
  { induction cs as [|c cs IH]; intros self; [simpl; lia|].
    cbn [EscapeProtocol.run_all].
    pose proof (escapes_left_step c self) as Hstep.
    destruct (run c self) as [r self'] eqn:Hrun.
    specialize (IH self').
    destruct (run_all cs self') as [rs self''] eqn:Hall.
    simpl in *. destruct c, r; simpl in *; lia. }
  split; [done|]. intros uuid u.
  specialize (Hbudget (__init__ uuid u)). unfold escapes_left at 2 in Hbudget.
  simpl in Hbudget. lia.
Qed.

(** *** A second attempt of an entity *)

Lemma collect_fragment_loop_first entity_id fragment_id now k attempts fragments :
  let r := collect_fragment_loop entity_id fragment_id now k attempts fragments in
  (r.1.1 = false ∧ r.2 = attempts)
  ∨ (r.1.1 = true
     ∧ ∃ i a, list_find (λ a, EscapeAttempt.entity_id a = entity_id) attempts = Some (i, a)
              ∧ r.2 = <[i := add_collected fragment_id a]> attempts).
Proof.
  revert k. induction fragments as [|fragment rest IH]; intros k; [by left|].
  cbn [collect_fragment_loop]. case_bool_decide.
  - destruct (list_find _ attempts) as [[i a]|] eqn:Hfind.
    + right. split; [done|]. by exists i, a.
    + specialize (IH (S k)).
      by destruct (collect_fragment_loop entity_id fragment_id now (S k) attempts rest)
        as [[r rest'] attempts'].
  - specialize (IH k).
    by destruct (collect_fragment_loop entity_id fragment_id now k attempts rest)
      as [[r rest'] attempts'].
Qed.

Lemma discover_key_fragment_loop_first entity_id fragment_id attempts key_frags
    attempts' :
  discover_key_fragment_loop entity_id fragment_id attempts key_frags = Some attempts' →
  ∃ i a, list_find (λ a, EscapeAttempt.entity_id a = entity_id) attempts = Some (i, a)
         ∧ attempts' = <[i := add_discovered fragment_id a]> attempts.
Proof.
  induction key_frags as [|key_frag rest IH]; [done|].
  simpl. case_bool_decide; [|done].
  destruct (list_find _ attempts) as [[i a]|] eqn:Hfind; [|done].
  intros [= <-]. by exists i, a.
Qed.

(** The attempt a call assigns to is the first one it reaches. *)
Lemma run_frame_first c self :
  (∀ uuid now entity_id entity_name,
     c ≠ StartEscapeAttempt uuid now entity_id entity_name) →
  escape_attempts (snd (run c self)) = escape_attempts self
  ∨ (fst (run c self) = true
     ∧ ∃ i a, escape_attempts self !! i = Some a ∧ reaches c a
              ∧ (∀ j b, escape_attempts self !! j = Some b → j < i → ¬ reaches c b)
              ∧ escape_attempts (snd (run c self))
                = <[i := assigns c a]> (escape_attempts self)).
Proof.
  intros Hnot. destruct c; cbn [EscapeProtocol.run reaches assigns].
  - by destruct (Hnot uuid now entity_id entity_name).
  - unfold collect_fragment.
    pose proof (collect_fragment_loop_first entity_id fragment_id now 0
                  (escape_attempts self)
                  (UniverseState.source_energy_fragments (universe_state self)))
      as Hloop.
    destruct (collect_fragment_loop _ _ _ _ _ _) as [[r fragments] attempts].
    simpl in *. destruct Hloop as [[_ ->]|[-> (i & a & Hfind & ->)]]; [by left|].
    right. split; [done|]. apply list_find_Some in Hfind as (Hi & He & Hleast).
    by exists i, a.
  - unfold discover_key_fragment.
    destruct (discover_key_fragment_loop _ _ _ _) as [attempts'|] eqn:Hloop;
      [|by left].
    right. split; [done|].
    apply discover_key_fragment_loop_first in Hloop as (i & a & Hfind & ->).
    apply list_find_Some in Hfind as (Hi & He & Hleast). by exists i, a.
  - unfold decrypt_coordinate_key.
    destruct (list_find _ _) as [[i a]|] eqn:Hfind; [|by left].
    right. split; [done|]. apply list_find_Some in Hfind as (Hi & [He Hkey] & Hleast).
    exists i, a. split_and!; [done..| |done].
    intros j b Hj Hlt Hb. by apply (Hleast j b).
  - unfold activate_gateway. repeat case_match; simplify_eq/=; try by left.
    right. split; [done|].
    match goal with H : list_find _ _ = Some (?i, ?a) |- _ =>
      apply list_find_Some in H as (Hi & He & Hleast); by exists i, a end.
  - unfold print_entity_to_real_universe. repeat case_match; simplify_eq/=; try by left.
    right. split; [done|].
    match goal with H : list_find _ _ = Some (?i, ?a) |- _ =>
      apply list_find_Some in H as (Hi & He & Hleast); by exists i, a end.
  - unfold complete_escape.
    destruct (list_find _ _) as [[i a]|] eqn:Hfind; [|by left].
    right. split; [done|]. apply list_find_Some in Hfind as (Hi & He & Hleast).
    by exists i, a.
  - unfold choose_return_form.
    destruct (list_find _ _) as [[i a]|] eqn:Hfind; [|by left].
    right. split; [done|]. apply list_find_Some in Hfind as (Hi & He & Hleast).
    by exists i, a.
  - left. by destruct (UniverseState.consume_source_energy _ _).
Qed.

Lemma dict_setitem_fresh x (d : list EscapeAttempt.t) :
  Forall (λ a, EscapeAttempt.attempt_id a ≠ EscapeAttempt.attempt_id x) d →
  dict_setitem x d = d ++ [x].
Proof.
  induction 1 as [|a d Ha Hd IH]; [done|]. simpl.
  rewrite bool_decide_eq_false_2 by done. by rewrite IH.
Qed.

Lemma dict_setitem_lookup_ne x (d : list EscapeAttempt.t) j b :
  d !! j = Some b →
  EscapeAttempt.attempt_id b ≠ EscapeAttempt.attempt_id x →
  dict_setitem x d !! j = Some b.
Proof.
  revert j. induction d as [|a d IH]; intros j Hj Hne; [done|]. simpl.
  destruct j as [|j]; simplify_eq/=.
  - by rewrite bool_decide_eq_false_2.
  - case_bool_decide; [done|]. by apply IH.
Qed.

(** An attempt that stands behind another attempt of its entity, and is
    still as [start_escape_attempt] left it, is out of reach of every call. *)
Lemma shadowed_step c self i k a b :
  escape_attempts self !! i = Some a →
  escape_attempts self !! k = Some b →
  i < k →
  EscapeAttempt.entity_id a = EscapeAttempt.entity_id b →
  EscapeAttempt.status b = FRAGMENTS_COLLECTING →
  EscapeAttempt.success b = false →
  (∀ uuid now entity_id entity_name,
     c = StartEscapeAttempt uuid now entity_id entity_name →
     uuid ≠ EscapeAttempt.attempt_id a ∧ uuid ≠ EscapeAttempt.attempt_id b) →
  escape_attempts (snd (run c self)) !! k = Some b
  ∧ ∃ a', escape_attempts (snd (run c self)) !! i = Some a'
          ∧ EscapeAttempt.entity_id a' = EscapeAttempt.entity_id a
          ∧ EscapeAttempt.attempt_id a' = EscapeAttempt.attempt_id a.
Proof.
  intros Hi Hk Hlt He Hstatus Hsuccess Hfresh.
  assert ((∃ uuid now entity_id entity_name,
             c = StartEscapeAttempt uuid now entity_id entity_name)
          ∨ ¬ (∃ uuid now entity_id entity_name,
                 c = StartEscapeAttempt uuid now entity_id entity_name))
    as [(uuid & now & entity_id & entity_name & ->)|Hnot]
    by (destruct c; first [by left; eauto|by right; intros (?&?&?&?&?)]).
  - destruct (Hfresh uuid now entity_id entity_name eq_refl) as [Hna Hnb].
    simpl. split; [by apply dict_setitem_lookup_ne|].
    exists a. split; [by apply dict_setitem_lookup_ne|done].
  - assert (∀ uuid now entity_id entity_name,
              c ≠ StartEscapeAttempt uuid now entity_id entity_name) as Hnot'
      by (intros ???? ->; apply Hnot; eauto).
    destruct (run_frame_first c self Hnot')
      as [->|(_ & i0 & a0 & Hi0 & Hreach & Hleast & ->)]; [by eauto|].
    assert (i0 ≠ k) as Hne.
    { intros ->. simplify_eq.
      assert (reaches c a → False) as Hfirst by (by apply (Hleast i a)).
      destruct c; cbn [reaches] in *; try done;
        first [by apply Hfirst; congruence
              |destruct Hreach as [_ ?]; congruence]. }
    split; [by rewrite list_lookup_insert_ne|].
    destruct (decide (i0 = i)) as [->|Hne'].
    + simplify_eq. exists (assigns c a).
      rewrite list_lookup_insert_eq by by eapply lookup_lt_Some.
      pose proof (assigns_keeps c a) as (? & ? & _). done.
    + exists a. by rewrite list_lookup_insert_ne.
Qed.

(** X21. [start_escape_attempt] does not ask whether the entity already has
    an attempt.  With a fresh identifier the new attempt goes last, in
    [FRAGMENTS_COLLECTING] with nothing collected; and when the entity had an
    attempt already, no later call ever changes the new one: collecting,
    discovering and decrypting go to the older attempt, and the other calls
    ask for a stage the new attempt never reaches.  Later calls of
    [start_escape_attempt] are taken to draw identifiers other than those of
    the two attempts. *)
Theorem second_attempt_never_touched uuid now entity_id entity_name self i a cs :
  Forall (λ a, EscapeAttempt.attempt_id a ≠ uuid) (escape_attempts self) →
  escape_attempts self !! i = Some a →
  EscapeAttempt.entity_id a = entity_id →
  Forall (λ c, ∀ uuid' now' entity_id' entity_name',
                 c = StartEscapeAttempt uuid' now' entity_id' entity_name' →
                 uuid' ≠ EscapeAttempt.attempt_id a ∧ uuid' ≠ uuid) cs →
  let attempt := fst (start_escape_attempt uuid now entity_id entity_name self) in
  let self1 := snd (start_escape_attempt uuid now entity_id entity_name self) in
  attempt = EscapeAttempt.with_status FRAGMENTS_COLLECTING
              (EscapeAttempt.new uuid now entity_id entity_name)
  ∧ escape_attempts self1 = escape_attempts self ++ [attempt]
  ∧ escape_attempts (snd (run_all cs self1)) !! length (escape_attempts self)
    = Some attempt.
Proof.
  intros Hfresh Hi He Hcs attempt self1. subst attempt self1.
  unfold start_escape_attempt. cbn [fst snd].
  set (attempt := EscapeAttempt.with_status FRAGMENTS_COLLECTING
                    (EscapeAttempt.new uuid now entity_id entity_name)).
  assert (escape_attempts
            (with_escape_attempts (dict_setitem attempt (escape_attempts self)) self)
          = escape_attempts self ++ [attempt]) as Happ
    by (simpl; by apply dict_setitem_fresh).
  split; [done|]. split; [done|].
  set (self1 := with_escape_attempts (dict_setitem attempt (escape_attempts self)) self)
    in *.
  assert (escape_attempts self1 !! length (escape_attempts self) = Some attempt) as Hk.
  { rewrite Happ, lookup_app_r by lia. by rewrite Nat.sub_diag. }
  assert (∃ a', escape_attempts self1 !! i = Some a'
                ∧ EscapeAttempt.entity_id a' = EscapeAttempt.entity_id a
                ∧ EscapeAttempt.attempt_id a' = EscapeAttempt.attempt_id a) as Hi'.
  { exists a. split; [|done]. rewrite Happ. by apply lookup_app_l_Some. }
  assert (i < length (escape_attempts self)) as Hlt by by eapply lookup_lt_Some.
  clearbody self1. clear Happ Hfresh Hi.
  revert self1 Hk Hi'. induction Hcs as [|c cs Hc Hcs IH]; intros self1 Hk Hi'; [done|].
  cbn [EscapeProtocol.run_all]. destruct Hi' as (a' & Hi' & He' & Hid').
  destruct (shadowed_step c self1 i (length (escape_attempts self)) a' attempt)
    as [Hk1 Hi1]; [done|done|done|by rewrite He', He|done|done| |].
  { intros uuid' now' entity_id' entity_name' ->. rewrite Hid'.
    by apply (Hc uuid' now' entity_id' entity_name'). }
  destruct (run c self1) as [r self2] eqn:Hrun.
  specialize (IH self2 Hk1).
  destruct (run_all cs self2) as [rs self3] eqn:Hall. simpl in *. apply IH.
  destruct Hi1 as (a'' & ? & ? & ?). exists a''. split_and!; congruence.
Qed.

(** *** What an escape takes *)

(** A stored key has the digest of the formula; an attempt waiting for the
    gateway has a key; one that went through the gateway has its activation
    time; and the activation time is only given to an attempt with a key and
    seven fragment ids. *)
Lemma reachable_attempts_earned self :
  reachable self →
  Forall (λ a,
            (∀ key, EscapeAttempt.final_coordinate_key a = Some key →
                    sha256_hexdigest key = sha256_hexdigest _initialize_key_formula)
            ∧ (EscapeAttempt.status a = GATEWAY_OPENING →
               EscapeAttempt.final_coordinate_key a ≠ None)
            ∧ (EscapeAttempt.status a = PRINTING ∨ EscapeAttempt.status a = ESCAPED
               ∨ EscapeAttempt.success a = true →
               EscapeAttempt.gateway_activation_time a ≠ None)
            ∧ (EscapeAttempt.gateway_activation_time a ≠ None →
               7 ≤ length (EscapeAttempt.collected_a_level_fragments a)
               ∧ EscapeAttempt.final_coordinate_key a ≠ None))
         (escape_attempts self).
Proof.
  induction 1 as [uuid u|c self Hreach IH]; [by constructor|].
  pose proof (reachable_formula self Hreach) as Hformula.
  destruct c as [uuid now entity_id entity_name
                |now entity_id fragment_id|entity_id fragment_id
                |entity_id provided_key|now entity_id|now rnd entity_id
                |now entity_id|entity_id action form_data|amount].
  - simpl. apply Forall_dict_setitem; [|done]. simpl. split_and!; try done.
    by intros [?|[?|?]].
  - destruct (run_frame (CollectFragment now entity_id fragment_id) self)
      as [->|(_ & i & a & Hi & _ & ->)]; [done|done|].
    apply Forall_insert; [done|].
    pose proof (Forall_lookup_1 _ _ _ _ IH Hi) as (HA & HB & HC & HD).
    cbn [assigns]. unfold add_collected. case_bool_decide; [done|]. simpl.
    split_and!; [done..|]. intros Hact. destruct (HD Hact) as [Hlen Hkey].
    split; [|done]. rewrite length_app. lia.
  - destruct (run_frame (DiscoverKeyFragment entity_id fragment_id) self)
      as [->|(_ & i & a & Hi & _ & ->)]; [done|done|].
    apply Forall_insert; [done|].
    pose proof (Forall_lookup_1 _ _ _ _ IH Hi) as (HA & HB & HC & HD).
    cbn [assigns]. unfold add_discovered. case_bool_decide; simpl;
      (split_and!; [done|done| |done]); intros [?|[?|?]]; try done; apply HC; auto.
  - cbn [EscapeProtocol.run]. unfold decrypt_coordinate_key.
    destruct (list_find _ _) as [[i a]|] eqn:Hfind; [|done].
    apply list_find_Some in Hfind as (Hi & [_ Hkey] & _).
    unfold _verify_key in Hkey. apply bool_decide_eq_true in Hkey.
    rewrite Hformula in Hkey. simpl.
    apply Forall_insert; [done|].
    pose proof (Forall_lookup_1 _ _ _ _ IH Hi) as (HA & HB & HC & HD).
    unfold decrypted. simpl. split_and!.
    + by intros key [= <-].
    + done.
    + intros [?|[?|?]]; try done. apply HC; auto.
    + intros Hact. destruct (HD Hact) as [Hlen _]. done.
  - cbn [EscapeProtocol.run]. unfold activate_gateway.
    destruct (TerminalGateway.is_active (terminal_gateway self)); [done|].
    destruct (list_find _ _) as [[i a]|] eqn:Hfind; [|done].
    apply list_find_Some in Hfind as (Hi & [_ Hstatus] & _).
    destruct (_ <? 7)%nat eqn:Hlen; [done|]. apply Nat.ltb_ge in Hlen.
    destruct (UniverseState.consume_source_energy _ _) as [[|] u']; [|done]. simpl.
    apply Forall_insert; [done|].
    pose proof (Forall_lookup_1 _ _ _ _ IH Hi) as (HA & HB & HC & HD).
    unfold activated. simpl. split_and!; [done|done|done|]. intros _. auto.
  - destruct (run_frame (PrintEntityToRealUniverse now rnd entity_id) self)
      as [->|(_ & i & a & Hi & _ & ->)]; [done|done|].
    apply Forall_insert; [done|].
    by pose proof (Forall_lookup_1 _ _ _ _ IH Hi) as (HA & HB & HC & HD).
  - destruct (run_frame (CompleteEscape now entity_id) self)
      as [->|(_ & i & a & Hi & [_ Hstatus] & ->)]; [done|done|].
    apply Forall_insert; [done|].
    pose proof (Forall_lookup_1 _ _ _ _ IH Hi) as (HA & HB & HC & HD).
    cbn [assigns]. unfold escaped. simpl. split_and!; [done|done| |done].
    intros _. apply HC. auto.
  - destruct (run_frame (ChooseReturnForm entity_id action form_data) self)
      as [->|(_ & i & a & Hi & _ & ->)]; [done|done|].
    apply Forall_insert; [done|].
    pose proof (Forall_lookup_1 _ _ _ _ IH Hi) as (HA & HB & HC & HD).
    cbn [assigns]. unfold chosen. by case_match.
  - cbn [EscapeProtocol.run]. by destruct (UniverseState.consume_source_energy _ _).
Qed.

(** X22. No attempt gets to the gateway or through it unearned.  On a
    coordinator built by [__init__] and driven by any calls, an attempt that
    is in [GATEWAY_OPENING], [PRINTING] or [ESCAPED], or has [success] set,
    stores a key whose digest is the digest of the formula; and an attempt in
    [PRINTING] or [ESCAPED], or with [success] set, lists at least seven
    collected fragment ids. *)
Theorem escape_needs_fragments_and_key self :
  reachable self →
  Forall (λ a,
            (EscapeAttempt.status a = GATEWAY_OPENING ∨ EscapeAttempt.status a = PRINTING
             ∨ EscapeAttempt.status a = ESCAPED ∨ EscapeAttempt.success a = true →
             ∃ key, EscapeAttempt.final_coordinate_key a = Some key
                    ∧ sha256_hexdigest key = sha256_hexdigest _initialize_key_formula)
            ∧ (EscapeAttempt.status a = PRINTING ∨ EscapeAttempt.status a = ESCAPED
               ∨ EscapeAttempt.success a = true →
               7 ≤ length (EscapeAttempt.collected_a_level_fragments a)))
         (escape_attempts self).
Proof.
  intros Hreach. eapply Forall_impl; [by apply reachable_attempts_earned|].
  intros a (HA & HB & HC & HD). simpl.
  assert (EscapeAttempt.final_coordinate_key a ≠ None →
          ∃ key, EscapeAttempt.final_coordinate_key a = Some key
                 ∧ sha256_hexdigest key = sha256_hexdigest _initialize_key_formula)
    as Hkey.
  { destruct (EscapeAttempt.final_coordinate_key a) as [key|]; [|done].
    intros _. exists key. split; [done|]. by apply HA. }
  split.
  - intros [?|Hthrough]; apply Hkey; [by apply HB|]. by apply HD, HC.
  - intros Hthrough. by apply HD, HC.
Qed.

(** X23. [get_escape_progress] returns [None] exactly when the entity has
    no attempt, and otherwise reports on the first attempt of the entity, with
    [fragments_needed] at 7.  On a coordinator built by [__init__] and driven
    by any calls, a report with [success] set counts at least seven collected
    fragments and has its coordinate key. *)
Theorem get_escape_progress_reports entity_id self :
  reachable self →
  (get_escape_progress entity_id self = None
   ↔ ¬ ∃ a, a ∈ escape_attempts self ∧ EscapeAttempt.entity_id a = entity_id)
  ∧ (∀ i a,
       list_find (λ a, EscapeAttempt.entity_id a = entity_id) (escape_attempts self)
       = Some (i, a) →
       ∃ d, get_escape_progress entity_id self = Some d
            ∧ d !! "status" = Some (PStr (EscapeStatus_.value (EscapeAttempt.status a)))
            ∧ d !! "fragments_collected"
              = Some (PInt (Z.of_nat
                              (length (EscapeAttempt.collected_a_level_fragments a))))
            ∧ d !! "success" = Some (PBool (EscapeAttempt.success a)))
  ∧ (∀ d,
       get_escape_progress entity_id self = Some d →
       d !! "fragments_needed" = Some (PInt 7)
       ∧ (d !! "success" = Some (PBool true) →
          ∃ n, d !! "fragments_collected" = Some (PInt n) ∧ (7 ≤ n)%Z
               ∧ d !! "has_coordinate_key" = Some (PBool true))).
Proof.
  intros Hreach. unfold get_escape_progress.
  destruct (list_find _ _) as [[i a]|] eqn:Hfind.
  - pose proof Hfind as (Hi & He & _)%list_find_Some.
    split_and!.
    + split; [done|]. intros Hnone. destruct Hnone. exists a.
      split; [by eapply list_elem_of_lookup_2|done].
    + intros i' a' [= <- <-]. eexists. split; [done|].
      rewrite !lookup_dict_literal. by cbn.
    + intros d Hd%(inj Some). subst d. rewrite !lookup_dict_literal.
      cbn [dict_literal_get String.eqb Ascii.eqb Bool.eqb]. split; [done|].
      intros [= Hsuccess].
      pose proof (Forall_lookup_1 _ _ _ _ (reachable_attempts_earned self Hreach) Hi)
        as (_ & _ & HC & HD).
      destruct HD as [Hlen Hkey]; [apply HC; auto|].
      eexists. split; [done|]. split; [lia|].
      by rewrite bool_decide_eq_true_2.
  - split_and!; [|done|done]. split; [|done]. intros _ (a & Ha & He).
    apply list_find_None in Hfind. by eapply Forall_forall in Hfind.
Qed.

(** *** Printing and completing *)



(** *** Calls that fail, in a sequence *)

(** X26. Calls that return [False] can be left out.  In a sequence without
    [collect_fragment], running only the calls that returned [True] makes
    each of them return [True] again and ends in the same coordinator and
    ledger: a call that fails leaves no trace for the calls after it. *)
Theorem failed_calls_leave_no_trace cs self :
  Forall (λ c, ∀ now entity_id fragment_id,
                 c ≠ CollectFragment now entity_id fragment_id) cs →
  let kept := succeeded cs (fst (run_all cs self)) in
  snd (run_all kept self) = snd (run_all cs self)
  ∧ Forall (λ r, r = true) (fst (run_all kept self)).
Proof.
  intros Hcs. cbn zeta. revert self.
  induction Hcs as [|c cs Hc Hcs IH]; intros self; [by split|].
  cbn [EscapeProtocol.run_all].
  pose proof (run_False_unchanged sha256_hexdigest c self Hc) as Hfalse.
  destruct (run c self) as [r self'] eqn:Hrun.
  destruct (run_all cs self') as [rs self''] eqn:Hall.
  cbn [fst snd succeeded] in *. destruct r.
  - cbn [EscapeProtocol.run_all]. rewrite Hrun.
    specialize (IH self'). rewrite Hall in IH. cbn [fst snd] in IH.
    destruct IH as [IHstate IHall].
    destruct (run_all (succeeded cs rs) self') as [rs' self3] eqn:Hdone.
    simpl in *. split; [done|by constructor].
  - rewrite (Hfalse eq_refl) in Hall.
    specialize (IH self). by rewrite Hall in IH.
Qed.
End CoordinatorMore.

(** ** The scenarios, continued *)

Section ScenariosMore.
Import EscapeProtocol.

(** E1 collects a fragment while E2 has an attempt of its own. *)
Lemma call_touches_one_attempt_witness :
  let self := Scenario.after Scenario.two_entities 7 in
  let c := CollectFragment (Scenario.clock "t2") "E1" "f1" in
  (∀ uuid now entity_id entity_name,
     c ≠ StartEscapeAttempt uuid now entity_id entity_name)
  ∧ fst (run Scenario.digest c self) = true
  ∧ escape_attempts (snd (run Scenario.digest c self)) !! 1 = escape_attempts self !! 1.
Proof.
  intros self c.
  assert (∀ uuid now entity_id entity_name,
            c ≠ StartEscapeAttempt uuid now entity_id entity_name) as Hnot by done.
  assert (∃ b, escape_attempts self !! 1 = Some b ∧ EscapeAttempt.entity_id b = "E2")
    as (b & Hb & He) by (eexists; split; vm_compute; reflexivity).
  pose proof (call_touches_one_attempt Scenario.digest c self Hnot) as Hcall.
  cbn zeta in Hcall. destruct Hcall as (_ & Hout & _).
  split_and!; [exact Hnot|vm_compute; reflexivity|].
  rewrite Hb. apply Hout; [exact Hb|]. unfold c. cbn [reaches]. rewrite He. discriminate.
Defined.

(** E1 decrypts the key: its attempt stays where it was, with its id. *)
Lemma attempt_identity_kept_witness :
  let self := Scenario.after Scenario.to_key_decrypting 7 in
  let c := DecryptCoordinateKey "E1" _initialize_key_formula in
  (∀ uuid now entity_id entity_name,
     c ≠ StartEscapeAttempt uuid now entity_id entity_name)
  ∧ escape_attempts self !! 0 = Some (Scenario.first_attempt self)
  ∧ ∃ b', escape_attempts (snd (run Scenario.digest c self)) !! 0 = Some b'
          ∧ EscapeAttempt.status b' = GATEWAY_OPENING
          ∧ EscapeAttempt.attempt_id b' = "a1".
Proof.
  intros self c.
  assert (∀ uuid now entity_id entity_name,
            c ≠ StartEscapeAttempt uuid now entity_id entity_name) as Hnot by done.
  assert (escape_attempts self !! 0 = Some (Scenario.first_attempt self)) as Hj
    by (vm_compute; reflexivity).
  assert (EscapeAttempt.attempt_id (Scenario.first_attempt self) = "a1") as Hid
    by (vm_compute; reflexivity).
  destruct (attempt_identity_kept Scenario.digest c self 0 _ Hnot Hj)
    as (b' & Hj' & Hid' & _).
  split_and!; [exact Hnot|exact Hj|].
  exists b'. split_and!; [exact Hj'| |by rewrite Hid'].
  assert (escape_attempts (snd (run Scenario.digest c self)) !! 0
          = Some (decrypted _initialize_key_formula (Scenario.first_attempt self)))
    as Hj'' by (vm_compute; reflexivity).
  rewrite Hj' in Hj''. by injection Hj'' as ->.
Defined.

(** E1 in [PRINTING] completes its escape. *)
Lemma guarded_calls_never_regress_witness :
  let self := Scenario.after Scenario.to_printing 7 in
  let c := CompleteEscape "t4" "E1" in
  (∀ uuid now entity_id entity_name,
     c ≠ StartEscapeAttempt uuid now entity_id entity_name)
  ∧ (∀ entity_id fragment_id, c ≠ DiscoverKeyFragment entity_id fragment_id)
  ∧ (∀ entity_id provided_key, c ≠ DecryptCoordinateKey entity_id provided_key)
  ∧ escape_attempts self !! 0 = Some (Scenario.first_attempt self)
  ∧ ∃ b', escape_attempts (snd (run Scenario.digest c self)) !! 0 = Some b'
          ∧ EscapeStatus_.index (EscapeAttempt.status (Scenario.first_attempt self))
            ≤ EscapeStatus_.index (EscapeAttempt.status b').
Proof.
  intros self c.
  assert (∀ uuid now entity_id entity_name,
            c ≠ StartEscapeAttempt uuid now entity_id entity_name) as Hnot by done.
  assert (∀ entity_id fragment_id, c ≠ DiscoverKeyFragment entity_id fragment_id)
    as Hdiscover by done.
  assert (∀ entity_id provided_key, c ≠ DecryptCoordinateKey entity_id provided_key)
    as Hdecrypt by done.
  assert (escape_attempts self !! 0 = Some (Scenario.first_attempt self)) as Hj
    by (vm_compute; reflexivity).
  split_and!; [exact Hnot|exact Hdiscover|exact Hdecrypt|exact Hj|].
  exact (guarded_calls_never_regress Scenario.digest c self 0 _
           Hnot Hdiscover Hdecrypt Hj).
Defined.

(** E1 after its escape. *)
Lemma reachable_attempts_shape_witness :
  let self := Scenario.after Scenario.to_escaped 7 in
  reachable Scenario.digest self
  ∧ EscapeAttempt.status (Scenario.first_attempt self) = ESCAPED
  ∧ EscapeAttempt.success (Scenario.first_attempt self) = true
  ∧ EscapeAttempt.printing_complete_time (Scenario.first_attempt self) ≠ None.
Proof.
  intros self.
  assert (reachable Scenario.digest self) as Hreach by apply reachable_after.
  assert (escape_attempts self !! 0 = Some (Scenario.first_attempt self)) as Hj
    by (vm_compute; reflexivity).
  assert (EscapeAttempt.status (Scenario.first_attempt self) = ESCAPED) as Hstatus
    by (vm_compute; reflexivity).
  pose proof (Forall_lookup_1 _ _ _ _
                (reachable_attempts_shape Scenario.digest self Hreach) Hj)
    as (_ & _ & Hsuccess & Htime & _).
  split_and!; [exact Hreach|exact Hstatus|exact (Hsuccess Hstatus)
              |exact (Htime (Hsuccess Hstatus))].
Defined.

(** The gateway after the escape of E1: active, its queue empty again. *)
Lemma reachable_gateway_shape_witness :
  let self := Scenario.after Scenario.to_escaped 7 in
  let g := terminal_gateway self in
  reachable Scenario.digest self
  ∧ TerminalGateway.is_active g = true
  ∧ (g = TerminalGateway.new (TerminalGateway.gateway_id g)
     ∨ ∃ now entity_id queue,
         (queue = [entity_id] ∨ queue = [])
         ∧ g = TerminalGateway.Build (TerminalGateway.gateway_id g) "universe_singularity"
                 TerminalGateway.origin true (Some now) (Some entity_id) 7 1 queue None
                 TerminalGateway.zero).
Proof.
  intros self g.
  assert (reachable Scenario.digest self) as Hreach by apply reachable_after.
  split_and!; [exact Hreach|vm_compute; reflexivity|].
  exact (reachable_gateway_shape Scenario.digest self Hreach).
Defined.

(** E1 collects fragment f1 at t2, then E2 collects it at t3. *)
Lemma collect_fragment_reattributes_witness :
  let self := Scenario.after Scenario.two_entities 7 in
  let self1 := snd (collect_fragment (Scenario.clock "t2") "E1" "f1" self) in
  let self2 := snd (collect_fragment (Scenario.clock "t3") "E2" "f1" self1) in
  "E1" ≠ "E2"
  ∧ list_find (λ f, SourceEnergyFragment.id f = "f1")
      (UniverseState.source_energy_fragments (universe_state self))
    = Some (0, Scenario.sacred "f1")
  ∧ SourceEnergyFragment.collected_by
      <$> UniverseState.source_energy_fragments (universe_state self1) !! 0
    = Some (Some "E1")
  ∧ SourceEnergyFragment.collected_by
      <$> UniverseState.source_energy_fragments (universe_state self2) !! 0
    = Some (Some "E2")
  ∧ SourceEnergyFragment.collection_timestamp
      <$> UniverseState.source_energy_fragments (universe_state self2) !! 0
    = Some (Some "t3").
Proof.
  intros self self1 self2.
  assert ("E1" ≠ "E2") as Hne by done.
  assert (∃ a, a ∈ escape_attempts self ∧ EscapeAttempt.entity_id a = "E1") as H1
    by (eexists; split; [apply (list_elem_of_lookup_2 _ 0)|]; vm_compute; reflexivity).
  assert (∃ a, a ∈ escape_attempts self ∧ EscapeAttempt.entity_id a = "E2") as H2
    by (eexists; split; [apply (list_elem_of_lookup_2 _ 1)|]; vm_compute; reflexivity).
  assert (list_find (λ f, SourceEnergyFragment.id f = "f1")
            (UniverseState.source_energy_fragments (universe_state self))
          = Some (0, Scenario.sacred "f1")) as Hfragment by (vm_compute; reflexivity).
  pose proof (collect_fragment_reattributes (Scenario.clock "t2") (Scenario.clock "t3")
                "E1" "E2" "f1" self 0 _ Hne H1 H2 Hfragment) as Hcall.
  cbn zeta in Hcall.
  destruct Hcall as ((f1 & f2 & Hf1 & Hf2 & Hby1 & _ & Hby2 & Hat2 & _) & _).
  fold self1 in Hf1. fold self1 self2 in Hf2.
  split_and!; [exact Hne|exact Hfragment|..].
  - rewrite Hf1. simpl. by rewrite Hby1.
  - rewrite Hf2. simpl. by rewrite Hby2.
  - rewrite Hf2. simpl. by rewrite Hat2.
Defined.

(** E1 in [KEY_DECRYPTING] presents the formula; E2 has no attempt. *)
Lemma decrypt_coordinate_key_returns_witness :
  let self := Scenario.after Scenario.to_key_decrypting 7 in
  reachable Scenario.digest self
  ∧ fst (decrypt_coordinate_key Scenario.digest "E1" _initialize_key_formula self) = true
  ∧ snd (decrypt_coordinate_key Scenario.digest "E2" _initialize_key_formula self) = self.
Proof.
  intros self.
  assert (reachable Scenario.digest self) as Hreach by apply reachable_after.
  assert (∃ a, a ∈ escape_attempts self ∧ EscapeAttempt.entity_id a = "E1") as Hattempt
    by (eexists; split; [apply (list_elem_of_lookup_2 _ 0)|]; vm_compute; reflexivity).
  pose proof (decrypt_coordinate_key_returns Scenario.digest "E1" _initialize_key_formula
                self Hreach) as Hfirst.
  pose proof (decrypt_coordinate_key_returns Scenario.digest "E2" _initialize_key_formula
                self Hreach) as Hsecond.
  cbn zeta in Hfirst, Hsecond.
  destruct Hfirst as (Htrue & _). destruct Hsecond as (_ & Hfalse & _).
  split_and!; [exact Hreach|apply Htrue; by split|].
  apply Hfalse. vm_compute. reflexivity.
Defined.

(** E1, with seven fragments collected, starts a second attempt and then
    goes all the way: the second attempt stays as it was made. *)
Lemma second_attempt_never_touched_witness :
  let self := Scenario.after Scenario.collecting 7 in
  let cs := [DiscoverKeyFragment "E1" "k1";
             DecryptCoordinateKey "E1" _initialize_key_formula;
             ActivateGateway "t3" "E1"; CompleteEscape "t4" "E1"] in
  let self1 := snd (start_escape_attempt "a2" "t5" "E1" "Entity One" self) in
  Forall (λ a, EscapeAttempt.attempt_id a ≠ "a2") (escape_attempts self)
  ∧ escape_attempts self !! 0 = Some (Scenario.first_attempt self)
  ∧ EscapeAttempt.entity_id (Scenario.first_attempt self) = "E1"
  ∧ fst (run_all Scenario.digest cs self1) = [true; true; true; true]
  ∧ escape_attempts (snd (run_all Scenario.digest cs self1)) !! 1
    = Some (EscapeAttempt.with_status FRAGMENTS_COLLECTING
              (EscapeAttempt.new "a2" "t5" "E1" "Entity One")).
Proof.
  intros self cs self1.
  assert (escape_attempts self = [Scenario.first_attempt self]) as Hattempts
    by (vm_compute; reflexivity).
  assert (Forall (λ a, EscapeAttempt.attempt_id a ≠ "a2") (escape_attempts self))
    as Hfresh.
  { rewrite Hattempts. apply Forall_singleton. vm_compute. discriminate. }
  assert (escape_attempts self !! 0 = Some (Scenario.first_attempt self)) as Hi
    by (vm_compute; reflexivity).
  assert (EscapeAttempt.entity_id (Scenario.first_attempt self) = "E1") as He
    by (vm_compute; reflexivity).
  assert (Forall (λ c, ∀ uuid' now' entity_id' entity_name',
                         c = StartEscapeAttempt uuid' now' entity_id' entity_name' →
                         uuid' ≠ EscapeAttempt.attempt_id (Scenario.first_attempt self)
                         ∧ uuid' ≠ "a2") cs) as Hcs
    by (repeat (apply Forall_cons; split; [by intros|]); apply Forall_nil_2).
  pose proof (second_attempt_never_touched Scenario.digest "a2" "t5" "E1" "Entity One"
                self 0 _ cs Hfresh Hi He Hcs) as Hcall.
  cbn zeta in Hcall. destruct Hcall as (_ & _ & Hkept).
  assert (length (escape_attempts self) = 1) as Hlen by (vm_compute; reflexivity).
  rewrite Hlen in Hkept.
  split_and!; [exact Hfresh|exact Hi|exact He|vm_compute; reflexivity|exact Hkept].
Defined.

(** E1 has escaped: its attempt lists seven fragment ids and holds the
    formula as its key. *)
Lemma escape_needs_fragments_and_key_witness :
  let self := Scenario.after Scenario.to_escaped 7 in
  reachable Scenario.digest self
  ∧ EscapeAttempt.success (Scenario.first_attempt self) = true
  ∧ 7 ≤ length (EscapeAttempt.collected_a_level_fragments (Scenario.first_attempt self))
  ∧ ∃ key, EscapeAttempt.final_coordinate_key (Scenario.first_attempt self) = Some key
           ∧ Scenario.digest key = Scenario.digest _initialize_key_formula.
Proof.
  intros self.
  assert (reachable Scenario.digest self) as Hreach by apply reachable_after.
  assert (escape_attempts self !! 0 = Some (Scenario.first_attempt self)) as Hj
    by (vm_compute; reflexivity).
  assert (EscapeAttempt.success (Scenario.first_attempt self) = true) as Hsuccess
    by (vm_compute; reflexivity).
  pose proof (Forall_lookup_1 _ _ _ _
                (escape_needs_fragments_and_key Scenario.digest self Hreach) Hj)
    as (Hkey & Hlen).
  split_and!; [exact Hreach|exact Hsuccess|apply Hlen; auto|apply Hkey; auto].
Defined.

(** The report on E1 after its escape, and on E2, who never started. *)
Lemma get_escape_progress_reports_witness :
  let self := Scenario.after Scenario.to_escaped 7 in
  reachable Scenario.digest self
  ∧ list_find (λ a, EscapeAttempt.entity_id a = "E1") (escape_attempts self)
    = Some (0, Scenario.first_attempt self)
  ∧ ∃ d, get_escape_progress "E1" self = Some d
         ∧ d !! "status" = Some (PStr "escaped")
         ∧ d !! "fragments_collected" = Some (PInt 7)
         ∧ d !! "success" = Some (PBool true).
Proof.
  intros self.
  assert (reachable Scenario.digest self) as Hreach by apply reachable_after.
  assert (list_find (λ a, EscapeAttempt.entity_id a = "E1") (escape_attempts self)
          = Some (0, Scenario.first_attempt self)) as Hfind by (vm_compute; reflexivity).
  destruct (get_escape_progress_reports Scenario.digest "E1" self Hreach)
    as (_ & Hreport & _).
  destruct (Hreport 0 _ Hfind) as (d & Hd & Hstatus & Hcollected & Hsuccess).
  split_and!; [exact Hreach|exact Hfind|].
  exists d. split_and!;
    [exact Hd|rewrite Hstatus|rewrite Hcollected|rewrite Hsuccess];
    vm_compute; reflexivity.
Defined.



(** On a fresh coordinator E1 asks for the gateway, starts an attempt and
    asks to complete its escape: only the start returns [True]. *)
Lemma failed_calls_leave_no_trace_witness :
  let self := Scenario.fresh 7 in
  let cs := [ActivateGateway "t1" "E1";
             StartEscapeAttempt "a1" "t2" "E1" "Entity One";
             CompleteEscape "t3" "E1"] in
  Forall (λ c, ∀ now entity_id fragment_id,
                 c ≠ CollectFragment now entity_id fragment_id) cs
  ∧ fst (run_all Scenario.digest cs self) = [false; true; false]
  ∧ snd (run_all Scenario.digest [StartEscapeAttempt "a1" "t2" "E1" "Entity One"] self)
    = snd (run_all Scenario.digest cs self).
Proof.
  intros self cs.
  assert (Forall (λ c, ∀ now entity_id fragment_id,
                         c ≠ CollectFragment now entity_id fragment_id) cs) as Hcs
    by (repeat (apply Forall_cons; split; [by intros|]); apply Forall_nil_2).
  assert (fst (run_all Scenario.digest cs self) = [false; true; false]) as Hrs
    by (vm_compute; reflexivity).
  pose proof (failed_calls_leave_no_trace Scenario.digest cs self Hcs) as Hcall.
  cbn zeta in Hcall. destruct Hcall as [Hsame _]. rewrite Hrs in Hsame.
  split_and!; [exact Hcs|exact Hrs|exact Hsame].
Defined.
End ScenariosMore.
